(** * vezlo/ai-validator: the confidence fusion engine, the context-relevance
      validator, the semantic grader's verdict parser and the orchestrator

    A shallow embedding of
      - [src/ConfidenceScorer.ts]   (class [ConfidenceScorer]),
      - [src/AIValidator.ts]        (class [AIValidator]),
      - [src/ContextValidator.ts]   (class [ContextValidator]),
      - [src/LLMJudge.ts]           (class [LLMJudge]),
      - [src/types.ts]              (the result records).

    Modelling conventions.
      - A JavaScript number that is a score is a rational [Q]: a decimal
        literal such as [0.35] denotes exactly 35/100 and arithmetic is exact.
        The rounding of binary64 arithmetic is not modelled; the one run on
        doubles is the cross-check [scenario_C_binary64].  Equality of scores
        is [Qeq] ([==]).  The numbers that a parsed verdict may hold ([NaN],
        the infinities) exist in [Js.number] only.
      - A JavaScript string is a [string]: a sequence of 8-bit characters, each
        read as the code unit of that value (0..255).
      - A function that may throw returns an [Outcome]; [try]/[catch] is
        [catch].  An [async] method is a computation in the monad [Async]: it
        threads the trace of the invocations made so far and ends resolved
        with a value or rejected with the thrown value.
      - What the classes call but this repository does not define is a field
        of [Env.t]: the built-ins [JSON.parse] and the conversions between
        strings and numbers, the clients of the two providers, and the
        collaborators [QueryClassifier], [AccuracyChecker] and
        [HallucinationDetector].  The theorems hold for every [Env.t].
      - Console output ([console.log], [console.warn], [console.error]) is not
        part of the model. *)

From Stdlib Require Import QArith Qround Qminmax Lqa Lia ZArith.
From Stdlib Require Import List String Ascii Bool Arith DecimalString.
From Stdlib Require Import Floats Permutation.
From ExtLib Require Import Structures.Monad Structures.MonadExc.

Set Warnings "-inexact-float".
Import ListNotations.

Open Scope Q_scope.

(* ================================================================== *)
(** * JavaScript numbers as rationals *)
(* ================================================================== *)

(** [n] as a number, for [n] a length or a counter. *)
Definition Q_of_nat (n : nat) : Q := inject_Z (Z.of_nat n).

(** [x < y] as a boolean. *)
Definition Qlt_bool (x y : Q) : bool := negb (Qle_bool y x).

(** [Math.round]: the nearest integer, a tie going up. *)
Definition Math_round (x : Q) : Q := inject_Z (Qfloor (x + (1 # 2))).

(** [Math.min] and [Math.max] of two (finite) numbers. *)
Definition Math_min (x y : Q) : Q := if Qle_bool x y then x else y.
Definition Math_max (x y : Q) : Q := if Qle_bool x y then y else x.

(** The idiom [Math.round(x * 100) / 100] of [calculateConfidence]. *)
Definition round2 (x : Q) : Q := Math_round (x * 100) / 100.

(* ================================================================== *)
(** * types.ts *)
(* ================================================================== *)

Module Source.
Record t : Type := mk {
  content : string;
  title : option string;
  url : option string;
  id : option string;
  embedding : option (list Q)
}.
End Source.
Abbreviation Source := Source.t.

Module ValidationInput.
Record t : Type := mk {
  query : string;
  response : string;
  sources : list Source
}.
End ValidationInput.
Abbreviation ValidationInput := ValidationInput.t.

Module AccuracyResult.
Record t : Type := mk {
  verified : bool;
  verification_rate : Q;
  reason : option string
}.
End AccuracyResult.
Abbreviation AccuracyResult := AccuracyResult.t.

Module ContextResult.
Record t : Type := mk {
  source_relevance : Q;
  source_usage_rate : Q;
  valid : bool
}.
End ContextResult.
Abbreviation ContextResult := ContextResult.t.

Module HallucinationResult.
Record t : Type := mk {
  detected : bool;
  risk : Q;
  hallucinated_parts : option (list string)
}.
End HallucinationResult.
Abbreviation HallucinationResult := HallucinationResult.t.

Inductive Level : Type := high | medium | low.

Module Breakdown.
Record t : Type := mk {
  accuracy_score : Q;
  context_score : Q;
  hallucination_score : Q;
  source_quality : Q
}.
End Breakdown.

Module ConfidenceResult.
Record t : Type := mk {
  confidence_score : Q;
  level : Level;
  breakdown : Breakdown.t
}.
End ConfidenceResult.
Abbreviation ConfidenceResult := ConfidenceResult.t.

(** The [type] of a [QueryClassificationResult]. *)
Inductive QueryType : Type :=
  greeting | typo | small_talk | question | command | clarification.

Module QueryClassificationResult.
Record t : Type := mk {
  type : QueryType;
  confidence : Q;
  skip_validation : bool
}.
End QueryClassificationResult.
Abbreviation QueryClassificationResult := QueryClassificationResult.t.

Module ValidationResult.
Record t : Type := mk {
  confidence : Q;
  valid : bool;
  accuracy : AccuracyResult;
  context : ContextResult;
  hallucination : HallucinationResult;
  warnings : list string;
  query_type : option QueryType;
  skip_validation : option bool
}.
End ValidationResult.
Abbreviation ValidationResult := ValidationResult.t.

(** ['openai' | 'claude']. *)
Module Provider.
Inductive t : Type := openai | claude.
End Provider.
Abbreviation Provider := Provider.t.

(* ================================================================== *)
(** * ConfidenceScorer.ts *)
(* ================================================================== *)

Module Weights.
Record t : Type := mk {
  accuracy : Q;
  context : Q;
  hallucination : Q;
  sourceQuality : Q
}.
End Weights.

(** The optional argument [enabledChecks?: { accuracy; hallucination }].  A
    flag is [None] when the property is absent (or [undefined]), so that a
    caller that leaves one out is covered too. *)
Module EnabledChecks.
Record t : Type := mk {
  accuracy : option bool;
  hallucination : option bool
}.
End EnabledChecks.

(** [a ?? d]: [d] when [a] is absent. *)
Definition nullish {A : Type} (a : option A) (d : A) : A :=
  match a with
  | Some v => v
  | None => d
  end.

(** [enabledChecks?.accuracy] and [enabledChecks?.hallucination]. *)
Definition opt_accuracy (e : option EnabledChecks.t) : option bool :=
  match e with
  | Some c => EnabledChecks.accuracy c
  | None => None
  end.

Definition opt_hallucination (e : option EnabledChecks.t) : option bool :=
  match e with
  | Some c => EnabledChecks.hallucination c
  | None => None
  end.

Module ConfidenceScorer.

(** The [if]/[else if] chain that assigns [weights]. *)
Definition select_weights (accuracyEnabled hallucinationEnabled : bool) : Weights.t :=
  if negb accuracyEnabled && negb hallucinationEnabled then
    Weights.mk 0 0.60 0 0.40
  else if negb accuracyEnabled then
    Weights.mk 0 0.35 0.45 0.20
  else if negb hallucinationEnabled then
    Weights.mk 0.50 0.30 0 0.20
  else
    Weights.mk 0.35 0.25 0.30 0.10.

(** The body of the [for] loop of [calculateSourceQuality], up to the cap:
    the value of [quality] after the three bonuses. *)
Definition uncapped_quality_of (source : Source) : Q :=
  let quality := 0.5 in
  let quality :=
    if (100 <? String.length (Source.content source))%nat then quality + 0.2 else quality in
  let quality :=
    if (500 <? String.length (Source.content source))%nat then quality + 0.2 else quality in
  match Source.title source with
  | Some t => if (0 <? String.length t)%nat then quality + 0.1 else quality
  | None => quality
  end.

(** [quality = Math.min(quality, 1.0)]: what one source adds to [totalQuality]. *)
Definition quality_of (source : Source) : Q :=
  Math_min (uncapped_quality_of source) 1.0.

Definition calculateSourceQuality (sources : list Source) : Q :=
  match sources with
  | [] => 0
  | _ =>
      let totalQuality :=
        fold_left (fun totalQuality source => totalQuality + quality_of source) sources 0 in
      totalQuality / Q_of_nat (List.length sources)
  end.

(** The weighted sum [confidenceScore], before rounding. *)
Definition weighted_sum (w : Weights.t)
    (accuracyScore contextScore hallucinationScore sourceQualityScore : Q) : Q :=
  accuracyScore * Weights.accuracy w +
  contextScore * Weights.context w +
  hallucinationScore * Weights.hallucination w +
  sourceQualityScore * Weights.sourceQuality w.

(** The metrics named in the log line: those whose weight is positive. *)
Inductive Metric : Type := Accuracy | Context | Grounding | SourceQuality.

Definition activeMetrics (w : Weights.t) : list Metric :=
  (if Qlt_bool 0 (Weights.accuracy w) then [Accuracy] else []) ++
  (if Qlt_bool 0 (Weights.context w) then [Context] else []) ++
  (if Qlt_bool 0 (Weights.hallucination w) then [Grounding] else []) ++
  (if Qlt_bool 0 (Weights.sourceQuality w) then [SourceQuality] else []).

Definition weight_of (w : Weights.t) (m : Metric) : Q :=
  match m with
  | Accuracy => Weights.accuracy w
  | Context => Weights.context w
  | Grounding => Weights.hallucination w
  | SourceQuality => Weights.sourceQuality w
  end.

(** The sum of the weights of the active metrics. *)
Definition active_weight_total (w : Weights.t) : Q :=
  fold_right (fun m total => weight_of w m + total) 0 (activeMetrics w).

Definition level_of (confidenceScore : Q) : Level :=
  if Qle_bool 0.8 confidenceScore then high
  else if Qle_bool 0.5 confidenceScore then medium
  else low.

(** The weights [calculateConfidence] works with for a given argument. *)
Definition weights_for (enabledChecks : option EnabledChecks.t) : Weights.t :=
  let accuracyEnabled := nullish (opt_accuracy enabledChecks) true in
  let hallucinationEnabled := nullish (opt_hallucination enabledChecks) true in
  select_weights accuracyEnabled hallucinationEnabled.

(** The unrounded [confidenceScore] of [calculateConfidence]. *)
Definition confidenceScore_of
    (accuracyResult : AccuracyResult) (contextResult : ContextResult)
    (hallucinationResult : HallucinationResult) (sources : list Source)
    (enabledChecks : option EnabledChecks.t) : Q :=
  weighted_sum (weights_for enabledChecks)
    (AccuracyResult.verification_rate accuracyResult)
    (ContextResult.source_relevance contextResult)
    (1 - HallucinationResult.risk hallucinationResult)
    (calculateSourceQuality sources).

Definition calculateConfidence
    (accuracyResult : AccuracyResult) (contextResult : ContextResult)
    (hallucinationResult : HallucinationResult) (sources : list Source)
    (enabledChecks : option EnabledChecks.t) : ConfidenceResult :=
  let accuracyEnabled := nullish (opt_accuracy enabledChecks) true in
  let hallucinationEnabled := nullish (opt_hallucination enabledChecks) true in
  let weights := select_weights accuracyEnabled hallucinationEnabled in
  let accuracyScore := AccuracyResult.verification_rate accuracyResult in
  let contextScore := ContextResult.source_relevance contextResult in
  let hallucinationScore := 1 - HallucinationResult.risk hallucinationResult in
  let sourceQualityScore := calculateSourceQuality sources in
  let confidenceScore :=
    accuracyScore * Weights.accuracy weights +
    contextScore * Weights.context weights +
    hallucinationScore * Weights.hallucination weights +
    sourceQualityScore * Weights.sourceQuality weights in
  let level :=
    if Qle_bool 0.8 confidenceScore then high
    else if Qle_bool 0.5 confidenceScore then medium
    else low in
  ConfidenceResult.mk
    (Math_round (confidenceScore * 100) / 100)
    level
    (Breakdown.mk
       (Math_round (accuracyScore * 100) / 100)
       (Math_round (contextScore * 100) / 100)
       (Math_round (hallucinationScore * 100) / 100)
       (Math_round (sourceQualityScore * 100) / 100)).

End ConfidenceScorer.

(* ================================================================== *)
(** * Strings: the string methods and the two regular expressions of
      [wordMatchingValidation] *)
(* ================================================================== *)

Module JsString.

(** [\s] on code units below 256: tab, line feed, vertical tab, form feed,
    carriage return, space and the no-break space. *)
Definition is_space (c : ascii) : bool :=
  let n := nat_of_ascii c in
  ((9 <=? n) && (n <=? 13) || (n =? 32) || (n =? 160))%nat.

(** [\w]: [A-Za-z0-9_]. *)
Definition is_word (c : ascii) : bool :=
  let n := nat_of_ascii c in
  ((65 <=? n) && (n <=? 90) || (97 <=? n) && (n <=? 122) ||
   (48 <=? n) && (n <=? 57) || (n =? 95))%nat.

(** [toLowerCase] on one code unit below 256: [A-Z] and the capital letters
    of the Latin-1 block (all of 192..222 but the multiplication sign 215). *)
Definition lower_char (c : ascii) : ascii :=
  let n := nat_of_ascii c in
  if ((65 <=? n) && (n <=? 90) ||
      (192 <=? n) && (n <=? 222) && negb (n =? 215))%nat
  then ascii_of_nat (n + 32)
  else c.

Fixpoint toLowerCase (s : string) : string :=
  match s with
  | EmptyString => EmptyString
  | String c r => String (lower_char c) (toLowerCase r)
  end.

(** [s.replace(/[^\w\s]/g, '')]: every character that is neither a word
    character nor white space is removed. *)
Fixpoint strip_punctuation (s : string) : string :=
  match s with
  | EmptyString => EmptyString
  | String c r =>
      if is_word c || is_space c then String c (strip_punctuation r)
      else strip_punctuation r
  end.

(** [s.split(/\s+/)].  [split_from after_sep s] is the list of pieces of [s]
    when the characters before [s] ended in a separator run ([after_sep]) or
    not; the head of the list is the piece in progress.  A run of white space
    at either end of the string leaves an empty piece there, and the empty
    string splits into one empty piece, as in JavaScript. *)
Fixpoint split_from (after_sep : bool) (s : string) : list string :=
  match s with
  | EmptyString => [EmptyString]
  | String c r =>
      if is_space c then
        if after_sep then split_from true r
        else EmptyString :: split_from true r
      else
        match split_from false r with
        | piece :: pieces => String c piece :: pieces
        | [] => [String c EmptyString]
        end
  end.

Definition split_whitespace (s : string) : list string := split_from false s.

(** [parts.join(sep)]. *)
Fixpoint join (sep : string) (parts : list string) : string :=
  match parts with
  | [] => EmptyString
  | [p] => p
  | p :: rest => (p ++ sep ++ join sep rest)%string
  end.

(** Whether the character [c] occurs in [s]. *)
Fixpoint has_char (c : ascii) (s : string) : bool :=
  match s with
  | EmptyString => false
  | String x r => Ascii.eqb x c || has_char c r
  end.

(** [words.includes(word)]. *)
Definition includes (words : list string) (word : string) : bool :=
  existsb (String.eqb word) words.

(** A value used as a condition: a string is truthy when it is present and
    not empty. *)
Definition truthy (s : option string) : bool :=
  match s with
  | Some v => negb (String.eqb v EmptyString)
  | None => false
  end.

(** [a || b] on optional strings. *)
Definition or_else (a : option string) (b : string) : string :=
  match a with
  | Some v => if String.eqb v EmptyString then b else v
  | None => b
  end.

End JsString.

(* ================================================================== *)
(** * ContextValidator.ts: the lexical fallback *)
(* ================================================================== *)

Module WordMatching.
Import JsString.

(** The loop [for (const word of words) if (others.includes(word)) n++]. *)
Definition count_included (words others : list string) : nat :=
  fold_left (fun n word => if includes others word then S n else n) words 0%nat.

Definition wordMatchingValidation
    (query response : string) (sources : list Source) : ContextResult :=
  let cleanResponse := strip_punctuation (toLowerCase response) in
  let sourceContent :=
    join " " (map (fun s => strip_punctuation (toLowerCase (Source.content s))) sources) in
  let responseWords :=
    filter (fun word => (3 <? String.length word)%nat) (split_whitespace cleanResponse) in
  let sourceWords :=
    filter (fun word => (3 <? String.length word)%nat) (split_whitespace sourceContent) in
  let wordsInSource := count_included responseWords sourceWords in
  let sourceRelevance :=
    if (0 <? List.length responseWords)%nat
    then Q_of_nat wordsInSource / Q_of_nat (List.length responseWords)
    else 0.5 in
  let cleanQuery := strip_punctuation (toLowerCase query) in
  let queryWords :=
    filter (fun word => (2 <? String.length word)%nat) (split_whitespace cleanQuery) in
  let queryWordsInResponse := count_included queryWords responseWords in
  let sourceUsageRate :=
    if (0 <? List.length queryWords)%nat
    then Q_of_nat queryWordsInResponse / Q_of_nat (List.length queryWords)
    else 0.5 in
  ContextResult.mk
    (Math_min sourceRelevance 1.0)
    sourceUsageRate
    (Qlt_bool 0.3 sourceRelevance).

End WordMatching.

(* ================================================================== *)
(** * Exceptions, promises and the trace of invocations *)
(* ================================================================== *)

(** A thrown value: an instance of [Error] with its [message], or any other
    value. *)
Inductive Thrown : Type :=
| ErrorObject (message : string)
| OtherThrown.

(** How a piece of code ends: it returns a value or throws.  For an [async]
    method: its promise is resolved with a value or rejected. *)
Inductive Outcome (A : Type) : Type :=
| Normal (a : A)
| Throw (e : Thrown).
Arguments Normal {A} a.
Arguments Throw {A} e.

#[global] Instance Monad_Outcome : Monad Outcome := {
  ret := fun _ a => Normal a;
  bind := fun _ _ c k =>
    match c with
    | Normal a => k a
    | Throw e => Throw e
    end
}.

(** [try { body } catch (error) { handler }]. *)
#[global] Instance Exc_Outcome : MonadExc Thrown Outcome := {
  raise := fun _ e => Throw e;
  catch := fun _ body handler =>
    match body with
    | Normal a => Normal a
    | Throw e => handler e
    end
}.

(** The calls that leave a component, and the entries into the two graders
    of the context validator. *)
Inductive Invocation : Type :=
| classifyQuery_called (query : string)
| checkAccuracy_called
    (response : string) (sources : list Source) (provider : Provider) (model : string)
| detectHallucination_called
    (response : string) (sources : list Source) (provider : Provider) (model : string)
| LLMJudge_validateContext_called (query response : string) (sources : list Source)
| chat_completions_create_called (model prompt : string)
| messages_create_called (model prompt : string)
| wordMatchingValidation_called (query response : string) (sources : list Source).

Definition Trace : Type := list Invocation.

(** An [async] method: given the invocations made so far it settles and
    leaves the longer trace.  The invocations of a rejected computation
    stay in the trace. *)
Definition Async (A : Type) : Type := Trace -> Outcome A * Trace.

#[global] Instance Monad_Async : Monad Async := {
  ret := fun _ a t => (Normal a, t);
  bind := fun _ _ c k t =>
    match c t with
    | (Normal a, t') => k a t'
    | (Throw e, t') => (Throw e, t')
    end
}.

#[global] Instance Exc_Async : MonadExc Thrown Async := {
  raise := fun _ e t => (Throw e, t);
  catch := fun _ body handler t =>
    match body t with
    | (Normal a, t') => (Normal a, t')
    | (Throw e, t') => handler e t'
    end
}.

(** One invocation of a collaborator that settles as [reply]. *)
Definition invoke {A : Type} (call : Invocation) (reply : Outcome A) : Async A :=
  fun t => (reply, (t ++ [call])%list).

(** The entry into a method of this repository, recorded in the trace. *)
Definition entered (call : Invocation) : Async unit := invoke call (Normal tt).

(** A synchronous result awaited. *)
Definition settled {A : Type} (o : Outcome A) : Async A := fun t => (o, t).

(** The positions of the array handed to [Promise.all] in [validate]. *)
Inductive Slot : Type := accuracy_slot | context_slot | hallucination_slot.

(** The rejection [Promise.all] ends with: of the promises that reject, the
    one that settles first ([settle_time]); the earlier position wins a tie. *)
Fixpoint first_rejection (settle_time : Slot -> nat)
    (rejections : list (Slot * Thrown)) : option (Slot * Thrown) :=
  match rejections with
  | [] => None
  | (s, e) :: rest =>
      match first_rejection settle_time rest with
      | Some (s', e') =>
          if (settle_time s' <? settle_time s)%nat then Some (s', e') else Some (s, e)
      | None => Some (s, e)
      end
  end.

Definition rejection_of {A : Type} (s : Slot) (o : Outcome A) : list (Slot * Thrown) :=
  match o with
  | Normal _ => []
  | Throw e => [(s, e)]
  end.

(** [await Promise.all([a, b, c])] for the three checks.  The three
    expressions of the array are evaluated in order, so every one of them is
    started whatever the others do; the join resolves with the three values
    or rejects with the first rejection.  The trace lists the invocations of
    the three tasks task by task, in the order of the array; it does not
    record how the tasks interleave. *)
Definition Promise_all3 {A B C : Type} (settle_time : Slot -> nat)
    (a : Async A) (b : Async B) (c : Async C) : Async (A * B * C) :=
  fun t =>
    let '(oa, t1) := a t in
    let '(ob, t2) := b t1 in
    let '(oc, t3) := c t2 in
    match oa, ob, oc with
    | Normal x, Normal y, Normal z => (Normal (x, y, z), t3)
    | _, _, _ =>
        match first_rejection settle_time
                (rejection_of accuracy_slot oa ++ rejection_of context_slot ob ++
                 rejection_of hallucination_slot oc)%list with
        | Some (_, e) => (Throw e, t3)
        | None => (Throw OtherThrown, t3)
        end
    end.

(* ================================================================== *)
(** * JavaScript values: what [JSON.parse] returns and how [Number]
      coerces it *)
(* ================================================================== *)

Module Js.

(** A number as a value of the language: [NaN] and the infinities beside the
    finite ones. *)
Inductive number : Type :=
| NaN
| Infinity
| NegInfinity
| Finite (q : Q).

(** A value.  The own properties of an object are listed with their names,
    each name once. *)
#[warnings="-register-all"]
Inductive value : Type :=
| Undefined
| Null
| Boolean (b : bool)
| Number (n : number)
| Str (s : string)
| Array (elements : list value)
| Object (properties : list (string * value)).

(** The built-ins of the runtime that the judge relies on and that are not
    code of this repository. *)
Record Runtime : Type := {
  (** [JSON.parse(text)]: the value, or the [SyntaxError] thrown. *)
  JSON_parse : string -> Outcome value;
  (** The conversion of a string to a number ([Number("0.5")]). *)
  StringToNumber : string -> number;
  (** The conversion of a number to a string ([String(0.5)]). *)
  NumberToString : number -> string
}.

Fixpoint lookup (name : string) (properties : list (string * value)) : option value :=
  match properties with
  | [] => None
  | (k, v) :: rest => if String.eqb k name then Some v else lookup name rest
  end.

Definition type_error (what name : string) : Thrown :=
  ErrorObject ("Cannot read properties of " ++ what ++ " (reading '" ++ name ++ "')").

(** [v.name] for a name that no prototype defines ([valid],
    [source_relevance], [source_usage_rate]): the own property of an object,
    [undefined] on any other value, a [TypeError] on [undefined] and [null]. *)
Definition get (v : value) (name : string) : Outcome value :=
  match v with
  | Undefined => Throw (type_error "undefined" name)
  | Null => Throw (type_error "null" name)
  | Object properties =>
      match lookup name properties with
      | Some x => Normal x
      | None => Normal Undefined
      end
  | _ => Normal Undefined
  end.

(** [v === true]. *)
Definition is_true (v : value) : bool :=
  match v with
  | Boolean true => true
  | _ => false
  end.

(** [String(v)]; an array is the join of its elements by a comma, [null]
    and [undefined] elements being empty. *)
Fixpoint ToString (rt : Runtime) (v : value) : string :=
  match v with
  | Undefined => "undefined"
  | Null => "null"
  | Boolean true => "true"
  | Boolean false => "false"
  | Number n => NumberToString rt n
  | Str s => s
  | Array elements =>
      JsString.join ","
        (map (fun e =>
                match e with
                | Undefined | Null => EmptyString
                | _ => ToString rt e
                end) elements)
  | Object _ => "[object Object]"
  end.

(** [Number(v)]. *)
Definition ToNumber (rt : Runtime) (v : value) : number :=
  match v with
  | Undefined => NaN
  | Null => Finite 0
  | Boolean true => Finite 1
  | Boolean false => Finite 0
  | Number n => n
  | Str s => StringToNumber rt s
  | Array _ | Object _ => StringToNumber rt (ToString rt v)
  end.


(** [n || 0]: [NaN] and zero are falsy. *)
Definition or_zero (n : number) : number :=
  match n with
  | NaN => Finite 0
  | Finite q => if Qeq_bool q 0 then Finite 0 else Finite q
  | _ => n
  end.

(** [Math.min(1, n)] and [Math.max(0, n)]. *)
Definition min_1 (n : number) : number :=
  match n with
  | NaN => NaN
  | Infinity => Finite 1
  | NegInfinity => NegInfinity
  | Finite q => Finite (Math_min 1 q)
  end.

Definition max_0 (n : number) : number :=
  match n with
  | NaN => NaN
  | Infinity => Infinity
  | NegInfinity => Finite 0
  | Finite q => Finite (Math_max 0 q)
  end.

(** A number stored in a score field; [clamp_finite] below shows that the
    numbers the judge stores are finite. *)
Definition as_score (n : number) : Q :=
  match n with
  | Finite q => q
  | _ => 0
  end.

(** [Math.max(0, Math.min(1, Number(v) || 0))]. *)
Definition clamp (rt : Runtime) (v : value) : number :=
  max_0 (min_1 (or_zero (ToNumber rt v))).

End Js.

(* ================================================================== *)
(** * The collaborators of one validator *)
(* ================================================================== *)

(** The first content block of an Anthropic reply. *)
Inductive ContentBlock : Type :=
| TextBlock (text : string)
| OtherBlock.

(** What lies outside the modelled classes: the runtime, the two provider
    clients, the three collaborators of the orchestrator
    ([QueryClassifier.classifyQuery], [AccuracyChecker.checkAccuracy],
    [HallucinationDetector.detectHallucination]) and the order in which the
    promises of the fan-out settle.  Each reply is the outcome of the call
    for its arguments. *)
Module Env.
Record t : Type := mk {
  runtime : Js.Runtime;
  (** [openai.chat.completions.create({model, messages, ...})]:
      [response.choices[0]?.message?.content], when there is one. *)
  chat_completions_create : string -> string -> Outcome (option string);
  (** [anthropic.messages.create({model, messages, ...})]:
      [response.content[0]], when there is one. *)
  messages_create : string -> string -> Outcome (option ContentBlock);
  classifyQuery : string -> Outcome QueryClassificationResult;
  checkAccuracy :
    string -> list Source -> Provider -> string -> Outcome AccuracyResult;
  detectHallucination :
    string -> list Source -> Provider -> string -> Outcome HallucinationResult;
  settle_time : Slot -> nat
}.
End Env.

Import MonadNotation.
Local Open Scope monad_scope.

(* ================================================================== *)
(** * LLMJudge.ts *)
(* ================================================================== *)

Module LLMJudge.
Import JsString.
Local Open Scope string_scope.

(** The fields of an instance; a client is present once it was built from
    its key. *)
Record t : Type := mk {
  openai : option string;
  anthropic : option string;
  provider : Provider;
  developerMode : bool;
  openaiModel : string;
  claudeModel : string
}.

(** The constructor. *)
Definition new (openaiApiKey claudeApiKey : option string)
    (developerMode : option bool) (openaiModel claudeModel : option string) : Outcome t :=
  let developerMode := nullish developerMode false in
  let openaiModel := nullish openaiModel "gpt-4o-mini"%string in
  let claudeModel := nullish claudeModel "claude-3-haiku-20240307"%string in
  if truthy openaiApiKey then
    Normal (mk openaiApiKey None Provider.openai developerMode openaiModel claudeModel)
  else if truthy claudeApiKey then
    Normal (mk None claudeApiKey Provider.claude developerMode openaiModel claudeModel)
  else
    Throw (ErrorObject
             "At least one API key (OpenAI or Claude) must be provided for LLM Judge").

Definition newline : string := String (ascii_of_nat 10) EmptyString.
Definition dquote : string := String (ascii_of_nat 34) EmptyString.

(** The lines of a template literal. *)
Definition lines (l : list string) : string := join newline l.

Definition decimal (n : nat) : string := NilEmpty.string_of_uint (Nat.to_uint n).

(** [sources.map((s, i) => ...)]. *)
Fixpoint map_indexed {A B : Type} (f : A -> nat -> B) (i : nat) (l : list A) : list B :=
  match l with
  | [] => []
  | x :: rest => f x i :: map_indexed f (S i) rest
  end.

Definition developer_rules : string :=
  lines [
    "TASK (Developer Mode - STRICT CODE GROUNDING):";
    "1. Does the response reference SPECIFIC code elements (functions, classes, files) from sources?";
    "2. Is the response explaining actual code implementation, not generic advice?";
    "3. Did the AI cite filenames, function names, or code patterns from the sources?";
    "4. Score LOW if response is generic " ++ dquote ++ "how to" ++ dquote ++
      " advice instead of code analysis.";
    "5. Score HIGH only if response directly explains code from sources.";
    "";
    "Scoring Guidelines for Developer Mode:";
    "- valid: true ONLY if response cites specific code elements from sources";
    "- confidence: HIGH (80-100) if response references actual code/functions/files";
    "- confidence: MEDIUM (50-79) if response mentions code but is partly generic";
    "- confidence: LOW (0-49) if response is generic advice not grounded in code";
    "- source_relevance: How much the response references actual code from sources";
    "- source_usage_rate: How many code elements/files from sources were mentioned"
  ]%string.

Definition user_rules : string :=
  lines [
    "TASK (User Mode - Helpful Response):";
    "1. Is the response accurate and helpful based on the sources?";
    "2. Did the AI hallucinate or invent information not in the sources?";
    "3. Is the response properly grounded in the provided code/text?";
    "";
    "Scoring Guidelines for User Mode:";
    "- valid: true if response is accurate and grounded";
    "- confidence: 0-100 (how confident you are in this assessment)";
    "- source_relevance: 0.0-1.0 (how relevant sources are to response)";
    "- source_usage_rate: 0.0-1.0 (how much of sources were used)"
  ]%string.

Definition buildValidationPrompt (self : t)
    (query response : string) (sources : list Source) : string :=
  let sourcesText :=
    join (newline ++ newline)
      (map_indexed
         (fun s i =>
            "Source " ++ decimal (i + 1) ++ " (" ++
            or_else (Source.title s) (or_else (Source.id s) "untitled") ++ "):" ++
            newline ++ substring 0 3000 (Source.content s))
         0 sources) in
  let validationRules := if developerMode self then developer_rules else user_rules in
  lines [
    "You are a validation system. Given a user query, code/text sources, and an AI-generated response, determine if the response is accurate and grounded in the provided sources.";
    "";
    "USER QUERY:";
    query;
    "";
    "PROVIDED SOURCES:";
    sourcesText;
    "";
    "AI RESPONSE:";
    response;
    "";
    validationRules;
    "";
    "Return ONLY a JSON object with this exact format:";
    "{";
    "  " ++ dquote ++ "valid" ++ dquote ++ ": true/false,";
    "  " ++ dquote ++ "confidence" ++ dquote ++ ": 0-100,";
    "  " ++ dquote ++ "source_relevance" ++ dquote ++ ": 0.0-1.0,";
    "  " ++ dquote ++ "source_usage_rate" ++ dquote ++ ": 0.0-1.0,";
    "  " ++ dquote ++ "reason" ++ dquote ++ ": " ++ dquote ++ "brief explanation" ++ dquote;
    "}";
    "";
    "Respond with ONLY the JSON, no other text."
  ]%string.

Definition callOpenAI (env : Env.t) (self : t) (prompt : string) : Async string :=
  match openai self with
  | None => raise (ErrorObject "OpenAI not initialized")
  | Some _ =>
      content <- invoke (chat_completions_create_called (openaiModel self) prompt)
                   (Env.chat_completions_create env (openaiModel self) prompt) ;;
      ret (or_else content "{}")
  end.

Definition callClaude (env : Env.t) (self : t) (prompt : string) : Async string :=
  match anthropic self with
  | None => raise (ErrorObject "Claude not initialized")
  | Some _ =>
      content <- invoke (messages_create_called (claudeModel self) prompt)
                   (Env.messages_create env (claudeModel self) prompt) ;;
      match content with
      | Some (TextBlock text) => ret text
      | Some OtherBlock => ret "{}"%string
      | None => raise (Js.type_error "undefined" "type")
      end
  end.

(** The longest prefix of [s] that ends in a closing brace. *)
Fixpoint upto_last_close (s : string) : option string :=
  match s with
  | EmptyString => None
  | String c r =>
      match upto_last_close r with
      | Some p => Some (String c p)
      | None => if Ascii.eqb c "}" then Some (String c EmptyString) else None
      end
  end.

(** [result.match(/\{[\s\S]*\}/)]: the match [jsonMatch[0]], if any.  The
    leftmost opening brace that has a closing brace after it starts the
    match, and the star being greedy it runs to the last closing brace. *)
Fixpoint match_braces (result : string) : option string :=
  match result with
  | EmptyString => None
  | String c r =>
      if Ascii.eqb c "{" then
        match upto_last_close r with
        | Some p => Some (String c p)
        | None => None
        end
      else match_braces r
  end.

(** The conservative defaults of the [catch] branch. *)
Definition parse_defaults : ContextResult := ContextResult.mk 0.5 0.5 false.

(** The [try] block of [parseValidationResult]. *)
Definition parseValidationResult_try (env : Env.t) (result : string) : Outcome ContextResult :=
  let rt := Env.runtime env in
  jsonMatch <- match match_braces result with
               | Some m => ret m
               | None => raise (ErrorObject "No JSON found in response")
               end ;;
  parsed <- Js.JSON_parse rt jsonMatch ;;
  valid <- Js.get parsed "valid" ;;
  source_relevance <- Js.get parsed "source_relevance" ;;
  source_usage_rate <- Js.get parsed "source_usage_rate" ;;
  ret (ContextResult.mk
         (Js.as_score (Js.clamp rt source_relevance))
         (Js.as_score (Js.clamp rt source_usage_rate))
         (Js.is_true valid)).

Definition parseValidationResult (env : Env.t) (result : string) : Outcome ContextResult :=
  catch (parseValidationResult_try env result)
        (fun error => ret parse_defaults).

Definition validateContext (env : Env.t) (self : t)
    (query response : string) (sources : list Source) : Async ContextResult :=
  entered (LLMJudge_validateContext_called query response sources) ;;
  let prompt := buildValidationPrompt self query response sources in
  result <- match provider self, openai self, anthropic self with
            | Provider.openai, Some _, _ => callOpenAI env self prompt
            | Provider.claude, _, Some _ => callClaude env self prompt
            | _, _, _ => raise (ErrorObject "No LLM provider available")
            end ;;
  settled (parseValidationResult env result).

End LLMJudge.

(* ================================================================== *)
(** * ContextValidator.ts *)
(* ================================================================== *)

Module ContextValidator.
Import JsString.

Record t : Type := mk {
  llmJudge : option LLMJudge.t;
  useLLMJudge : bool
}.

(** The constructor: the judge is built only when it is asked for and a key
    is there. *)
Definition new (openaiApiKey claudeApiKey : option string)
    (useLLMJudge developerMode : option bool) : Outcome t :=
  let useLLMJudge := nullish useLLMJudge false in
  let developerMode := nullish developerMode false in
  let useLLMJudge := useLLMJudge && (truthy openaiApiKey || truthy claudeApiKey) in
  if useLLMJudge then
    judge <- LLMJudge.new openaiApiKey claudeApiKey (Some developerMode) None None ;;
    ret (mk (Some judge) useLLMJudge)
  else
    ret (mk None useLLMJudge).

(** The private method, with its entry recorded. *)
Definition wordMatchingValidation
    (query response : string) (sources : list Source) : Async ContextResult :=
  entered (wordMatchingValidation_called query response sources) ;;
  ret (WordMatching.wordMatchingValidation query response sources).

Definition validateContext (env : Env.t) (self : t)
    (query response : string) (sources : list Source) : Async ContextResult :=
  if (List.length sources =? 0)%nat then
    ret (ContextResult.mk 0 0 false)
  else
    match useLLMJudge self, llmJudge self with
    | true, Some judge =>
        catch (LLMJudge.validateContext env judge query response sources)
              (fun error => wordMatchingValidation query response sources)
    | _, _ => wordMatchingValidation query response sources
    end.

End ContextValidator.

(* ================================================================== *)
(** * AIValidator.ts *)
(* ================================================================== *)

(** [this.config] once the constructor has run.  An optional property is
    [None] when it is [undefined]. *)
Module AIValidatorConfig.
Record t : Type := mk {
  openaiApiKey : option string;
  claudeApiKey : option string;
  llmProvider : Provider;
  confidenceThreshold : option Q;
  enableQueryClassification : option bool;
  enableAccuracyCheck : option bool;
  enableHallucinationDetection : option bool;
  enableContextValidation : option bool;
  useLLMJudge : option bool;
  developerMode : option bool;
  openaiModel : option string;
  claudeModel : option string
}.
End AIValidatorConfig.

(** The argument of the constructor.  A property is [None] when the object
    does not have it, [Some None] when it has it with the value [undefined]:
    the spread [{...defaults, ...config}] lets the property override the
    default in the second case too. *)
Module AIValidatorOptions.
Record t : Type := mk {
  openaiApiKey : option (option string);
  claudeApiKey : option (option string);
  llmProvider : Provider;
  confidenceThreshold : option (option Q);
  enableQueryClassification : option (option bool);
  enableAccuracyCheck : option (option bool);
  enableHallucinationDetection : option (option bool);
  enableContextValidation : option (option bool);
  useLLMJudge : option (option bool);
  developerMode : option (option bool);
  openaiModel : option (option string);
  claudeModel : option (option string)
}.
End AIValidatorOptions.

Module AIValidator.
Import JsString.
Local Open Scope string_scope.

Record t : Type := mk {
  config : AIValidatorConfig.t;
  contextValidator : ContextValidator.t
}.

(** One property of [{...defaults, ...config}]. *)
Definition spread {A : Type} (default : option A) (given : option (option A)) : option A :=
  match given with
  | Some v => v
  | None => default
  end.

(** [this.config = { confidenceThreshold: 0.7, ..., ...config }]. *)
Definition with_defaults (o : AIValidatorOptions.t) : AIValidatorConfig.t :=
  AIValidatorConfig.mk
    (spread None (AIValidatorOptions.openaiApiKey o))
    (spread None (AIValidatorOptions.claudeApiKey o))
    (AIValidatorOptions.llmProvider o)
    (spread (Some 0.7) (AIValidatorOptions.confidenceThreshold o))
    (spread (Some true) (AIValidatorOptions.enableQueryClassification o))
    (spread (Some false) (AIValidatorOptions.enableAccuracyCheck o))
    (spread (Some false) (AIValidatorOptions.enableHallucinationDetection o))
    (spread (Some true) (AIValidatorOptions.enableContextValidation o))
    (spread (Some false) (AIValidatorOptions.useLLMJudge o))
    (spread (Some false) (AIValidatorOptions.developerMode o))
    (spread (Some "gpt-4o-mini") (AIValidatorOptions.openaiModel o))
    (spread (Some "claude-3-haiku-20240307") (AIValidatorOptions.claudeModel o)).

(** [validateConfig]: a feature that needs a key and has none is switched
    off. *)
Definition validateConfig (c : AIValidatorConfig.t) : AIValidatorConfig.t :=
  let no_key :=
    negb (truthy (AIValidatorConfig.openaiApiKey c)) &&
    negb (truthy (AIValidatorConfig.claudeApiKey c)) in
  let off (toggle : option bool) : option bool :=
    if nullish toggle false && no_key then Some false else toggle in
  AIValidatorConfig.mk
    (AIValidatorConfig.openaiApiKey c)
    (AIValidatorConfig.claudeApiKey c)
    (AIValidatorConfig.llmProvider c)
    (AIValidatorConfig.confidenceThreshold c)
    (AIValidatorConfig.enableQueryClassification c)
    (off (AIValidatorConfig.enableAccuracyCheck c))
    (off (AIValidatorConfig.enableHallucinationDetection c))
    (AIValidatorConfig.enableContextValidation c)
    (off (AIValidatorConfig.useLLMJudge c))
    (AIValidatorConfig.developerMode c)
    (AIValidatorConfig.openaiModel c)
    (AIValidatorConfig.claudeModel c).

(** The constructor, as far as the modelled components go (the query
    classifier, the accuracy checker and the hallucination detector are
    collaborators). *)
Definition new (options : AIValidatorOptions.t) : Outcome t :=
  let config := validateConfig (with_defaults options) in
  contextValidator <-
    ContextValidator.new
      (AIValidatorConfig.openaiApiKey config)
      (AIValidatorConfig.claudeApiKey config)
      (AIValidatorConfig.useLLMJudge config)
      (Some (nullish (AIValidatorConfig.developerMode config) false)) ;;
  ret (mk config contextValidator).

(** [warnings.push(w)]. *)
Definition push (warnings : list string) (w : string) : list string :=
  (warnings ++ [w])%list.

(** An optional flag used as a condition. *)
Definition flag (b : option bool) : bool := nullish b false.

(** [this.config.confidenceThreshold || 0.7]: zero is falsy. *)
Definition threshold (c : AIValidatorConfig.t) : Q :=
  match AIValidatorConfig.confidenceThreshold c with
  | Some q => if Qeq_bool q 0 then 0.7 else q
  | None => 0.7
  end.

Definition getModel (self : t) : string :=
  match AIValidatorConfig.llmProvider (config self) with
  | Provider.openai => or_else (AIValidatorConfig.openaiModel (config self)) "gpt-4o"
  | Provider.claude =>
      or_else (AIValidatorConfig.claudeModel (config self)) "claude-sonnet-4-5-20250929"
  end.

Definition generateWarnings
    (accuracyResult : AccuracyResult) (contextResult : ContextResult)
    (hallucinationResult : HallucinationResult) (sources : list Source) : list string :=
  let warnings : list string := [] in
  let warnings :=
    if (List.length sources =? 0)%nat
    then push warnings "No sources provided - high hallucination risk" else warnings in
  let warnings :=
    if Qlt_bool (AccuracyResult.verification_rate accuracyResult) 0.5
    then push warnings "Low accuracy verification rate" else warnings in
  let warnings :=
    if Qlt_bool (ContextResult.source_relevance contextResult) 0.3
    then push warnings "Low context relevance" else warnings in
  let warnings :=
    if Qlt_bool 0.5 (HallucinationResult.risk hallucinationResult)
    then push warnings "High hallucination risk detected" else warnings in
  let warnings :=
    if HallucinationResult.detected hallucinationResult
    then push warnings "Hallucination detected in response" else warnings in
  warnings.

(** The record returned when classification asks to skip validation. *)
Definition skipped (type : QueryType) : ValidationResult :=
  ValidationResult.mk 1.0 true
    (AccuracyResult.mk true 1.0 None)
    (ContextResult.mk 1.0 1.0 true)
    (HallucinationResult.mk false 0 None)
    []
    (Some type) (Some true).

(** [error instanceof Error ? error.message : 'unknown error']. *)
Definition message_of (error : Thrown) : string :=
  match error with
  | ErrorObject message => message
  | OtherThrown => "unknown error"
  end.

(** The record returned by the [catch] branch of [validate]. *)
Definition failed (error : Thrown) : ValidationResult :=
  ValidationResult.mk 0 false
    (AccuracyResult.mk false 0 (Some "validation_error"))
    (ContextResult.mk 0 0 false)
    (HallucinationResult.mk true 1.0 None)
    ["Validation failed: " ++ message_of error]
    None None.

(** Step 1 of [validate]: the result to return at once, if classification
    is enabled and asks to skip validation. *)
Definition classification_step (env : Env.t) (self : t) (input : ValidationInput)
  : Async (option ValidationResult) :=
  if flag (AIValidatorConfig.enableQueryClassification (config self)) then
    classification <-
      invoke (classifyQuery_called (ValidationInput.query input))
             (Env.classifyQuery env (ValidationInput.query input)) ;;
    if QueryClassificationResult.skip_validation classification
    then ret (Some (skipped (QueryClassificationResult.type classification)))
    else ret None
  else ret None.

(** The three entries of the array handed to [Promise.all]: the check when
    it is enabled, its neutral default otherwise. *)
Definition accuracy_check (env : Env.t) (self : t) (input : ValidationInput)
  : Async AccuracyResult :=
  let c := config self in
  if flag (AIValidatorConfig.enableAccuracyCheck c)
  then invoke
         (checkAccuracy_called (ValidationInput.response input)
            (ValidationInput.sources input) (AIValidatorConfig.llmProvider c)
            (getModel self))
         (Env.checkAccuracy env (ValidationInput.response input)
            (ValidationInput.sources input) (AIValidatorConfig.llmProvider c)
            (getModel self))
  else ret (AccuracyResult.mk true 1.0 None).

Definition context_check (env : Env.t) (self : t) (input : ValidationInput)
  : Async ContextResult :=
  if flag (AIValidatorConfig.enableContextValidation (config self))
  then ContextValidator.validateContext env (contextValidator self)
         (ValidationInput.query input) (ValidationInput.response input)
         (ValidationInput.sources input)
  else ret (ContextResult.mk 1.0 1.0 true).

Definition hallucination_check (env : Env.t) (self : t) (input : ValidationInput)
  : Async HallucinationResult :=
  let c := config self in
  if flag (AIValidatorConfig.enableHallucinationDetection c)
  then invoke
         (detectHallucination_called (ValidationInput.response input)
            (ValidationInput.sources input) (AIValidatorConfig.llmProvider c)
            (getModel self))
         (Env.detectHallucination env (ValidationInput.response input)
            (ValidationInput.sources input) (AIValidatorConfig.llmProvider c)
            (getModel self))
  else ret (HallucinationResult.mk false 0 None).

(** Steps 2 to 5 of [validate]. *)
Definition validation_steps (env : Env.t) (self : t) (input : ValidationInput)
  : Async ValidationResult :=
  let c := config self in
  let sources := ValidationInput.sources input in
  '(accuracyResult, contextResult, hallucinationResult) <-
    Promise_all3 (Env.settle_time env)
      (accuracy_check env self input)
      (context_check env self input)
      (hallucination_check env self input) ;;
  let confidenceResult :=
    ConfidenceScorer.calculateConfidence
      accuracyResult contextResult hallucinationResult sources
      (Some (EnabledChecks.mk
               (Some (flag (AIValidatorConfig.enableAccuracyCheck c)))
               (Some (flag (AIValidatorConfig.enableHallucinationDetection c))))) in
  let warnings :=
    generateWarnings accuracyResult contextResult hallucinationResult sources in
  let valid :=
    Qle_bool (threshold c) (ConfidenceResult.confidence_score confidenceResult) in
  ret (ValidationResult.mk
         (ConfidenceResult.confidence_score confidenceResult)
         valid accuracyResult contextResult hallucinationResult warnings
         None None).

(** The [try] block of [validate]. *)
Definition validate_try (env : Env.t) (self : t) (input : ValidationInput)
  : Async ValidationResult :=
  early <- classification_step env self input ;;
  match early with
  | Some result => ret result
  | None => validation_steps env self input
  end.

Definition validate (env : Env.t) (self : t) (input : ValidationInput)
  : Async ValidationResult :=
  catch (validate_try env self input)
        (fun error => ret (failed error)).

(** What the promise of the accuracy check, and of the hallucination check,
    settles to: the reply of the collaborator when the check is enabled. *)
Definition accuracy_outcome (env : Env.t) (self : t) (input : ValidationInput)
  : Outcome AccuracyResult :=
  let c := config self in
  if flag (AIValidatorConfig.enableAccuracyCheck c)
  then Env.checkAccuracy env (ValidationInput.response input)
         (ValidationInput.sources input) (AIValidatorConfig.llmProvider c)
         (getModel self)
  else Normal (AccuracyResult.mk true 1.0 None).

Definition hallucination_outcome (env : Env.t) (self : t) (input : ValidationInput)
  : Outcome HallucinationResult :=
  let c := config self in
  if flag (AIValidatorConfig.enableHallucinationDetection c)
  then Env.detectHallucination env (ValidationInput.response input)
         (ValidationInput.sources input) (AIValidatorConfig.llmProvider c)
         (getModel self)
  else Normal (HallucinationResult.mk false 0 None).

End AIValidator.

(* ================================================================== *)
(** * The lexical fallback as the specification words it *)
(* ================================================================== *)

(** These definitions follow the specification of the lexical fallback
    (section 4.2, steps 1 to 6), not the code; the theorem
    [wordMatchingValidation_meets_spec] compares them with
    [WordMatching.wordMatchingValidation]. *)
Module LexicalSpec.
Import JsString.

(** Step 1: lowercase, then strip every character that is neither a word
    character nor white space. *)
Definition normalize (s : string) : string := strip_punctuation (toLowerCase s).

(** Step 2: the tokens of a text are its maximal runs of characters that
    are not white space.  [current] is the run being read. *)
Fixpoint tokens_from (current : string) (s : string) : list string :=
  match s with
  | EmptyString =>
      match current with
      | EmptyString => []
      | _ => [current]
      end
  | String c r =>
      if is_space c then
        match current with
        | EmptyString => tokens_from EmptyString r
        | _ => current :: tokens_from EmptyString r
        end
      else tokens_from (current ++ String c EmptyString) r
  end.

Definition tokens (s : string) : list string := tokens_from EmptyString s.

(** The pieces of a split that are not empty. *)
Definition nonempty_pieces (pieces : list string) : list string :=
  filter (fun w => (0 <? String.length w)%nat) pieces.

(** The tokens of the normalized text that are longer than [n]. *)
Definition tokens_longer_than (n : nat) (s : string) : list string :=
  filter (fun w => (n <? String.length w)%nat) (tokens (normalize s)).

(** The concatenation of the contents of the sources, a space between two. *)
Definition concatenated_contents (sources : list Source) : string :=
  join " " (map Source.content sources).

(** The number of the tokens [ws] that are present among [others]. *)
Definition number_present (ws others : list string) : nat :=
  List.length (filter (fun w => if in_dec string_dec w others then true else false) ws).

(** [count / max(1, total)], and 0.5 when there is no token at all. *)
Definition rate (count total : nat) : Q :=
  if (total =? 0)%nat then 0.5
  else Q_of_nat count / Q_of_nat (Nat.max 1 total).

(** Step 3. *)
Definition source_relevance (response : string) (sources : list Source) : Q :=
  let response_tokens := tokens_longer_than 3 response in
  let source_tokens := tokens_longer_than 3 (concatenated_contents sources) in
  Math_min 1.0 (rate (number_present response_tokens source_tokens)
                     (List.length response_tokens)).

(** Steps 4 and 5. *)
Definition source_usage_rate (query response : string) : Q :=
  let query_tokens := tokens_longer_than 2 query in
  let response_tokens := tokens_longer_than 3 response in
  rate (number_present query_tokens response_tokens) (List.length query_tokens).

(** Step 6. *)
Definition valid (response : string) (sources : list Source) : bool :=
  Qlt_bool 0.3 (source_relevance response sources).

End LexicalSpec.

(* ================================================================== *)
(** * Inputs used in the examples *)
(* ================================================================== *)

(** A source with a short text and no title: the poorest source there is. *)
Definition poor_source : Source :=
  Source.mk "n/a" None None None None.

(** Scenario C of the specification: a verification rate and a source
    relevance of 0.2, a hallucination risk of 0.8, and one source of quality
    0.5. *)
Definition scenarioC_accuracy : AccuracyResult := AccuracyResult.mk false 0.2 None.
Definition scenarioC_context : ContextResult := ContextResult.mk 0.2 0.2 false.
Definition scenarioC_hallucination : HallucinationResult :=
  HallucinationResult.mk true 0.8 None.
Definition scenarioC_sources : list Source := [poor_source].

(** Both checks switched on, as the orchestrator passes them. *)
Definition all_enabled : option EnabledChecks.t :=
  Some (EnabledChecks.mk (Some true) (Some true)).

(** Both checks switched off. *)
Definition both_disabled : option EnabledChecks.t :=
  Some (EnabledChecks.mk (Some false) (Some false)).

(** The reply of a judge that wraps its verdict in commentary.  The verdict
    rates the relevance above 1 and gives no number for the usage rate. *)
Definition sample_block : string :=
  ("{" ++ LLMJudge.dquote ++ "valid" ++ LLMJudge.dquote ++ ": true, " ++
   LLMJudge.dquote ++ "source_relevance" ++ LLMJudge.dquote ++ ": 1.7, " ++
   LLMJudge.dquote ++ "source_usage_rate" ++ LLMJudge.dquote ++ ": " ++
   LLMJudge.dquote ++ "n/a" ++ LLMJudge.dquote ++ "}")%string.

Definition sample_output : string :=
  ("Here is my verdict: " ++ sample_block ++ " I hope it helps.")%string.

(** A runtime cut down to what the examples need: it parses the sample
    verdict, rejects every other text, and converts no string to a number
    (the one string the examples convert is not numeric). *)
Definition sample_runtime : Js.Runtime := {|
  Js.JSON_parse := fun text =>
    if String.eqb text sample_block then
      Normal (Js.Object [("valid"%string, Js.Boolean true);
                         ("source_relevance"%string, Js.Number (Js.Finite 1.7));
                         ("source_usage_rate"%string, Js.Str "n/a")])
    else Throw (ErrorObject "Unexpected token in JSON");
  Js.StringToNumber := fun _ => Js.NaN;
  Js.NumberToString := fun _ => EmptyString
|}.

(** Collaborators for the examples: OpenAI answers with the sample reply and
    Anthropic fails; the classifier skips the one query "hello"; the accuracy
    checker fails and the hallucination detector finds nothing. *)
Definition sample_env : Env.t := {|
  Env.runtime := sample_runtime;
  Env.chat_completions_create := fun _ _ => Normal (Some sample_output);
  Env.messages_create := fun _ _ => Throw (ErrorObject "overloaded");
  Env.classifyQuery := fun query =>
    if String.eqb query "hello"
    then Normal (QueryClassificationResult.mk greeting 0.9 true)
    else Normal (QueryClassificationResult.mk question 0.8 false);
  Env.checkAccuracy := fun _ _ _ _ => Throw (ErrorObject "rate limit exceeded");
  Env.detectHallucination := fun _ _ _ _ => Normal (HallucinationResult.mk false 0.1 None);
  Env.settle_time := fun _ => 0%nat
|}.

(** A validator with the given toggles and no judge. *)
Definition sample_validator
    (classification accuracy hallucination context : bool) : AIValidator.t :=
  AIValidator.mk
    (AIValidatorConfig.mk None None Provider.openai (Some 0.7)
       (Some classification) (Some accuracy) (Some hallucination) (Some context)
       (Some false) (Some false) (Some "gpt-4o-mini"%string)
       (Some "claude-3-haiku-20240307"%string))
    (ContextValidator.mk None false).

(** Context validators with a judge on each provider. *)
Definition openai_judge : ContextValidator.t :=
  ContextValidator.mk
    (Some (LLMJudge.mk (Some "sk-test"%string) None Provider.openai false
             "gpt-4o-mini" "claude-3-haiku-20240307"))
    true.

Definition claude_judge : ContextValidator.t :=
  ContextValidator.mk
    (Some (LLMJudge.mk None (Some "sk-ant-test"%string) Provider.claude false
             "gpt-4o-mini" "claude-3-haiku-20240307"))
    true.

Definition sample_input (query : string) (sources : list Source) : ValidationInput :=
  ValidationInput.mk query "The parser reads tokens from the stream." sources.



(** Two computations as the runtime evaluates them, on IEEE 754 doubles. *)
Module Binary64.

(** Scenario C: the value of [confidenceScore * 100] that [Math.round]
    receives. *)
Definition scenarioC_score_times_100 : float :=
  ((0.2 * 0.35 + 0.2 * 0.25 + (1 - 0.8) * 0.30 + 0.5 / 1 * 0.10) * 100)%float.

(** The quality of a source that earns every bonus, before the cap. *)
Definition best_uncapped_quality : float := (0.5 + 0.2 + 0.2 + 0.1)%float.

End Binary64.

(** The sample environment with another reply of OpenAI. *)
Definition sample_env_replying (reply : Outcome (option string)) : Env.t := {|
  Env.runtime := sample_runtime;
  Env.chat_completions_create := fun _ _ => reply;
  Env.messages_create := Env.messages_create sample_env;
  Env.classifyQuery := Env.classifyQuery sample_env;
  Env.checkAccuracy := Env.checkAccuracy sample_env;
  Env.detectHallucination := Env.detectHallucination sample_env;
  Env.settle_time := Env.settle_time sample_env
|}.

(** The sample environment with a classifier that throws something that is
    no [Error]. *)
Definition sample_env_classifier_throwing : Env.t := {|
  Env.runtime := sample_runtime;
  Env.chat_completions_create := Env.chat_completions_create sample_env;
  Env.messages_create := Env.messages_create sample_env;
  Env.classifyQuery := fun _ => Throw OtherThrown;
  Env.checkAccuracy := Env.checkAccuracy sample_env;
  Env.detectHallucination := Env.detectHallucination sample_env;
  Env.settle_time := Env.settle_time sample_env
|}.

(** Options that ask for every feature and give no key. *)
Definition keyless_options : AIValidatorOptions.t :=
  AIValidatorOptions.mk None None Provider.openai None None
    (Some (Some true)) (Some (Some true)) None (Some (Some true)) None None None.


(* ================================================================== *)
(** * Notions used to state further properties of the code *)
(* ================================================================== *)



(** A source with its content replaced. *)
Definition with_content (f : string -> string) (s : Source) : Source :=
  Source.mk (f (Source.content s)) (Source.title s) (Source.url s) (Source.id s)
    (Source.embedding s).


(** The kinds of invocation a trace may hold. *)
Definition is_classifyQuery (i : Invocation) : bool :=
  match i with classifyQuery_called _ => true | _ => false end.

Definition is_checkAccuracy (i : Invocation) : bool :=
  match i with checkAccuracy_called _ _ _ _ => true | _ => false end.

Definition is_detectHallucination (i : Invocation) : bool :=
  match i with detectHallucination_called _ _ _ _ => true | _ => false end.

Definition is_provider_call (i : Invocation) : bool :=
  match i with
  | chat_completions_create_called _ _ | messages_create_called _ _ => true
  | _ => false
  end.

Definition is_judge_entry (i : Invocation) : bool :=
  match i with LLMJudge_validateContext_called _ _ _ => true | _ => false end.

Definition is_wordMatching (i : Invocation) : bool :=
  match i with wordMatchingValidation_called _ _ _ => true | _ => false end.

(** How many invocations of a kind a trace holds. *)
Definition calls (kind : Invocation -> bool) (t : Trace) : nat :=
  List.length (filter kind t).

(** The long words of the sources, source by source: the tokens longer than
    three characters of each content. *)
Definition source_tokens (sources : list Source) : list string :=
  flat_map (fun s => LexicalSpec.tokens_longer_than 3 (Source.content s)) sources.

(** What [buildValidationPrompt] reads of a source: its label and the first
    3000 characters of its content. *)
Definition prompt_view (s : Source) : string * string :=
  (JsString.or_else (Source.title s) (JsString.or_else (Source.id s) "untitled"),
   substring 0 3000 (Source.content s)).

(** A runtime that parses the empty object, the text both providers' calls
    fall back to, and nothing else. *)
Definition empty_object_runtime : Js.Runtime := {|
  Js.JSON_parse := fun text =>
    if String.eqb text "{}" then Normal (Js.Object [])
    else Throw (ErrorObject "Unexpected token in JSON");
  Js.StringToNumber := fun _ => Js.NaN;
  Js.NumberToString := fun _ => EmptyString
|}.

(** The sample environment on that runtime, with an OpenAI reply that has no
    content. *)
Definition empty_reply_env : Env.t := {|
  Env.runtime := empty_object_runtime;
  Env.chat_completions_create := fun _ _ => Normal None;
  Env.messages_create := fun _ _ => Normal None;
  Env.classifyQuery := Env.classifyQuery sample_env;
  Env.checkAccuracy := Env.checkAccuracy sample_env;
  Env.detectHallucination := Env.detectHallucination sample_env;
  Env.settle_time := Env.settle_time sample_env
|}.


(** An asynchronous computation that settles as [outcome] and adds the
    invocations [added] to the trace, whatever the trace before it. *)
Definition runs_as {A : Type} (c : Async A) (outcome : Outcome A) (added : Trace) : Prop :=
  forall t, c t = (outcome, (t ++ added)%list).

(** The result of [validate] on its normal path, from the results of the
    three checks. *)
Definition fused (self : AIValidator.t) (sources : list Source)
    (ar : AccuracyResult) (cr : ContextResult) (hr : HallucinationResult)
  : ValidationResult :=
  let c := AIValidator.config self in
  let score :=
    ConfidenceResult.confidence_score
      (ConfidenceScorer.calculateConfidence ar cr hr sources
         (Some (EnabledChecks.mk
                  (Some (AIValidator.flag (AIValidatorConfig.enableAccuracyCheck c)))
                  (Some (AIValidator.flag
                           (AIValidatorConfig.enableHallucinationDetection c)))))) in
  ValidationResult.mk score (Qle_bool (AIValidator.threshold c) score) ar cr hr
    (AIValidator.generateWarnings ar cr hr sources) None None.

(** The validator built from options that ask for every feature and give no
    key. *)
Definition keyless_validator : AIValidator.t :=
  AIValidator.mk
    (AIValidator.validateConfig (AIValidator.with_defaults keyless_options))
    (ContextValidator.mk None false).

(** Options with both keys that ask for the judge, name Claude as the
    provider and choose the models; and the judge built from them. *)
Definition judge_options : AIValidatorOptions.t :=
  AIValidatorOptions.mk (Some (Some "sk-test"%string)) (Some (Some "sk-ant-test"%string))
    Provider.claude None None None None None (Some (Some true)) None
    (Some (Some "gpt-4.1"%string)) (Some (Some "claude-opus-4"%string)).

Definition judge_of_judge_options : LLMJudge.t :=
  LLMJudge.mk (Some "sk-test"%string) None Provider.openai false
    "gpt-4o-mini" "claude-3-haiku-20240307".

Definition validator_of_judge_options : AIValidator.t :=
  AIValidator.mk
    (AIValidator.validateConfig (AIValidator.with_defaults judge_options))
    (ContextValidator.mk (Some judge_of_judge_options) true).

(* ================================================================== *)
(** * Numbers: comparisons and rounding *)
(* ================================================================== *)

Lemma Qlt_bool_iff (x y : Q) : Qlt_bool x y = true <-> x < y.
Proof.
  unfold Qlt_bool. rewrite negb_true_iff.
  split.
  - intros H. apply Qnot_le_lt. intros L.
    apply Qle_bool_iff in L. congruence.
  - intros H. destruct (Qle_bool y x) eqn:E; [|reflexivity].
    apply Qle_bool_iff in E. exfalso. apply (Qlt_not_le _ _ H E).
Qed.

Lemma Qlt_bool_false_iff (x y : Q) : Qlt_bool x y = false <-> y <= x.
Proof.
  unfold Qlt_bool. rewrite negb_false_iff. apply Qle_bool_iff.
Qed.

Lemma Qle_bool_false_iff (x y : Q) : Qle_bool x y = false <-> y < x.
Proof.
  split.
  - intros H. apply Qnot_le_lt. intros L. apply Qle_bool_iff in L. congruence.
  - intros H. destruct (Qle_bool x y) eqn:E; [|reflexivity].
    apply Qle_bool_iff in E. exfalso. apply (Qlt_not_le _ _ H E).
Qed.

(** Case analysis on a boolean comparison, leaving the order fact in the
    context. *)
Ltac case_Qle x y :=
  let E := fresh "E" in
  destruct (Qle_bool x y) eqn:E;
  [apply Qle_bool_iff in E | apply Qle_bool_false_iff in E].

Lemma Math_min_spec (x y : Q) :
  (x <= y /\ Math_min x y = x) \/ (y < x /\ Math_min x y = y).
Proof. unfold Math_min. case_Qle x y; auto. Qed.

Lemma Math_max_spec (x y : Q) :
  (x <= y /\ Math_max x y = y) \/ (y < x /\ Math_max x y = x).
Proof. unfold Math_max. case_Qle x y; auto. Qed.

(** Splits the cases of every [Math_min] and [Math_max] of the goal and
    closes what is linear arithmetic. *)
Ltac minmax :=
  repeat match goal with
         | |- context [Math_min ?x ?y] =>
             destruct (Math_min_spec x y) as [[? ->] | [? ->]]
         | |- context [Math_max ?x ?y] =>
             destruct (Math_max_spec x y) as [[? ->] | [? ->]]
         end;
  try lra.


Lemma Math_round_compat (x y : Q) : x == y -> Math_round x = Math_round y.
Proof.
  intros E. unfold Math_round. f_equal. apply Qfloor_comp. rewrite E. reflexivity.
Qed.

Lemma round2_compat (x y : Q) : x == y -> round2 x = round2 y.
Proof.
  intros E. unfold round2. f_equal. apply Math_round_compat. rewrite E. reflexivity.
Qed.

(** [round2 x] is a whole number of hundredths, [k / 100]. *)
Lemma round2_hundredths (x : Q) : exists k : Z, round2 x = inject_Z k / 100.
Proof. exists (Qfloor (x * 100 + (1 # 2))). reflexivity. Qed.


(** Rounding to hundredths keeps a score inside the unit interval. *)
Lemma round2_unit (x : Q) : 0 <= x <= 1 -> 0 <= round2 x <= 1.
Proof.
  intros [L U]. unfold round2, Math_round.
  assert (Z0 : (Qfloor 0 <= Qfloor (x * 100 + (1 # 2)))%Z)
    by (apply Qfloor_resp_le; lra).
  assert (Z1 : (Qfloor (x * 100 + (1 # 2)) <= Qfloor (100 + (1 # 2)))%Z)
    by (apply Qfloor_resp_le; lra).
  replace (Qfloor 0) with 0%Z in Z0 by reflexivity.
  replace (Qfloor (100 + (1 # 2))) with 100%Z in Z1 by reflexivity.
  rewrite Zle_Qle in Z0, Z1.
  change (inject_Z 0) with 0 in Z0. change (inject_Z 100) with 100 in Z1.
  split.
  - apply Qle_shift_div_l; [reflexivity | lra].
  - apply Qle_shift_div_r; [reflexivity | lra].
Qed.

(* ================================================================== *)
(** * ConfidenceScorer: source quality *)
(* ================================================================== *)

Section SourceQuality.
Import ConfidenceScorer.

(** Before the cap a source's quality is one of the sums of the base and
    some of the bonuses, all between 0.5 and 1. *)
Lemma uncapped_quality_bounds (source : Source) :
  0.5 <= uncapped_quality_of source <= 1.0.
Proof.
  unfold uncapped_quality_of.
  destruct (100 <? String.length (Source.content source))%nat,
           (500 <? String.length (Source.content source))%nat,
           (Source.title source) as [t|];
    try destruct (0 <? String.length t)%nat; cbv zeta; split; lra.
Qed.

(** The cap never changes the value. *)
Lemma quality_of_uncapped (source : Source) :
  quality_of source = uncapped_quality_of source.
Proof.
  unfold quality_of.
  destruct (Math_min_spec (uncapped_quality_of source) 1.0) as [[_ E] | [L _]].
  - exact E.
  - pose proof (uncapped_quality_bounds source). lra.
Qed.

Lemma quality_of_bounds (source : Source) : 0.5 <= quality_of source <= 1.0.
Proof. rewrite quality_of_uncapped. apply uncapped_quality_bounds. Qed.

(** The loop's invariant: after [n] sources the total has grown by between
    [n / 2] and [n]. *)
Lemma totalQuality_bounds (sources : list Source) (start : Q) :
  let total :=
    fold_left (fun totalQuality source => totalQuality + quality_of source) sources start in
  start + 0.5 * Q_of_nat (List.length sources) <= total /\
  total <= start + Q_of_nat (List.length sources).
Proof.
  cbv zeta. revert start.
  induction sources as [|source rest IH]; intros start.
  - cbn [fold_left List.length]. change (Q_of_nat 0) with 0. split; lra.
  - cbn [fold_left List.length].
    destruct (IH (start + quality_of source)) as [L U].
    pose proof (quality_of_bounds source) as [Lq Uq].
    assert (E : Q_of_nat (S (List.length rest)) == Q_of_nat (List.length rest) + 1).
    { unfold Q_of_nat. rewrite Nat2Z.inj_succ, <- Z.add_1_r, inject_Z_plus. reflexivity. }
    rewrite E. split; lra.
Qed.

Lemma Q_of_nat_pos (n : nat) : (0 < n)%nat -> 0 < Q_of_nat n.
Proof.
  intros H. unfold Q_of_nat. change 0 with (inject_Z 0).
  rewrite <- Zlt_Qlt. lia.
Qed.

Lemma calculateSourceQuality_nonempty (sources : list Source) :
  sources <> [] -> 0.5 <= calculateSourceQuality sources <= 1.0.
Proof.
  intros NE. destruct sources as [|s rest]; [congruence|].
  unfold calculateSourceQuality.
  pose proof (totalQuality_bounds (s :: rest) 0) as [L U]. cbv zeta in L, U.
  set (total := fold_left _ _ _) in *.
  assert (P : 0 < Q_of_nat (List.length (s :: rest))) by (apply Q_of_nat_pos; cbn; lia).
  set (n := Q_of_nat _) in *.
  split.
  - apply Qle_shift_div_l; [exact P | lra].
  - apply Qle_shift_div_r; [exact P | lra].
Qed.

Lemma calculateSourceQuality_unit (sources : list Source) :
  0 <= calculateSourceQuality sources <= 1.
Proof.
  destruct sources as [|s rest].
  - cbn. split; lra.
  - pose proof (calculateSourceQuality_nonempty (s :: rest)) as H.
    destruct H as [L U]; [discriminate|]. split; lra.
Qed.

End SourceQuality.

(** C9.  For a list of at least one source, [calculateSourceQuality] lies
    between 0.5 and 1.0: every source adds at least the base 0.5 whatever
    its content and title; the base and the bonuses 0.2, 0.2 and 0.1 add up
    to exactly 1.0, so the quality of a source never exceeds the cap before
    [Math.min] is applied, which therefore leaves it as it is. *)
Theorem source_quality_at_least_base (sources : list Source) :
  sources <> [] ->
  (0.5 <= ConfidenceScorer.calculateSourceQuality sources /\
   ConfidenceScorer.calculateSourceQuality sources <= 1.0) /\
  (forall source, 0.5 <= ConfidenceScorer.quality_of source) /\
  0.5 + 0.2 + 0.2 + 0.1 == 1.0 /\
  (forall source,
     ConfidenceScorer.uncapped_quality_of source <= 1.0 /\
     ConfidenceScorer.quality_of source = ConfidenceScorer.uncapped_quality_of source).
Proof.
  intros NE.
  split; [apply calculateSourceQuality_nonempty, NE|].
  split; [intros source; apply quality_of_bounds|].
  split; [reflexivity|].
  intros source.
  split; [apply uncapped_quality_bounds | apply quality_of_uncapped].
Qed.

Lemma source_quality_at_least_base_witness :
  [poor_source] <> [] /\
  0.5 <= ConfidenceScorer.calculateSourceQuality [poor_source].
Proof.
  split.
  - discriminate.
  - apply (source_quality_at_least_base [poor_source]). discriminate.
Defined.

(* ================================================================== *)
(** * ConfidenceScorer: weights and the fused score *)
(* ================================================================== *)

Section Fusion.
Import ConfidenceScorer.

Lemma calculateConfidence_score ar cr hr sources enabledChecks :
  ConfidenceResult.confidence_score (calculateConfidence ar cr hr sources enabledChecks) =
  round2 (confidenceScore_of ar cr hr sources enabledChecks).
Proof. reflexivity. Qed.

Lemma calculateConfidence_level ar cr hr sources enabledChecks :
  ConfidenceResult.level (calculateConfidence ar cr hr sources enabledChecks) =
  level_of (confidenceScore_of ar cr hr sources enabledChecks).
Proof. reflexivity. Qed.

(** Whatever the flags, the four weights are not negative and add up to 1. *)
Lemma select_weights_convex (a h : bool) :
  let w := select_weights a h in
  0 <= Weights.accuracy w /\ 0 <= Weights.context w /\
  0 <= Weights.hallucination w /\ 0 <= Weights.sourceQuality w /\
  Weights.accuracy w + Weights.context w + Weights.hallucination w +
  Weights.sourceQuality w == 1.
Proof. destruct a, h; cbn; repeat split; lra. Qed.

(** A weighted sum of scores of the unit interval stays in it. *)
Lemma weighted_sum_unit (a h : bool) (x1 x2 x3 x4 : Q) :
  0 <= x1 <= 1 -> 0 <= x2 <= 1 -> 0 <= x3 <= 1 -> 0 <= x4 <= 1 ->
  0 <= weighted_sum (select_weights a h) x1 x2 x3 x4 <= 1.
Proof.
  intros [? ?] [? ?] [? ?] [? ?].
  unfold weighted_sum. destruct a, h; cbn; split; lra.
Qed.

Lemma level_of_compat (x y : Q) : x == y -> level_of x = level_of y.
Proof.
  intros E. unfold level_of.
  rewrite (Qleb_comp 0.8 0.8 (Qeq_refl _) x y E).
  rewrite (Qleb_comp 0.5 0.5 (Qeq_refl _) x y E).
  reflexivity.
Qed.

(** With both checks switched off the weighted sum only reads the source
    relevance and the source quality. *)
Lemma confidenceScore_both_disabled ar cr hr sources :
  confidenceScore_of ar cr hr sources both_disabled ==
  ContextResult.source_relevance cr * 0.60 + calculateSourceQuality sources * 0.40.
Proof. unfold confidenceScore_of, weighted_sum. cbn. lra. Qed.

End Fusion.



(** C3.  The weights [calculateConfidence] works with are those of the
    table, row by row; a check that is switched off has weight 0 and is not
    among the active metrics; and in each of the four regimes the weights of
    the active metrics add up to exactly 1. *)
Theorem weight_regimes :
  (ConfidenceScorer.select_weights false false = Weights.mk 0 0.60 0 0.40 /\
   ConfidenceScorer.select_weights false true = Weights.mk 0 0.35 0.45 0.20 /\
   ConfidenceScorer.select_weights true false = Weights.mk 0.50 0.30 0 0.20 /\
   ConfidenceScorer.select_weights true true = Weights.mk 0.35 0.25 0.30 0.10) /\
  (forall (a h : bool) ar cr hr sources,
     let enabledChecks := Some (EnabledChecks.mk (Some a) (Some h)) in
     ConfidenceScorer.weights_for enabledChecks = ConfidenceScorer.select_weights a h /\
     ConfidenceResult.confidence_score
       (ConfidenceScorer.calculateConfidence ar cr hr sources enabledChecks) =
     round2 (ConfidenceScorer.weighted_sum (ConfidenceScorer.select_weights a h)
               (AccuracyResult.verification_rate ar)
               (ContextResult.source_relevance cr)
               (1 - HallucinationResult.risk hr)
               (ConfidenceScorer.calculateSourceQuality sources))) /\
  (forall h : bool,
     Weights.accuracy (ConfidenceScorer.select_weights false h) = 0 /\
     ~ In ConfidenceScorer.Accuracy
          (ConfidenceScorer.activeMetrics (ConfidenceScorer.select_weights false h))) /\
  (forall a : bool,
     Weights.hallucination (ConfidenceScorer.select_weights a false) = 0 /\
     ~ In ConfidenceScorer.Grounding
          (ConfidenceScorer.activeMetrics (ConfidenceScorer.select_weights a false))) /\
  (forall a h : bool,
     ConfidenceScorer.active_weight_total (ConfidenceScorer.select_weights a h) == 1).
Proof.
  split; [repeat split|].
  split; [intros; split; reflexivity|].
  split; [intros [|]; split; try reflexivity; cbn; intuition discriminate|].
  split; [intros [|]; split; try reflexivity; cbn; intuition discriminate|].
  intros [|] [|]; reflexivity.
Qed.

(** C8.  With both the accuracy check and the hallucination check switched
    off, two runs that agree on the context result and on the sources return
    the same [confidence_score] (and the same [level]), whatever their
    accuracy and hallucination results: the weighted sum is
    [source_relevance * 0.60 + source_quality * 0.40]. *)
Theorem disabled_checks_do_not_influence
    (ar ar' : AccuracyResult) (cr : ContextResult) (hr hr' : HallucinationResult)
    (sources : list Source) :
  let run1 := ConfidenceScorer.calculateConfidence ar cr hr sources both_disabled in
  let run2 := ConfidenceScorer.calculateConfidence ar' cr hr' sources both_disabled in
  ConfidenceResult.confidence_score run1 = ConfidenceResult.confidence_score run2 /\
  ConfidenceResult.level run1 = ConfidenceResult.level run2 /\
  ConfidenceScorer.confidenceScore_of ar cr hr sources both_disabled ==
    ContextResult.source_relevance cr * 0.60 +
    ConfidenceScorer.calculateSourceQuality sources * 0.40.
Proof.
  cbv zeta. rewrite !calculateConfidence_score, !calculateConfidence_level.
  split; [|split].
  - apply round2_compat. rewrite !confidenceScore_both_disabled. reflexivity.
  - apply level_of_compat. rewrite !confidenceScore_both_disabled. reflexivity.
  - apply confidenceScore_both_disabled.
Qed.


(* ================================================================== *)
(** * Scenario C: all checks enabled, poor scores *)
(* ================================================================== *)

Lemma In_push_new (warnings : list string) (w : string) :
  In w (AIValidator.push warnings w).
Proof. unfold AIValidator.push. apply in_or_app. right. left. reflexivity. Qed.

Lemma In_push_old (warnings : list string) (w w' : string) :
  In w warnings -> In w (AIValidator.push warnings w').
Proof. intros H. unfold AIValidator.push. apply in_or_app. left. exact H. Qed.

Create HintDb warnings.
#[local] Hint Resolve In_push_new In_push_old : warnings.

(** The three conditions of [generateWarnings] on the scores, one by one. *)
Lemma generateWarnings_low_accuracy ar cr hr sources :
  AccuracyResult.verification_rate ar < 0.5 ->
  In "Low accuracy verification rate"%string (AIValidator.generateWarnings ar cr hr sources).
Proof.
  intros H. apply Qlt_bool_iff in H. unfold AIValidator.generateWarnings. rewrite H.
  destruct (List.length sources =? 0)%nat, (Qlt_bool (ContextResult.source_relevance cr) 0.3),
    (Qlt_bool 0.5 (HallucinationResult.risk hr)), (HallucinationResult.detected hr);
    cbv zeta; auto 7 with warnings.
Qed.

Lemma generateWarnings_low_context ar cr hr sources :
  ContextResult.source_relevance cr < 0.3 ->
  In "Low context relevance"%string (AIValidator.generateWarnings ar cr hr sources).
Proof.
  intros H. apply Qlt_bool_iff in H. unfold AIValidator.generateWarnings. rewrite H.
  destruct (List.length sources =? 0)%nat,
    (Qlt_bool (AccuracyResult.verification_rate ar) 0.5),
    (Qlt_bool 0.5 (HallucinationResult.risk hr)), (HallucinationResult.detected hr);
    cbv zeta; auto 7 with warnings.
Qed.

Lemma generateWarnings_high_risk ar cr hr sources :
  0.5 < HallucinationResult.risk hr ->
  In "High hallucination risk detected"%string
     (AIValidator.generateWarnings ar cr hr sources).
Proof.
  intros H. apply Qlt_bool_iff in H. unfold AIValidator.generateWarnings. rewrite H.
  destruct (List.length sources =? 0)%nat,
    (Qlt_bool (AccuracyResult.verification_rate ar) 0.5),
    (Qlt_bool (ContextResult.source_relevance cr) 0.3), (HallucinationResult.detected hr);
    cbv zeta; auto 7 with warnings.
Qed.

(** C7, as the code has it.  With all checks enabled, a verification rate
    of 0.2, a source relevance of 0.2, a risk of 0.8 and sources of quality
    0.5, the weighted sum is
    0.2*0.35 + 0.2*0.25 + 0.2*0.30 + 0.5*0.10 = 0.07 + 0.05 + 0.06 + 0.05 = 0.23,
    [confidence_score] is 0.23, the level is [low], and the warnings of the
    orchestrator include the three of low accuracy, low context relevance
    and high hallucination risk. *)
Theorem scenario_C_fusion
    (ar : AccuracyResult) (cr : ContextResult) (hr : HallucinationResult)
    (sources : list Source) :
  AccuracyResult.verification_rate ar == 0.2 ->
  ContextResult.source_relevance cr == 0.2 ->
  HallucinationResult.risk hr == 0.8 ->
  ConfidenceScorer.calculateSourceQuality sources == 0.5 ->
  let r := ConfidenceScorer.calculateConfidence ar cr hr sources all_enabled in
  let warnings := AIValidator.generateWarnings ar cr hr sources in
  ConfidenceScorer.confidenceScore_of ar cr hr sources all_enabled ==
    0.2 * 0.35 + 0.2 * 0.25 + 0.2 * 0.30 + 0.5 * 0.10 /\
  ConfidenceResult.confidence_score r == 0.23 /\
  ConfidenceResult.level r = low /\
  In "Low accuracy verification rate"%string warnings /\
  In "Low context relevance"%string warnings /\
  In "High hallucination risk detected"%string warnings.
Proof.
  intros Hv Hs Hr Hq r warnings.
  assert (E : ConfidenceScorer.confidenceScore_of ar cr hr sources all_enabled == 0.23).
  { unfold ConfidenceScorer.confidenceScore_of, ConfidenceScorer.weighted_sum.
    cbn. rewrite Hv, Hs, Hr, Hq. reflexivity. }
  split; [rewrite E; reflexivity|].
  split.
  { subst r. rewrite calculateConfidence_score, (round2_compat _ _ E). reflexivity. }
  split.
  { subst r. rewrite calculateConfidence_level, (level_of_compat _ _ E). reflexivity. }
  subst warnings. split; [|split].
  - apply generateWarnings_low_accuracy. rewrite Hv. reflexivity.
  - apply generateWarnings_low_context. rewrite Hs. reflexivity.
  - apply generateWarnings_high_risk. rewrite Hr. reflexivity.
Qed.

Lemma scenario_C_fusion_witness :
  ConfidenceResult.confidence_score
    (ConfidenceScorer.calculateConfidence
       scenarioC_accuracy scenarioC_context scenarioC_hallucination
       scenarioC_sources all_enabled) == 0.23.
Proof.
  apply (scenario_C_fusion
           scenarioC_accuracy scenarioC_context scenarioC_hallucination
           scenarioC_sources); reflexivity.
Defined.

(** C7 as the specification words it fails: on scenario C the engine returns
    0.23, which is the value of the sum the specification writes down, and
    not 0.22. *)
Lemma scenario_C_score_is_not_0_22 :
  ConfidenceResult.confidence_score
    (ConfidenceScorer.calculateConfidence
       scenarioC_accuracy scenarioC_context scenarioC_hallucination
       scenarioC_sources all_enabled) == 0.23 /\
  ~ ConfidenceResult.confidence_score
      (ConfidenceScorer.calculateConfidence
         scenarioC_accuracy scenarioC_context scenarioC_hallucination
         scenarioC_sources all_enabled) == 0.22 /\
  ~ 0.2 * 0.35 + 0.2 * 0.25 + 0.2 * 0.30 + 0.5 * 0.10 == 0.22.
Proof.
  split; [reflexivity|]. split; intros H; vm_compute in H; discriminate H.
Qed.

(* ================================================================== *)
(** * The lexical fallback *)
(* ================================================================== *)

Example split_whitespace_examples :
  JsString.split_whitespace "  the quick  fox " = [""; "the"; "quick"; "fox"; ""]%string /\
  JsString.split_whitespace "" = [""%string] /\
  JsString.split_whitespace " " = [""; ""]%string /\
  JsString.strip_punctuation (JsString.toLowerCase "Hello, World! It's 42_ok.")
    = "hello world its 42_ok"%string /\
  LexicalSpec.tokens "  the quick  fox " = ["the"; "quick"; "fox"]%string.
Proof. repeat split; reflexivity. Qed.

Section Lexical.
Import JsString.
Local Open Scope string_scope.

Lemma append_empty_r (s : string) : s ++ "" = s.
Proof. induction s as [|c r IH]; cbn; [reflexivity | now rewrite IH]. Qed.

Lemma append_assoc (a b c : string) : (a ++ b) ++ c = a ++ (b ++ c).
Proof. induction a as [|x r IH]; cbn; [reflexivity | now rewrite IH]. Qed.

Lemma toLowerCase_app (a b : string) :
  toLowerCase (a ++ b) = toLowerCase a ++ toLowerCase b.
Proof. induction a as [|c r IH]; cbn; [reflexivity | now rewrite IH]. Qed.

Lemma strip_punctuation_app (a b : string) :
  strip_punctuation (a ++ b) = strip_punctuation a ++ strip_punctuation b.
Proof.
  induction a as [|c r IH]; cbn; [reflexivity|].
  destruct (is_word c || is_space c); cbn; now rewrite IH.
Qed.

Lemma normalize_app (a b : string) :
  LexicalSpec.normalize (a ++ b) = LexicalSpec.normalize a ++ LexicalSpec.normalize b.
Proof.
  unfold LexicalSpec.normalize. now rewrite toLowerCase_app, strip_punctuation_app.
Qed.

(** Normalizing the joined contents is joining the normalized contents: the
    separating space is kept by both steps. *)
Lemma normalize_join (parts : list string) :
  LexicalSpec.normalize (join " " parts) = join " " (map LexicalSpec.normalize parts).
Proof.
  induction parts as [|p rest IH]; [reflexivity|].
  destruct rest as [|q rest]; [reflexivity|].
  change (join " " (p :: q :: rest)) with (p ++ " " ++ join " " (q :: rest)).
  change (map LexicalSpec.normalize (p :: q :: rest))
    with (LexicalSpec.normalize p :: map LexicalSpec.normalize (q :: rest)).
  change (join " " (LexicalSpec.normalize p :: map LexicalSpec.normalize (q :: rest)))
    with (LexicalSpec.normalize p ++ " " ++
          join " " (map LexicalSpec.normalize (q :: rest))).
  rewrite !normalize_app, IH. reflexivity.
Qed.

Lemma nonempty_pieces_cons (p : string) (ps : list string) :
  LexicalSpec.nonempty_pieces (p :: ps) =
  match p with
  | "" => LexicalSpec.nonempty_pieces ps
  | _ => p :: LexicalSpec.nonempty_pieces ps
  end.
Proof. destruct p; reflexivity. Qed.

(** [split(/\s+/)] and the tokens of the specification: the tokens are the
    pieces that are not empty. *)
Lemma split_from_tokens (s : string) :
  (forall current, exists p ps,
      split_from false s = p :: ps /\
      LexicalSpec.tokens_from current s = LexicalSpec.nonempty_pieces ((current ++ p) :: ps)) /\
  LexicalSpec.tokens_from "" s = LexicalSpec.nonempty_pieces (split_from true s).
Proof.
  induction s as [|c r [IHf IHt]].
  - split.
    + intros current. exists "", []. split; [reflexivity|].
      rewrite append_empty_r, nonempty_pieces_cons. destruct current; reflexivity.
    + reflexivity.
  - cbn [split_from LexicalSpec.tokens_from].
    destruct (is_space c) eqn:Sp.
    + split.
      * intros current. exists "", (split_from true r). split; [reflexivity|].
        rewrite append_empty_r, nonempty_pieces_cons, <- IHt.
        destruct current; reflexivity.
      * exact IHt.
    + split.
      * intros current.
        destruct (IHf (current ++ String c "")) as (p & ps & E & T).
        exists (String c p), ps. rewrite E. split; [reflexivity|].
        rewrite T, append_assoc. reflexivity.
      * destruct (IHf (String c "")) as (p & ps & E & T).
        rewrite E. cbn [append] in T |- *. exact T.
Qed.

Lemma tokens_split (s : string) :
  LexicalSpec.tokens s = LexicalSpec.nonempty_pieces (split_whitespace s).
Proof.
  destruct (split_from_tokens s) as [H _].
  destruct (H "") as (p & ps & E & T).
  unfold LexicalSpec.tokens, split_whitespace. rewrite T, E. reflexivity.
Qed.

(** Keeping only the pieces longer than [n] drops the empty ones anyway. *)
Lemma filter_longer_nonempty (n : nat) (pieces : list string) :
  filter (fun w => (n <? String.length w)%nat) (LexicalSpec.nonempty_pieces pieces) =
  filter (fun w => (n <? String.length w)%nat) pieces.
Proof.
  induction pieces as [|p ps IH]; [reflexivity|].
  unfold LexicalSpec.nonempty_pieces in *. cbn [filter].
  destruct (0 <? String.length p)%nat eqn:E0.
  - cbn [filter]. now rewrite IH.
  - rewrite IH. apply Nat.ltb_ge in E0.
    destruct (n <? String.length p)%nat eqn:En; [|reflexivity].
    apply Nat.ltb_lt in En. lia.
Qed.

(** The words of the code are the tokens of the specification. *)
Lemma words_are_tokens (n : nat) (s : string) :
  filter (fun word => (n <? String.length word)%nat)
         (split_whitespace (strip_punctuation (toLowerCase s))) =
  LexicalSpec.tokens_longer_than n s.
Proof.
  unfold LexicalSpec.tokens_longer_than.
  rewrite tokens_split, filter_longer_nonempty. reflexivity.
Qed.

Lemma includes_in_dec (others : list string) (w : string) :
  includes others w = if in_dec string_dec w others then true else false.
Proof.
  unfold includes. destruct (in_dec string_dec w others) as [I|N].
  - apply existsb_exists. exists w. split; [exact I | apply String.eqb_refl].
  - destruct (existsb (String.eqb w) others) eqn:E; [|reflexivity].
    apply existsb_exists in E. destruct E as (x & I & Ex).
    apply String.eqb_eq in Ex. subst x. contradiction.
Qed.

(** The counting loop returns the number of words that are included. *)
Lemma count_included_from (words others : list string) (start : nat) :
  fold_left (fun n word => if includes others word then S n else n) words start =
  (start + LexicalSpec.number_present words others)%nat.
Proof.
  unfold LexicalSpec.number_present. revert start.
  induction words as [|w ws IH]; intros start; cbn [fold_left filter].
  - cbn. lia.
  - rewrite IH, <- includes_in_dec.
    destruct (includes others w); cbn [List.length]; lia.
Qed.

Lemma count_included_spec (words others : list string) :
  WordMatching.count_included words others = LexicalSpec.number_present words others.
Proof. unfold WordMatching.count_included. now rewrite count_included_from. Qed.

(** The conditional of the code is the rate of the specification. *)
Lemma rate_spec (count total : nat) :
  (if (0 <? total)%nat then Q_of_nat count / Q_of_nat total else 0.5)%Q =
  LexicalSpec.rate count total.
Proof.
  unfold LexicalSpec.rate. destruct total as [|n]; [reflexivity|].
  cbn [Nat.ltb Nat.leb Nat.eqb]. rewrite Nat.max_r by lia. reflexivity.
Qed.

End Lexical.



(* ================================================================== *)
(** * LLMJudge: the extracted block *)
(* ================================================================== *)

Section Braces.
Import JsString.
Local Open Scope string_scope.

Lemma has_char_app (c : ascii) (a b : string) :
  has_char c (a ++ b) = has_char c a || has_char c b.
Proof.
  induction a as [|x r IH]; cbn; [reflexivity|].
  rewrite IH. apply orb_assoc.
Qed.

(** No closing brace, no prefix that ends in one. *)
Lemma upto_last_close_none (s : string) :
  LLMJudge.upto_last_close s = None <-> has_char "}" s = false.
Proof.
  induction s as [|c r IH]; cbn; [tauto|].
  destruct (LLMJudge.upto_last_close r) as [p|].
  - split; [discriminate|]. intros H. apply orb_false_iff in H.
    destruct H as [_ H]. apply IH in H. discriminate.
  - destruct (Ascii.eqb c "}"); cbn.
    + split; discriminate.
    + split; intros _; [apply IH|]; reflexivity.
Qed.

(** The prefix found ends at the last closing brace. *)
Lemma upto_last_close_some (s p : string) :
  LLMJudge.upto_last_close s = Some p <->
  exists inside after,
    s = inside ++ "}" ++ after /\ p = inside ++ "}" /\ has_char "}" after = false.
Proof.
  revert p. induction s as [|c r IH]; intros p; cbn.
  - split; [discriminate|]. intros (inside & after & E & _).
    destruct inside; discriminate.
  - destruct (LLMJudge.upto_last_close r) as [p'|] eqn:U.
    + split.
      * intros H. injection H as <-.
        destruct (proj1 (IH p') eq_refl) as (inside & after & E & P & N).
        exists (String c inside), after. cbn. now rewrite E, P.
      * intros (inside & after & E & P & N).
        destruct inside as [|x inside]; cbn in E; injection E as -> E.
        -- subst r. apply upto_last_close_none in N.
           assert (LLMJudge.upto_last_close after = Some p') as C by exact U.
           congruence.
        -- f_equal. subst p. cbn. f_equal.
           assert (Some p' = Some (inside ++ "}")) as C.
           { apply IH. exists inside, after. auto. }
           congruence.
    + apply upto_last_close_none in U.
      destruct (Ascii.eqb_spec c "}") as [->|NE].
      * split.
        -- intros H. injection H as <-. exists "", r. auto.
        -- intros (inside & after & E & P & N).
           destruct inside as [|x inside]; cbn in E; inversion E; subst.
           ++ reflexivity.
           ++ rewrite has_char_app in U. cbn in U.
              rewrite orb_true_r in U. discriminate.
      * split; [discriminate|].
        intros (inside & after & E & P & N).
        destruct inside as [|x inside]; cbn in E; inversion E; subst.
        -- congruence.
        -- rewrite has_char_app in U. cbn in U.
           rewrite orb_true_r in U. discriminate.
Qed.

(** The match starts at the first opening brace of the output and ends at
    its last closing brace. *)
Lemma match_braces_some (result block : string) :
  LLMJudge.match_braces result = Some block <->
  exists before inside after,
    result = before ++ block ++ after /\
    block = "{" ++ inside ++ "}" /\
    has_char "{" before = false /\
    has_char "}" after = false.
Proof.
  revert block. induction result as [|c r IH]; intros block; cbn.
  - split; [discriminate|].
    intros (before & inside & after & E & B & _). subst block.
    destruct before; discriminate.
  - destruct (Ascii.eqb_spec c "{") as [->|NE].
    + destruct (LLMJudge.upto_last_close r) as [p|] eqn:U.
      * apply upto_last_close_some in U. destruct U as (inside & after & E & P & N).
        split.
        -- intros H. injection H as <-. exists "", inside, after.
           subst r p. cbn. rewrite append_assoc. auto.
        -- intros (before & inside' & after' & E' & B & Nb & Na).
           destruct before as [|x before].
           ++ subst block. cbn in E'. injection E' as E'.
              rewrite append_assoc in E'.
              assert (LLMJudge.upto_last_close r = Some (inside' ++ "}")) as C.
              { apply upto_last_close_some. exists inside', after'. auto. }
              assert (LLMJudge.upto_last_close r = Some p) as C'.
              { apply upto_last_close_some. exists inside, after. auto. }
              rewrite C in C'. injection C' as <-. reflexivity.
           ++ cbn in E'. injection E' as <- _. cbn in Nb. discriminate.
      * split; [discriminate|].
        intros (before & inside & after & E & B & Nb & Na).
        destruct before as [|x before].
        -- subst block. cbn in E. injection E as E. rewrite append_assoc in E.
           assert (LLMJudge.upto_last_close r = Some (inside ++ "}")) as C.
           { apply upto_last_close_some. exists inside, after. auto. }
           congruence.
        -- cbn in E. injection E as <- _. cbn in Nb. discriminate.
    + rewrite IH. split.
      * intros (before & inside & after & E & B & Nb & Na).
        exists (String c before), inside, after. cbn.
        destruct (Ascii.eqb_spec c "{"); [contradiction|]. subst r. auto.
      * intros (before & inside & after & E & B & Nb & Na).
        destruct before as [|x before].
        -- subst block. cbn in E. injection E as E _. contradiction.
        -- cbn in E. injection E as <- E. cbn in Nb.
           apply orb_false_iff in Nb. destruct Nb as [_ Nb].
           exists before, inside, after. auto.
Qed.

(** There is no match exactly when no opening brace of the output has a
    closing brace after it. *)
Lemma match_braces_none (result : string) :
  LLMJudge.match_braces result = None <->
  ~ exists before inside after, result = before ++ "{" ++ inside ++ "}" ++ after.
Proof.
  induction result as [|c r IH]; cbn.
  - split; [|reflexivity]. intros _ (before & inside & after & E).
    destruct before; discriminate.
  - destruct (Ascii.eqb_spec c "{") as [->|NE].
    + destruct (LLMJudge.upto_last_close r) as [p|] eqn:U.
      * split; [discriminate|]. intros H. exfalso. apply H.
        apply upto_last_close_some in U. destruct U as (inside & after & E & _).
        exists "", inside, after. now subst r.
      * split; [|reflexivity]. intros _ (before & inside & after & E).
        apply upto_last_close_none in U.
        assert (has_char "}" (String "{" r) = true) as C.
        { rewrite E, has_char_app. cbn. rewrite has_char_app. cbn.
          now rewrite !orb_true_r. }
        cbn in C. congruence.
    + rewrite IH. split.
      * intros H (before & inside & after & E). apply H.
        destruct before as [|x before]; cbn in E; injection E as E1 E2.
        -- contradiction.
        -- exists before, inside, after. exact E2.
      * intros H (before & inside & after & E). apply H.
        exists (String c before), inside, after. cbn. now rewrite E.
Qed.

End Braces.

(* ================================================================== *)
(** * LLMJudge: coercion, clamping and the parser *)
(* ================================================================== *)

Section Clamp.
Variable rt : Js.Runtime.

(** What [Math.max(0, Math.min(1, n || 0))] is for each kind of number. *)
Lemma clamp_cases (v : Js.value) :
  match Js.ToNumber rt v with
  | Js.NaN => Js.clamp rt v = Js.Finite 0
  | Js.Infinity => Js.clamp rt v = Js.Finite 1
  | Js.NegInfinity => Js.clamp rt v = Js.Finite 0
  | Js.Finite q =>
      exists q', Js.clamp rt v = Js.Finite q' /\ q' == Math_max 0 (Math_min 1 q)
  end.
Proof.
  unfold Js.clamp. destruct (Js.ToNumber rt v) as [| | |q]; try reflexivity.
  cbn. destruct (Qeq_bool q 0) eqn:Z.
  - apply Qeq_bool_iff in Z. eexists. split; [reflexivity|]. minmax.
  - eexists. split; reflexivity.
Qed.

(** The stored number is finite and lies in the unit interval. *)
Lemma clamp_finite (v : Js.value) :
  Js.clamp rt v = Js.Finite (Js.as_score (Js.clamp rt v)) /\
  0 <= Js.as_score (Js.clamp rt v) <= 1.
Proof.
  pose proof (clamp_cases v) as H.
  destruct (Js.ToNumber rt v) as [| | |q].
  - rewrite H. cbn. split; [reflexivity | split; lra].
  - rewrite H. cbn. split; [reflexivity | split; lra].
  - rewrite H. cbn. split; [reflexivity | split; lra].
  - destruct H as (q' & E & B). rewrite E. cbn. split; [reflexivity|].
    rewrite B. split; minmax.
Qed.


(** A number of the unit interval is stored as it is, a smaller one as 0
    and a larger one as 1. *)
Lemma clamp_number (v : Js.value) (q : Q) :
  Js.ToNumber rt v = Js.Finite q ->
  (0 <= q <= 1 -> Js.as_score (Js.clamp rt v) == q) /\
  (q < 0 -> Js.as_score (Js.clamp rt v) == 0) /\
  (1 < q -> Js.as_score (Js.clamp rt v) == 1).
Proof.
  intros N. pose proof (clamp_cases v) as C. rewrite N in C.
  destruct C as (q' & E & B). rewrite E. cbn. rewrite B.
  repeat split; intros; minmax.
Qed.

End Clamp.


(* ================================================================== *)
(** * ContextValidator *)
(* ================================================================== *)

(** Running an [async] method from a trace. *)
Lemma bind_Async_run {A B : Type} (c : Async A) (k : A -> Async B) (t : Trace) :
  bind c k t =
  match c t with
  | (Normal a, t') => k a t'
  | (Throw e, t') => (Throw e, t')
  end.
Proof. reflexivity. Qed.

Lemma catch_Async_run {A : Type} (body : Async A) (handler : Thrown -> Async A) (t : Trace) :
  catch body handler t =
  match body t with
  | (Normal a, t') => (Normal a, t')
  | (Throw e, t') => handler e t'
  end.
Proof. reflexivity. Qed.

(** A [try] whose handler returns never throws. *)
Lemma catch_returns {A : Type} (body : Async A) (recover : Thrown -> A) (t : Trace) :
  exists a t', catch body (fun error => ret (recover error)) t = (Normal a, t').
Proof.
  rewrite catch_Async_run. destruct (body t) as [[a|e] t']; cbn; eauto.
Qed.

(** The constructor of the context validator never throws: the judge is
    only built when a key is there. *)
Lemma ContextValidator_new_total
    (openaiApiKey claudeApiKey : option string) (useLLMJudge developerMode : option bool) :
  exists self,
    ContextValidator.new openaiApiKey claudeApiKey useLLMJudge developerMode = Normal self.
Proof.
  unfold ContextValidator.new, LLMJudge.new.
  destruct (nullish useLLMJudge false); cbn; [|eauto].
  destruct (JsString.truthy openaiApiKey); cbn; [eauto|].
  destruct (JsString.truthy claudeApiKey); cbn; eauto.
Qed.

(** The lexical fallback returns, and records its entry. *)
Lemma wordMatchingValidation_run (query response : string) (sources : list Source) (t : Trace) :
  ContextValidator.wordMatchingValidation query response sources t =
  (Normal (WordMatching.wordMatchingValidation query response sources),
   (t ++ [wordMatchingValidation_called query response sources])%list).
Proof. reflexivity. Qed.

(** The judge records its entry first, whatever happens next. *)
Lemma LLMJudge_validateContext_trace env judge query response sources (t : Trace) :
  exists outcome rest,
    LLMJudge.validateContext env judge query response sources t =
    (outcome, (t ++ LLMJudge_validateContext_called query response sources :: rest)%list).
Proof.
  unfold LLMJudge.validateContext, entered, invoke.
  rewrite bind_Async_run. cbv beta iota.
  set (t1 := (t ++ [_])%list).
  set (prompt := LLMJudge.buildValidationPrompt _ _ _ _).
  assert (T1 : forall rest, (t1 ++ rest = t ++
                LLMJudge_validateContext_called query response sources :: rest)%list).
  { intros rest. subst t1. rewrite <- app_assoc. reflexivity. }
  rewrite bind_Async_run.
  destruct (LLMJudge.provider judge), (LLMJudge.openai judge) as [k1|] eqn:O,
           (LLMJudge.anthropic judge) as [k2|] eqn:A;
    unfold LLMJudge.callOpenAI, LLMJudge.callClaude; rewrite ?O, ?A; cbn;
    unfold invoke, settled;
    repeat match goal with
           | |- context [match ?o with Normal _ => _ | Throw _ => _ end] =>
               destruct o; cbn
           | |- context [match ?o with Some _ => _ | None => _ end] =>
               destruct o; cbn
           | |- context [match ?o with TextBlock _ => _ | OtherBlock => _ end] =>
               destruct o; cbn
           end;
    try (eexists; exists []; rewrite <- T1, app_nil_r; reflexivity);
    try (eexists; eexists; rewrite <- T1; reflexivity).
Qed.

(** The context validator never throws: a failure of the judge is caught
    and the lexical fallback runs. *)
Lemma ContextValidator_validateContext_total env self query response sources (t : Trace) :
  exists result t',
    ContextValidator.validateContext env self query response sources t = (Normal result, t').
Proof.
  unfold ContextValidator.validateContext.
  destruct (List.length sources =? 0)%nat; [cbn; eauto|].
  destruct (ContextValidator.useLLMJudge self), (ContextValidator.llmJudge self) as [judge|];
    try (rewrite wordMatchingValidation_run; eauto).
  rewrite catch_Async_run.
  destruct (LLMJudge.validateContext env judge query response sources t) as [[r|e] t'];
    [eauto|].
  rewrite wordMatchingValidation_run. eauto.
Qed.

(** With at least one source a grader is entered: the trace grows by the
    entry into the judge or into the lexical fallback. *)
Lemma validateContext_with_sources_invokes env self query response sources (t : Trace) :
  sources <> [] ->
  exists outcome call rest,
    ContextValidator.validateContext env self query response sources t =
    (outcome, (t ++ call :: rest)%list) /\
    (call = LLMJudge_validateContext_called query response sources \/
     call = wordMatchingValidation_called query response sources).
Proof.
  intros NE. unfold ContextValidator.validateContext.
  destruct sources as [|s rest]; [congruence|]. cbn [List.length Nat.eqb].
  destruct (ContextValidator.useLLMJudge self), (ContextValidator.llmJudge self) as [judge|];
    try (rewrite wordMatchingValidation_run; do 2 eexists; exists []; split;
         [reflexivity | right; reflexivity]).
  rewrite catch_Async_run.
  destruct (LLMJudge_validateContext_trace env judge query response (s :: rest) t)
    as (outcome & more & E).
  rewrite E. destruct outcome as [r|e].
  - do 3 eexists. split; [reflexivity | left; reflexivity].
  - rewrite wordMatchingValidation_run. do 3 eexists.
    split; [rewrite <- app_assoc; reflexivity | left; reflexivity].
Qed.

(** C4.  Whatever the query and the response, and whatever the instance
    (with or without a judge, the judge path enabled or not),
    [validateContext] on an empty list of sources resolves with exactly
    [{source_relevance: 0, source_usage_rate: 0, valid: false}] and leaves
    the trace as it found it: neither the judge nor the lexical fallback is
    entered and no provider is called.  The same holds for every instance
    the constructor builds. *)
Theorem validateContext_no_sources
    (env : Env.t) (self : ContextValidator.t) (query response : string) (trace : Trace) :
  ContextValidator.validateContext env self query response [] trace =
    (Normal (ContextResult.mk 0 0 false), trace) /\
  (forall openaiApiKey claudeApiKey useLLMJudge developerMode,
   exists built,
     ContextValidator.new openaiApiKey claudeApiKey useLLMJudge developerMode =
       Normal built /\
     ContextValidator.validateContext env built query response [] trace =
       (Normal (ContextResult.mk 0 0 false), trace)).
Proof.
  split; [reflexivity|].
  intros k1 k2 u d.
  destruct (ContextValidator_new_total k1 k2 u d) as [built E].
  exists built. split; [exact E | reflexivity].
Qed.

(* ================================================================== *)
(** * AIValidator: the orchestrator *)
(* ================================================================== *)

Section Orchestrator.
Variable env : Env.t.
Variable self : AIValidator.t.
Variable input : ValidationInput.

Local Abbreviation c := (AIValidator.config self).
Local Abbreviation query := (ValidationInput.query input).

(** The classification step ends in one of three ways. *)
Lemma classification_step_run (t : Trace) :
  AIValidator.classification_step env self input t =
  if AIValidator.flag (AIValidatorConfig.enableQueryClassification c) then
    match Env.classifyQuery env query with
    | Normal classification =>
        (Normal (if QueryClassificationResult.skip_validation classification
                 then Some (AIValidator.skipped (QueryClassificationResult.type classification))
                 else None),
         (t ++ [classifyQuery_called query])%list)
    | Throw e => (Throw e, (t ++ [classifyQuery_called query])%list)
    end
  else (Normal None, t).
Proof.
  unfold AIValidator.classification_step.
  destruct (AIValidator.flag (AIValidatorConfig.enableQueryClassification c));
    [|reflexivity].
  rewrite bind_Async_run. unfold invoke.
  destruct (Env.classifyQuery env query) as [cl|e]; [|reflexivity].
  destruct (QueryClassificationResult.skip_validation cl); reflexivity.
Qed.

(** The fan-out resolves when the two fallible checks do, and rejects with
    the rejection of the one that throws; when both throw, with the
    rejection that settles first (the accuracy check on a tie). *)
Lemma validation_steps_run (t : Trace) :
  exists t',
    match AIValidator.accuracy_outcome env self input,
          AIValidator.hallucination_outcome env self input with
    | Normal _, Normal _ =>
        exists r, AIValidator.validation_steps env self input t = (Normal r, t')
    | Throw ea, Normal _ =>
        AIValidator.validation_steps env self input t = (Throw ea, t')
    | Normal _, Throw eh =>
        AIValidator.validation_steps env self input t = (Throw eh, t')
    | Throw ea, Throw eh =>
        AIValidator.validation_steps env self input t =
        (Throw (if (Env.settle_time env hallucination_slot <?
                    Env.settle_time env accuracy_slot)%nat then eh else ea), t')
    end.
Proof.
  unfold AIValidator.validation_steps.
  rewrite bind_Async_run. unfold Promise_all3.
  assert (Ha : exists t1, AIValidator.accuracy_check env self input t =
                          (AIValidator.accuracy_outcome env self input, t1)).
  { unfold AIValidator.accuracy_check, AIValidator.accuracy_outcome.
    destruct (AIValidator.flag (AIValidatorConfig.enableAccuracyCheck c));
      cbn; unfold invoke; eauto. }
  destruct Ha as [t1 Ha]. rewrite Ha.
  assert (Hb : exists r t2, AIValidator.context_check env self input t1 = (Normal r, t2)).
  { unfold AIValidator.context_check.
    destruct (AIValidator.flag (AIValidatorConfig.enableContextValidation c)).
    - apply ContextValidator_validateContext_total.
    - cbn. eauto. }
  destruct Hb as (rb & t2 & Hb). rewrite Hb.
  assert (Hh : exists t3, AIValidator.hallucination_check env self input t2 =
                          (AIValidator.hallucination_outcome env self input, t3)).
  { unfold AIValidator.hallucination_check, AIValidator.hallucination_outcome.
    destruct (AIValidator.flag (AIValidatorConfig.enableHallucinationDetection c));
      cbn; unfold invoke; eauto. }
  destruct Hh as [t3 Hh]. rewrite Hh.
  exists t3.
  destruct (AIValidator.accuracy_outcome env self input) as [ra|ea],
           (AIValidator.hallucination_outcome env self input) as [rh|eh].
  - cbn. eauto.
  - reflexivity.
  - reflexivity.
  - cbn [rejection_of app first_rejection].
    destruct (Env.settle_time env hallucination_slot <?
              Env.settle_time env accuracy_slot)%nat; reflexivity.
Qed.

(** In short: when one of the two throws, the steps reject with a value that
    one of them threw. *)
Lemma validation_steps_reject (t : Trace) (error : Thrown) :
  AIValidator.accuracy_outcome env self input = Throw error \/
  AIValidator.hallucination_outcome env self input = Throw error ->
  exists e t',
    AIValidator.validation_steps env self input t = (Throw e, t') /\
    (AIValidator.accuracy_outcome env self input = Throw e \/
     AIValidator.hallucination_outcome env self input = Throw e).
Proof.
  intros Thrown_by. destruct (validation_steps_run t) as [t' R].
  destruct (AIValidator.accuracy_outcome env self input) as [ra|ea],
           (AIValidator.hallucination_outcome env self input) as [rh|eh].
  - destruct Thrown_by; discriminate.
  - eauto.
  - eauto.
  - destruct (Env.settle_time env hallucination_slot <?
              Env.settle_time env accuracy_slot)%nat; eauto.
Qed.

(** A disabled check cannot throw: its promise is already resolved. *)
Lemma accuracy_outcome_throw (e : Thrown) :
  AIValidator.accuracy_outcome env self input = Throw e <->
  AIValidator.flag (AIValidatorConfig.enableAccuracyCheck c) = true /\
  Env.checkAccuracy env (ValidationInput.response input) (ValidationInput.sources input)
    (AIValidatorConfig.llmProvider c) (AIValidator.getModel self) = Throw e.
Proof.
  unfold AIValidator.accuracy_outcome. cbv zeta.
  destruct (AIValidator.flag (AIValidatorConfig.enableAccuracyCheck c)).
  - tauto.
  - split; [discriminate | intros [D _]; discriminate D].
Qed.

Lemma hallucination_outcome_throw (e : Thrown) :
  AIValidator.hallucination_outcome env self input = Throw e <->
  AIValidator.flag (AIValidatorConfig.enableHallucinationDetection c) = true /\
  Env.detectHallucination env (ValidationInput.response input)
    (ValidationInput.sources input)
    (AIValidatorConfig.llmProvider c) (AIValidator.getModel self) = Throw e.
Proof.
  unfold AIValidator.hallucination_outcome. cbv zeta.
  destruct (AIValidator.flag (AIValidatorConfig.enableHallucinationDetection c)).
  - tauto.
  - split; [discriminate | intros [D _]; discriminate D].
Qed.

End Orchestrator.

(** C1.  For every input, [validate] resolves with a result and never
    rejects.  Whenever the [try] block throws, at whatever step
    (classification, a check of the fan-out, fusion or anything else in it),
    the result is exactly the fail-closed record with the single warning
    ["Validation failed: <message>"], the message being that of the thrown
    error ('unknown error' for a thrown value that is not an [Error]).  In
    particular: when classification is enabled and the classifier throws;
    and, when validation is not skipped, when an enabled accuracy or
    hallucination check throws, the record then carrying the message of the
    rejection that settled first.  (The context check never throws,
    [ContextValidator_validateContext_total].) *)
Theorem validate_fail_closed
    (env : Env.t) (self : AIValidator.t) (input : ValidationInput) (trace : Trace) :
  let c := AIValidator.config self in
  let query := ValidationInput.query input in
  let response := ValidationInput.response input in
  let sources := ValidationInput.sources input in
  let provider := AIValidatorConfig.llmProvider c in
  let model := AIValidator.getModel self in
  let fail_closed := fun error : Thrown =>
    ValidationResult.mk 0 false
      (AccuracyResult.mk false 0 (Some "validation_error"%string))
      (ContextResult.mk 0 0 false)
      (HallucinationResult.mk true 1.0 None)
      [("Validation failed: " ++ AIValidator.message_of error)%string]
      None None in
  (exists result trace',
     AIValidator.validate env self input trace = (Normal result, trace')) /\
  (forall error trace',
     AIValidator.validate_try env self input trace = (Throw error, trace') ->
     AIValidator.validate env self input trace = (Normal (fail_closed error), trace')) /\
  (forall error,
     AIValidator.flag (AIValidatorConfig.enableQueryClassification c) = true ->
     Env.classifyQuery env query = Throw error ->
     AIValidator.validate env self input trace =
       (Normal (fail_closed error), (trace ++ [classifyQuery_called query])%list)) /\
  (forall trace1 error,
     AIValidator.classification_step env self input trace = (Normal None, trace1) ->
     (AIValidator.flag (AIValidatorConfig.enableAccuracyCheck c) = true /\
      Env.checkAccuracy env response sources provider model = Throw error) \/
     (AIValidator.flag (AIValidatorConfig.enableHallucinationDetection c) = true /\
      Env.detectHallucination env response sources provider model = Throw error) ->
     exists first trace',
       AIValidator.validate env self input trace =
         (Normal (fail_closed first), trace') /\
       ((AIValidator.flag (AIValidatorConfig.enableAccuracyCheck c) = true /\
         Env.checkAccuracy env response sources provider model = Throw first) \/
        (AIValidator.flag (AIValidatorConfig.enableHallucinationDetection c) = true /\
         Env.detectHallucination env response sources provider model = Throw first))) /\
  (forall message,
     AIValidator.message_of (ErrorObject message) = message) /\
  AIValidator.message_of OtherThrown = "unknown error"%string.
Proof.
  cbv zeta.
  assert (Caught : forall error trace',
             AIValidator.validate_try env self input trace = (Throw error, trace') ->
             AIValidator.validate env self input trace =
               (Normal (AIValidator.failed error), trace')).
  { intros error trace' T. unfold AIValidator.validate.
    rewrite catch_Async_run, T. reflexivity. }
  split; [apply catch_returns|].
  split; [exact Caught|].
  split; [|split; [|split; reflexivity]].
  - intros error F C. apply Caught.
    unfold AIValidator.validate_try. rewrite bind_Async_run, classification_step_run.
    rewrite F, C. reflexivity.
  - intros trace1 error S Thrown_by.
    rewrite <- accuracy_outcome_throw, <- hallucination_outcome_throw in Thrown_by.
    destruct (validation_steps_reject env self input trace1 error Thrown_by)
      as (first & t' & R & Which).
    exists first, t'. split.
    + apply Caught. unfold AIValidator.validate_try. rewrite bind_Async_run, S. exact R.
    + rewrite <- accuracy_outcome_throw, <- hallucination_outcome_throw. exact Which.
Qed.

(* ================================================================== *)
(** * Runs on the sample environment *)
(* ================================================================== *)

(** The judge keeps the verdict of the sample reply: the relevance 1.7 is
    clamped to 1, the usage rate that is no number counts as 0, and [valid]
    is the literal [true] of the verdict. *)
Example parse_sample_output :
  LLMJudge.match_braces sample_output = Some sample_block /\
  LLMJudge.parseValidationResult sample_env sample_output =
    Normal (ContextResult.mk 1 0 true) /\
  LLMJudge.parseValidationResult sample_env "no verdict at all" =
    Normal (ContextResult.mk 0.5 0.5 false) /\
  LLMJudge.parseValidationResult sample_env "{ not json }" =
    Normal (ContextResult.mk 0.5 0.5 false).
Proof. repeat split; vm_compute; reflexivity. Qed.

(** [Number] converts the booleans and [null] to numbers, so they are not
    counted as 0 for being of another type: [true] is stored as 1. *)
Example clamp_of_other_types (rt : Js.Runtime) :
  Js.as_score (Js.clamp rt (Js.Boolean true)) = 1 /\
  Js.as_score (Js.clamp rt (Js.Boolean false)) = 0 /\
  Js.as_score (Js.clamp rt Js.Null) = 0 /\
  Js.as_score (Js.clamp rt Js.Undefined) = 0 /\
  Js.as_score (Js.clamp rt (Js.Number (Js.Finite 0.25))) = 0.25 /\
  Js.as_score (Js.clamp rt (Js.Number (Js.Finite (-3)))) = 0 /\
  Js.as_score (Js.clamp rt (Js.Number Js.Infinity)) = 1.
Proof. repeat split; reflexivity. Qed.

(** With a judge that answers, the context validator returns its verdict;
    with a judge whose provider fails, the lexical fallback runs. *)
Example validateContext_sample_runs :
  fst (ContextValidator.validateContext sample_env openai_judge
         "what does the parser read" "The parser reads tokens." [poor_source] []) =
    Normal (ContextResult.mk 1 0 true) /\
  fst (ContextValidator.validateContext sample_env claude_judge
         "what does the parser read" "The parser reads tokens." [poor_source] []) =
    Normal (WordMatching.wordMatchingValidation
              "what does the parser read" "The parser reads tokens." [poor_source]) /\
  ContextValidator.validateContext sample_env claude_judge
    "what does the parser read" "The parser reads tokens." [] [] =
    (Normal (ContextResult.mk 0 0 false), []).
Proof. repeat split; vm_compute; reflexivity. Qed.

(** The orchestrator on the sample environment: a greeting is skipped; a
    throwing classifier and a failing accuracy checker give the fail-closed
    record, and only the classifier was called in the first case. *)
Example validate_sample_runs :
  fst (AIValidator.validate sample_env (sample_validator true true true true)
         (sample_input "hello" []) []) =
    Normal (AIValidator.skipped greeting) /\
  AIValidator.validate sample_env_classifier_throwing
    (sample_validator true true true true) (sample_input "hello" [poor_source]) [] =
    (Normal (ValidationResult.mk 0 false
               (AccuracyResult.mk false 0 (Some "validation_error"%string))
               (ContextResult.mk 0 0 false)
               (HallucinationResult.mk true 1.0 None)
               ["Validation failed: unknown error"%string]
               None None),
     [classifyQuery_called "hello"]) /\
  fst (AIValidator.validate sample_env (sample_validator true true true true)
         (sample_input "what does the parser read" [poor_source]) []) =
    Normal (ValidationResult.mk 0 false
              (AccuracyResult.mk false 0 (Some "validation_error"%string))
              (ContextResult.mk 0 0 false)
              (HallucinationResult.mk true 1.0 None)
              ["Validation failed: rate limit exceeded"%string]
              None None).
Proof. repeat split; vm_compute; reflexivity. Qed.

(* ================================================================== *)
(** * Cross-checks on binary64 numbers *)
(* ================================================================== *)

(** Scenario C evaluated as the runtime does, on IEEE 754 doubles: one minus
    the risk is 0.19999999999999996, the weighted sum 0.22999999999999998,
    its product with 100 is exactly 23, which [Math.round] leaves as it is,
    and 23 / 100 is the double 0.23. *)
Example scenario_C_binary64 :
  Binary64.scenarioC_score_times_100 = 23%float /\
  PrimFloat.eqb (23 / 100) 0.23 = true /\
  PrimFloat.eqb (23 / 100) 0.22 = false.
Proof. repeat split; vm_compute; reflexivity. Qed.

(** On doubles the base and the three bonuses add up to
    0.9999999999999999, one unit in the last place below their decimal sum
    1.0: there too the cap is not exceeded. *)
Example best_quality_binary64 :
  PrimFloat.leb Binary64.best_uncapped_quality 1 = true /\
  PrimFloat.eqb Binary64.best_uncapped_quality 0.9999999999999999 = true.
Proof. split; vm_compute; reflexivity. Qed.

(* ================================================================== *)
(** * Further properties of the specification *)
(* ================================================================== *)

(** X1 (section 8, fifth property).  When classification is enabled and the
    classifier asks to skip validation, [validate] resolves with confidence
    1.0, [valid] true, no warning and [skip_validation] true, whatever the
    response and the sources, and no check is invoked: the trace grows by
    the call of the classifier only. *)
Theorem skip_validation_short_circuit
    (env : Env.t) (self : AIValidator.t) (input : ValidationInput) (trace : Trace)
    (classification : QueryClassificationResult) :
  AIValidator.flag
    (AIValidatorConfig.enableQueryClassification (AIValidator.config self)) = true ->
  Env.classifyQuery env (ValidationInput.query input) = Normal classification ->
  QueryClassificationResult.skip_validation classification = true ->
  AIValidator.validate env self input trace =
    (Normal (ValidationResult.mk 1.0 true
               (AccuracyResult.mk true 1.0 None)
               (ContextResult.mk 1.0 1.0 true)
               (HallucinationResult.mk false 0 None)
               []
               (Some (QueryClassificationResult.type classification))
               (Some true)),
     (trace ++ [classifyQuery_called (ValidationInput.query input)])%list).
Proof.
  intros F C S. unfold AIValidator.validate, AIValidator.validate_try.
  rewrite catch_Async_run, bind_Async_run, classification_step_run, F, C, S.
  reflexivity.
Qed.

Lemma skip_validation_short_circuit_witness :
  fst (AIValidator.validate sample_env (sample_validator true true true true)
         (sample_input "hello" [poor_source]) []) =
  Normal (AIValidator.skipped greeting).
Proof.
  rewrite (skip_validation_short_circuit sample_env
             (sample_validator true true true true)
             (sample_input "hello" [poor_source]) []
             (QueryClassificationResult.mk greeting 0.9 true));
    reflexivity.
Defined.

(** X2 (section 4.2, the containment invariant).  [validateContext] of the
    context validator never rejects; and when the judge is in use and its
    call rejects, the result is the one of the lexical fallback. *)
Theorem grader_failure_is_absorbed
    (env : Env.t) (self : ContextValidator.t) (query response : string)
    (sources : list Source) (trace : Trace) :
  (exists result trace',
     ContextValidator.validateContext env self query response sources trace =
       (Normal result, trace')) /\
  (forall judge error trace',
     sources <> [] ->
     ContextValidator.useLLMJudge self = true ->
     ContextValidator.llmJudge self = Some judge ->
     LLMJudge.validateContext env judge query response sources trace =
       (Throw error, trace') ->
     ContextValidator.validateContext env self query response sources trace =
       (Normal (WordMatching.wordMatchingValidation query response sources),
        (trace' ++ [wordMatchingValidation_called query response sources])%list)).
Proof.
  split; [apply ContextValidator_validateContext_total|].
  intros judge error trace' NE U J T.
  unfold ContextValidator.validateContext.
  destruct sources as [|s rest]; [congruence|]. cbn [List.length Nat.eqb].
  rewrite U, J, catch_Async_run, T. apply wordMatchingValidation_run.
Qed.



(** X4 (section 8, scenario A).  With no source, the two model-backed checks
    off, the context check on and validation not skipped, the confidence is
    0 and the result is not valid for any positive threshold; the warnings
    tell that no source was provided. *)
Theorem scenario_A_no_sources
    (env : Env.t) (self : AIValidator.t) (input : ValidationInput) (trace : Trace) :
  let c := AIValidator.config self in
  AIValidator.flag (AIValidatorConfig.enableQueryClassification c) = false ->
  AIValidator.flag (AIValidatorConfig.enableAccuracyCheck c) = false ->
  AIValidator.flag (AIValidatorConfig.enableHallucinationDetection c) = false ->
  AIValidator.flag (AIValidatorConfig.enableContextValidation c) = true ->
  ValidationInput.sources input = [] ->
  0 < AIValidator.threshold c ->
  exists result,
    AIValidator.validate env self input trace = (Normal result, trace) /\
    ValidationResult.confidence result == 0 /\
    ValidationResult.valid result = false /\
    ValidationResult.context result = ContextResult.mk 0 0 false /\
    In "No sources provided - high hallucination risk"%string
       (ValidationResult.warnings result).
Proof.
  intros c Fq Fa Fh Fc Es Ht. subst c.
  unfold AIValidator.validate, AIValidator.validate_try.
  rewrite catch_Async_run, bind_Async_run, classification_step_run, Fq.
  unfold AIValidator.validation_steps.
  rewrite bind_Async_run. unfold Promise_all3.
  unfold AIValidator.accuracy_check, AIValidator.context_check,
    AIValidator.hallucination_check.
  cbv zeta. rewrite Fa, Fh, Fc, Es. cbn.
  eexists. split; [reflexivity|]. cbn.
  split; [reflexivity|]. split; [|split; [reflexivity | auto]].
  apply Qle_bool_false_iff.
  eapply Qle_lt_trans; [|exact Ht]. apply Qle_bool_iff. reflexivity.
Qed.

Lemma scenario_A_no_sources_witness :
  exists result,
    AIValidator.validate sample_env (sample_validator false false false true)
      (sample_input "what does the parser read" []) [] = (Normal result, []) /\
    ValidationResult.confidence result == 0 /\
    ValidationResult.valid result = false.
Proof.
  destruct (scenario_A_no_sources sample_env (sample_validator false false false true)
              (sample_input "what does the parser read" []) [])
    as (result & R & C & V & _); try reflexivity.
  exists result. auto.
Defined.

(** X5 (section 8, sixth property).  The two ways a judge can fail give two
    different results.  When the provider answers with a text that holds no
    block, the judge's own defaults [{valid: false, 0.5, 0.5}] are the
    result of the context validator; when the call of the provider rejects,
    the full lexical computation is. *)
Theorem judge_default_and_fallback_differ
    (env : Env.t) (key : string) (developerMode : bool) (openaiModel claudeModel : string)
    (query response : string) (sources : list Source) (trace : Trace) :
  let judge :=
    LLMJudge.mk (Some key) None Provider.openai developerMode openaiModel claudeModel in
  let self := ContextValidator.mk (Some judge) true in
  let prompt := LLMJudge.buildValidationPrompt judge query response sources in
  sources <> [] ->
  (forall output,
     Env.chat_completions_create env openaiModel prompt = Normal (Some output) ->
     LLMJudge.match_braces output = None ->
     output <> EmptyString ->
     fst (ContextValidator.validateContext env self query response sources trace) =
       Normal (ContextResult.mk 0.5 0.5 false)) /\
  (forall error,
     Env.chat_completions_create env openaiModel prompt = Throw error ->
     fst (ContextValidator.validateContext env self query response sources trace) =
       Normal (WordMatching.wordMatchingValidation query response sources)).
Proof.
  intros judge self prompt NE.
  destruct sources as [|s rest]; [congruence|].
  split.
  - intros output R M N.
    unfold ContextValidator.validateContext. cbn [List.length Nat.eqb].
    cbn [ContextValidator.useLLMJudge ContextValidator.llmJudge self].
    rewrite catch_Async_run.
    unfold LLMJudge.validateContext. rewrite bind_Async_run. cbn [entered invoke].
    rewrite bind_Async_run.
    cbn [LLMJudge.provider LLMJudge.openai LLMJudge.anthropic judge].
    unfold LLMJudge.callOpenAI. cbn [LLMJudge.openai LLMJudge.openaiModel judge].
    rewrite bind_Async_run. unfold invoke. fold judge. fold prompt. rewrite R.
    assert (O : JsString.or_else (Some output) "{}" = output).
    { unfold JsString.or_else. destruct (String.eqb_spec output ""); congruence. }
    cbn [ret Monad_Async]. rewrite O.
    unfold settled, LLMJudge.parseValidationResult, LLMJudge.parseValidationResult_try.
    rewrite M. reflexivity.
  - intros error R.
    unfold ContextValidator.validateContext. cbn [List.length Nat.eqb].
    cbn [ContextValidator.useLLMJudge ContextValidator.llmJudge self].
    rewrite catch_Async_run.
    unfold LLMJudge.validateContext. rewrite bind_Async_run. cbn [entered invoke].
    rewrite bind_Async_run.
    cbn [LLMJudge.provider LLMJudge.openai LLMJudge.anthropic judge].
    unfold LLMJudge.callOpenAI. cbn [LLMJudge.openai LLMJudge.openaiModel judge].
    rewrite bind_Async_run. unfold invoke. fold judge. fold prompt. rewrite R.
    reflexivity.
Qed.

Lemma judge_default_and_fallback_differ_witness :
  fst (ContextValidator.validateContext
         (sample_env_replying (Normal (Some "I cannot judge this."%string)))
         openai_judge "what does the parser read" "The parser reads tokens."
         [poor_source] []) =
    Normal (ContextResult.mk 0.5 0.5 false) /\
  fst (ContextValidator.validateContext
         (sample_env_replying (Throw (ErrorObject "connection reset")))
         openai_judge "what does the parser read" "The parser reads tokens."
         [poor_source] []) =
    Normal (WordMatching.wordMatchingValidation
              "what does the parser read" "The parser reads tokens." [poor_source]).
Proof.
  split.
  - destruct (judge_default_and_fallback_differ
                (sample_env_replying (Normal (Some "I cannot judge this."%string)))
                "sk-test" false "gpt-4o-mini" "claude-3-haiku-20240307"
                "what does the parser read" "The parser reads tokens." [poor_source] [])
      as [Default _]; [discriminate|].
    apply (Default "I cannot judge this."%string);
      [reflexivity | reflexivity | discriminate].
  - destruct (judge_default_and_fallback_differ
                (sample_env_replying (Throw (ErrorObject "connection reset")))
                "sk-test" false "gpt-4o-mini" "claude-3-haiku-20240307"
                "what does the parser read" "The parser reads tokens." [poor_source] [])
      as [_ Fallback]; [discriminate|].
    apply (Fallback (ErrorObject "connection reset")). reflexivity.
Defined.

(** After [validateConfig] a toggle that needs a key is on only when a key
    is there. *)
Lemma validateConfig_keys (c0 : AIValidatorConfig.t) :
  let c := AIValidator.validateConfig c0 in
  let has_key :=
    JsString.truthy (AIValidatorConfig.openaiApiKey c) ||
    JsString.truthy (AIValidatorConfig.claudeApiKey c) in
  (AIValidator.flag (AIValidatorConfig.useLLMJudge c) = true -> has_key = true) /\
  (AIValidator.flag (AIValidatorConfig.enableAccuracyCheck c) = true -> has_key = true) /\
  (AIValidator.flag (AIValidatorConfig.enableHallucinationDetection c) = true ->
   has_key = true).
Proof.
  unfold AIValidator.validateConfig, AIValidator.flag. cbn.
  destruct (JsString.truthy (AIValidatorConfig.openaiApiKey c0)),
           (JsString.truthy (AIValidatorConfig.claudeApiKey c0)); cbn;
    try (repeat split; reflexivity).
  rewrite !andb_true_r.
  destruct (nullish (AIValidatorConfig.useLLMJudge c0) false) eqn:T1,
           (nullish (AIValidatorConfig.enableAccuracyCheck c0) false) eqn:T2,
           (nullish (AIValidatorConfig.enableHallucinationDetection c0) false) eqn:T3;
    cbn; repeat split; congruence.
Qed.

(** X6 (section 3, the invariant of the configuration).  Construction does
    not fail, and a toggle that needs a credential is on afterwards only
    when a credential is there; the context validator then has a judge
    exactly when the judge path is on. *)
Theorem construction_forces_keyless_toggles_off (options : AIValidatorOptions.t) :
  exists self,
    AIValidator.new options = Normal self /\
    let c := AIValidator.config self in
    let has_key :=
      JsString.truthy (AIValidatorConfig.openaiApiKey c) ||
      JsString.truthy (AIValidatorConfig.claudeApiKey c) in
    (AIValidator.flag (AIValidatorConfig.useLLMJudge c) = true -> has_key = true) /\
    (AIValidator.flag (AIValidatorConfig.enableAccuracyCheck c) = true ->
     has_key = true) /\
    (AIValidator.flag (AIValidatorConfig.enableHallucinationDetection c) = true ->
     has_key = true) /\
    (ContextValidator.useLLMJudge (AIValidator.contextValidator self) = true <->
     exists judge,
       ContextValidator.llmJudge (AIValidator.contextValidator self) = Some judge).
Proof.
  pose proof (validateConfig_keys (AIValidator.with_defaults options)) as Keys.
  cbv zeta in Keys. unfold AIValidator.new.
  set (c := AIValidator.validateConfig (AIValidator.with_defaults options)) in *.
  destruct Keys as (K1 & K2 & K3).
  assert (Built : exists cv,
             ContextValidator.new (AIValidatorConfig.openaiApiKey c)
               (AIValidatorConfig.claudeApiKey c) (AIValidatorConfig.useLLMJudge c)
               (Some (nullish (AIValidatorConfig.developerMode c) false)) = Normal cv /\
             (ContextValidator.useLLMJudge cv = true <->
              exists judge, ContextValidator.llmJudge cv = Some judge)).
  { unfold ContextValidator.new, LLMJudge.new. cbv zeta.
    destruct (nullish (AIValidatorConfig.useLLMJudge c) false) eqn:U; cbn [andb].
    - rewrite (K1 U).
      destruct (JsString.truthy (AIValidatorConfig.openaiApiKey c)) eqn:T1.
      + cbn. eexists. split; [reflexivity|]. cbn. split; eauto.
      + pose proof (K1 U) as T2. rewrite orb_false_l in T2. rewrite T2.
        cbn. eexists. split; [reflexivity|]. cbn. split; eauto.
    - cbn. eexists. split; [reflexivity|]. cbn.
      split; [discriminate | intros [judge J]; discriminate J]. }
  destruct Built as (cv & E & J). rewrite E. cbn.
  exists (AIValidator.mk c cv). split; [reflexivity|]. cbn. auto.
Qed.

(** Options that ask for the judge and both checks without any key: the
    three are switched off, the defaults of the other options apply, and no
    judge is built. *)
Example keyless_construction :
  exists self,
    AIValidator.new keyless_options = Normal self /\
    AIValidatorConfig.useLLMJudge (AIValidator.config self) = Some false /\
    AIValidatorConfig.enableAccuracyCheck (AIValidator.config self) = Some false /\
    AIValidatorConfig.enableHallucinationDetection (AIValidator.config self) = Some false /\
    AIValidatorConfig.enableQueryClassification (AIValidator.config self) = Some true /\
    AIValidatorConfig.enableContextValidation (AIValidator.config self) = Some true /\
    AIValidator.threshold (AIValidator.config self) = 0.7 /\
    AIValidator.contextValidator self = ContextValidator.mk None false.
Proof. eexists. split; [reflexivity|]. repeat split. Qed.

(* ================================================================== *)
(** * ConfidenceScorer: further properties *)
(* ================================================================== *)

Section ScorerCoverage.
Import ConfidenceScorer.

(** Rounding to hundredths keeps the order. *)
Lemma round2_monotone (x y : Q) : x <= y -> round2 x <= round2 y.
Proof.
  intros H. unfold round2, Math_round.
  assert (Z : (Qfloor (x * 100 + (1 # 2)) <= Qfloor (y * 100 + (1 # 2)))%Z)
    by (apply Qfloor_resp_le; lra).
  rewrite Zle_Qle in Z.
  apply Qle_shift_div_l; [reflexivity|].
  setoid_replace (inject_Z (Qfloor (x * 100 + (1 # 2))) / 100 * 100)
    with (inject_Z (Qfloor (x * 100 + (1 # 2)))) by field.
  exact Z.
Qed.

Lemma level_of_cases (x : Q) :
  (level_of x = high /\ 0.8 <= x) \/
  (level_of x = medium /\ 0.5 <= x /\ x < 0.8) \/
  (level_of x = low /\ x < 0.5).
Proof.
  unfold level_of. case_Qle 0.8 x; [left; auto|].
  case_Qle 0.5 x; [right; left; auto | right; right; auto].
Qed.

(** The weights for any argument are those of one of the four regimes. *)
Lemma weights_for_regime (e : option EnabledChecks.t) :
  exists a h, weights_for e = select_weights a h.
Proof. unfold weights_for. eauto. Qed.

(** The weighted sum grows with each score. *)
Lemma weighted_sum_monotone (a h : bool) (x1 x2 x3 x4 y1 y2 y3 y4 : Q) :
  x1 <= y1 -> x2 <= y2 -> x3 <= y3 -> x4 <= y4 ->
  weighted_sum (select_weights a h) x1 x2 x3 x4 <=
  weighted_sum (select_weights a h) y1 y2 y3 y4.
Proof.
  intros. unfold weighted_sum. destruct a, h; cbn; lra.
Qed.

(** A sum of 0.796 is returned as 0.80 and is of level [medium]. *)
Lemma rounded_up_to_the_bound (ar : AccuracyResult) (hr : HallucinationResult) :
  let r := calculateConfidence ar (ContextResult.mk 0.9933 0 true) hr
             [poor_source] both_disabled in
  ConfidenceResult.confidence_score r == 0.8 /\ ConfidenceResult.level r = medium.
Proof.
  cbv zeta. rewrite calculateConfidence_score, calculateConfidence_level.
  pose proof (confidenceScore_both_disabled ar (ContextResult.mk 0.9933 0 true) hr
                [poor_source]) as E.
  rewrite (round2_compat _ _ E), (level_of_compat _ _ E). split; reflexivity.
Qed.

End ScorerCoverage.

(** X7.  The level goes with the score that is returned: [high] comes with a
    score of at least 0.80, [medium] with one between 0.50 and 0.80, [low]
    with one of at most 0.50.  The level is read off the unrounded sum, so
    the bounds 0.80 and 0.50 are shared: a sum of 0.796 is returned as 0.80
    with the level [medium]. *)
Theorem level_goes_with_score
    (ar : AccuracyResult) (cr : ContextResult) (hr : HallucinationResult)
    (sources : list Source) (enabledChecks : option EnabledChecks.t) :
  let r := ConfidenceScorer.calculateConfidence ar cr hr sources enabledChecks in
  (ConfidenceResult.level r = high -> 0.8 <= ConfidenceResult.confidence_score r) /\
  (ConfidenceResult.level r = medium ->
   0.5 <= ConfidenceResult.confidence_score r <= 0.8) /\
  (ConfidenceResult.level r = low -> ConfidenceResult.confidence_score r <= 0.5) /\
  (exists cr',
     let r' := ConfidenceScorer.calculateConfidence ar cr' hr [poor_source] both_disabled in
     ConfidenceResult.confidence_score r' == 0.8 /\ ConfidenceResult.level r' = medium).
Proof.
  cbv zeta. rewrite calculateConfidence_score, calculateConfidence_level.
  set (x := ConfidenceScorer.confidenceScore_of ar cr hr sources enabledChecks).
  assert (R8 : round2 0.8 == 0.8) by reflexivity.
  assert (R5 : round2 0.5 == 0.5) by reflexivity.
  destruct (level_of_cases x) as [[L B] | [[L [B1 B2]] | [L B]]]; rewrite L.
  - split; [intros _; rewrite <- R8; apply round2_monotone, B|].
    split; [discriminate|]. split; [discriminate|].
    exists (ContextResult.mk 0.9933 0 true). apply rounded_up_to_the_bound.
  - split; [discriminate|].
    split; [intros _; split;
            [rewrite <- R5; apply round2_monotone, B1
            |rewrite <- R8; apply round2_monotone; lra]|].
    split; [discriminate|].
    exists (ContextResult.mk 0.9933 0 true). apply rounded_up_to_the_bound.
  - split; [discriminate|]. split; [discriminate|].
    split; [intros _; rewrite <- R5; apply round2_monotone; lra|].
    exists (ContextResult.mk 0.9933 0 true). apply rounded_up_to_the_bound.
Qed.

(** X8.  A better accuracy, a better relevance or a lower risk never lowers the
    score that is returned, nor the level, whatever the sources and the
    flags. *)
Theorem better_inputs_never_lower_the_score
    (ar ar' : AccuracyResult) (cr cr' : ContextResult) (hr hr' : HallucinationResult)
    (sources : list Source) (enabledChecks : option EnabledChecks.t) :
  AccuracyResult.verification_rate ar <= AccuracyResult.verification_rate ar' ->
  ContextResult.source_relevance cr <= ContextResult.source_relevance cr' ->
  HallucinationResult.risk hr' <= HallucinationResult.risk hr ->
  let r := ConfidenceScorer.calculateConfidence ar cr hr sources enabledChecks in
  let r' := ConfidenceScorer.calculateConfidence ar' cr' hr' sources enabledChecks in
  ConfidenceResult.confidence_score r <= ConfidenceResult.confidence_score r' /\
  (ConfidenceResult.level r = high -> ConfidenceResult.level r' = high) /\
  (ConfidenceResult.level r' = low -> ConfidenceResult.level r = low).
Proof.
  intros Hv Hs Hr. cbv zeta.
  rewrite !calculateConfidence_score, !calculateConfidence_level.
  assert (M : ConfidenceScorer.confidenceScore_of ar cr hr sources enabledChecks <=
              ConfidenceScorer.confidenceScore_of ar' cr' hr' sources enabledChecks).
  { unfold ConfidenceScorer.confidenceScore_of.
    destruct (weights_for_regime enabledChecks) as (a & h & ->).
    apply weighted_sum_monotone; lra. }
  set (x := ConfidenceScorer.confidenceScore_of ar cr hr sources enabledChecks) in *.
  set (y := ConfidenceScorer.confidenceScore_of ar' cr' hr' sources enabledChecks) in *.
  split; [apply round2_monotone, M|].
  destruct (level_of_cases x) as [[L B] | [[L [B1 B2]] | [L B]]],
           (level_of_cases y) as [[L' B'] | [[L' [B1' B2']] | [L' B']]];
    rewrite L, L'; split; intros; try reflexivity; try discriminate; lra.
Qed.

Lemma better_inputs_never_lower_the_score_witness :
  ConfidenceResult.confidence_score
    (ConfidenceScorer.calculateConfidence scenarioC_accuracy scenarioC_context
       scenarioC_hallucination scenarioC_sources all_enabled) <=
  ConfidenceResult.confidence_score
    (ConfidenceScorer.calculateConfidence (AccuracyResult.mk true 0.9 None)
       scenarioC_context scenarioC_hallucination scenarioC_sources all_enabled).
Proof.
  apply (better_inputs_never_lower_the_score
           scenarioC_accuracy (AccuracyResult.mk true 0.9 None)
           scenarioC_context scenarioC_context
           scenarioC_hallucination scenarioC_hallucination
           scenarioC_sources all_enabled); cbn; lra.
Defined.

(** X9.  A check that is switched off alone has no say either: with the accuracy
    check off the result does not depend on the accuracy result, and with the
    hallucination check off it does not depend on the risk, whatever the
    other flag.  (The breakdown still reports the score of the check.) *)
Theorem one_disabled_check_has_no_say
    (ar ar' : AccuracyResult) (cr : ContextResult) (hr hr' : HallucinationResult)
    (sources : list Source) (other : option bool) :
  let accuracy_off := Some (EnabledChecks.mk (Some false) other) in
  let hallucination_off := Some (EnabledChecks.mk other (Some false)) in
  (ConfidenceResult.confidence_score
     (ConfidenceScorer.calculateConfidence ar cr hr sources accuracy_off) =
   ConfidenceResult.confidence_score
     (ConfidenceScorer.calculateConfidence ar' cr hr sources accuracy_off) /\
   ConfidenceResult.level
     (ConfidenceScorer.calculateConfidence ar cr hr sources accuracy_off) =
   ConfidenceResult.level
     (ConfidenceScorer.calculateConfidence ar' cr hr sources accuracy_off)) /\
  (ConfidenceResult.confidence_score
     (ConfidenceScorer.calculateConfidence ar cr hr sources hallucination_off) =
   ConfidenceResult.confidence_score
     (ConfidenceScorer.calculateConfidence ar cr hr' sources hallucination_off) /\
   ConfidenceResult.level
     (ConfidenceScorer.calculateConfidence ar cr hr sources hallucination_off) =
   ConfidenceResult.level
     (ConfidenceScorer.calculateConfidence ar cr hr' sources hallucination_off)).
Proof.
  cbv zeta. rewrite !calculateConfidence_score, !calculateConfidence_level.
  assert (A : ConfidenceScorer.confidenceScore_of ar cr hr sources
                (Some (EnabledChecks.mk (Some false) other)) ==
              ConfidenceScorer.confidenceScore_of ar' cr hr sources
                (Some (EnabledChecks.mk (Some false) other))).
  { unfold ConfidenceScorer.confidenceScore_of, ConfidenceScorer.weighted_sum,
      ConfidenceScorer.weights_for. destruct other as [[|]|]; cbn; lra. }
  assert (H : ConfidenceScorer.confidenceScore_of ar cr hr sources
                (Some (EnabledChecks.mk other (Some false))) ==
              ConfidenceScorer.confidenceScore_of ar cr hr' sources
                (Some (EnabledChecks.mk other (Some false)))).
  { unfold ConfidenceScorer.confidenceScore_of, ConfidenceScorer.weighted_sum,
      ConfidenceScorer.weights_for. destruct other as [[|]|]; cbn; lra. }
  split; split;
    first [apply round2_compat; assumption | apply level_of_compat; assumption].
Qed.

Section QualityCoverage.
Import ConfidenceScorer.







End QualityCoverage.




(* ================================================================== *)
(** * AIValidator: warnings *)
(* ================================================================== *)

(** X12.  Each of the five warnings is issued exactly under its condition, with
    the bounds themselves giving no warning (a verification rate of 0.5, a
    relevance of 0.3, a risk of 0.5); there is no warning at all exactly when
    there is a source, the verification rate is at least 0.5, the relevance
    at least 0.3, the risk at most 0.5 and no hallucination was detected;
    and no warning is issued twice. *)
Theorem warnings_by_condition
    (ar : AccuracyResult) (cr : ContextResult) (hr : HallucinationResult)
    (sources : list Source) :
  let warnings := AIValidator.generateWarnings ar cr hr sources in
  (In "No sources provided - high hallucination risk"%string warnings <->
   sources = []) /\
  (In "Low accuracy verification rate"%string warnings <->
   AccuracyResult.verification_rate ar < 0.5) /\
  (In "Low context relevance"%string warnings <->
   ContextResult.source_relevance cr < 0.3) /\
  (In "High hallucination risk detected"%string warnings <->
   0.5 < HallucinationResult.risk hr) /\
  (In "Hallucination detected in response"%string warnings <->
   HallucinationResult.detected hr = true) /\
  (warnings = [] <->
   sources <> [] /\
   0.5 <= AccuracyResult.verification_rate ar /\
   0.3 <= ContextResult.source_relevance cr /\
   HallucinationResult.risk hr <= 0.5 /\
   HallucinationResult.detected hr = false) /\
  NoDup warnings.
Proof.
  cbv zeta. unfold AIValidator.generateWarnings, AIValidator.push.
  assert (S0 : (List.length sources =? 0)%nat = true <-> sources = []).
  { destruct sources; cbn; split; congruence. }
  rewrite <- S0, <- !Qlt_bool_iff.
  rewrite <- !Qlt_bool_false_iff.
  destruct (List.length sources =? 0)%nat,
           (Qlt_bool (AccuracyResult.verification_rate ar) 0.5),
           (Qlt_bool (ContextResult.source_relevance cr) 0.3),
           (Qlt_bool 0.5 (HallucinationResult.risk hr)),
           (HallucinationResult.detected hr);
    cbn;
    repeat split;
    try (intros; intuition (discriminate || congruence));
    repeat (constructor; [cbn; intuition discriminate|]); constructor.
Qed.

(* ================================================================== *)
(** * The lexical fallback: further properties *)
(* ================================================================== *)

Section LexicalCoverage.
Import JsString.
Local Open Scope string_scope.

(** A space between two texts separates their tokens. *)
Lemma tokens_from_app_space (a b current : string) :
  LexicalSpec.tokens_from current (a ++ String " " b) =
  (LexicalSpec.tokens_from current a ++ LexicalSpec.tokens b)%list.
Proof.
  revert current. induction a as [|c r IH]; intros current.
  - cbn. destruct current; reflexivity.
  - cbn [append LexicalSpec.tokens_from]. destruct (is_space c).
    + destruct current; rewrite IH; reflexivity.
    + apply IH.
Qed.

Lemma tokens_join (parts : list string) :
  LexicalSpec.tokens (join " " parts) = flat_map LexicalSpec.tokens parts.
Proof.
  induction parts as [|p rest IH]; [reflexivity|].
  destruct rest as [|q rest].
  - cbn. now rewrite app_nil_r.
  - change (join " " (p :: q :: rest)) with (p ++ String " " (join " " (q :: rest))).
    unfold LexicalSpec.tokens at 1. rewrite tokens_from_app_space, IH. reflexivity.
Qed.

Lemma filter_flat_map {A B : Type} (f : B -> bool) (g : A -> list B) (l : list A) :
  filter f (flat_map g l) = flat_map (fun x => filter f (g x)) l.
Proof.
  induction l as [|x rest IH]; cbn; [reflexivity|].
  now rewrite filter_app, IH.
Qed.

Lemma flat_map_over_map {A B C : Type} (f : B -> list C) (g : A -> B) (l : list A) :
  flat_map f (map g l) = flat_map (fun x => f (g x)) l.
Proof. induction l as [|x rest IH]; cbn; [reflexivity | now rewrite IH]. Qed.

(** The words of the joined contents are the long words of the sources. *)
Lemma source_words_by_source (sources : list Source) :
  LexicalSpec.tokens_longer_than 3 (LexicalSpec.concatenated_contents sources) =
  source_tokens sources.
Proof.
  unfold LexicalSpec.tokens_longer_than, LexicalSpec.concatenated_contents, source_tokens.
  rewrite normalize_join, tokens_join, filter_flat_map, !flat_map_over_map.
  reflexivity.
Qed.

(** What the lexical fallback returns, in terms of tokens. *)
Lemma wordMatchingValidation_by_tokens (query response : string) (sources : list Source) :
  let response_tokens := LexicalSpec.tokens_longer_than 3 response in
  let query_tokens := LexicalSpec.tokens_longer_than 2 query in
  let relevance :=
    LexicalSpec.rate (LexicalSpec.number_present response_tokens (source_tokens sources))
      (List.length response_tokens) in
  WordMatching.wordMatchingValidation query response sources =
  ContextResult.mk
    (Math_min relevance 1.0)
    (LexicalSpec.rate (LexicalSpec.number_present query_tokens response_tokens)
       (List.length query_tokens))
    (Qlt_bool 0.3 relevance).
Proof.
  cbv zeta. unfold WordMatching.wordMatchingValidation.
  rewrite !words_are_tokens.
  assert (S : filter (fun word => (3 <? String.length word)%nat)
                (split_whitespace
                   (join " "
                      (map (fun s => strip_punctuation (toLowerCase (Source.content s)))
                           sources))) =
              source_tokens sources).
  { rewrite <- source_words_by_source.
    unfold LexicalSpec.tokens_longer_than, LexicalSpec.concatenated_contents.
    rewrite normalize_join, map_map, tokens_split, filter_longer_nonempty.
    reflexivity. }
  rewrite S, !count_included_spec, !rate_spec. reflexivity.
Qed.

Lemma number_present_le (ws others : list string) :
  (LexicalSpec.number_present ws others <= List.length ws)%nat.
Proof. unfold LexicalSpec.number_present. apply filter_length_le. Qed.

Lemma Q_of_nat_le (m n : nat) : (m <= n)%nat -> Q_of_nat m <= Q_of_nat n.
Proof. intros H. unfold Q_of_nat. rewrite <- Zle_Qle. lia. Qed.

(** A rate lies in the unit interval. *)
Lemma rate_unit (count total : nat) :
  (count <= total)%nat -> 0 <= LexicalSpec.rate count total <= 1.
Proof.
  intros H. unfold LexicalSpec.rate. destruct total as [|n]; cbn [Nat.eqb].
  - split; lra.
  - rewrite Nat.max_r by lia.
    assert (P : 0 < Q_of_nat (S n)) by (apply Q_of_nat_pos; lia).
    pose proof (Q_of_nat_le _ _ H) as L.
    pose proof (Q_of_nat_le 0 count (Nat.le_0_l _)) as L0.
    change (Q_of_nat 0) with 0 in L0.
    split.
    + apply Qle_shift_div_l; [exact P | lra].
    + apply Qle_shift_div_r; [exact P | lra].
Qed.

(** A rate is 1 exactly when everything was counted, 0 exactly when nothing
    was, for at least one token. *)
Lemma rate_extremes (count total : nat) :
  (0 < total)%nat -> (count <= total)%nat ->
  (LexicalSpec.rate count total == 1 <-> count = total) /\
  (LexicalSpec.rate count total == 0 <-> count = 0%nat).
Proof.
  intros P H. unfold LexicalSpec.rate. destruct total as [|n]; [lia|].
  cbn [Nat.eqb]. rewrite Nat.max_r by lia.
  assert (Pq : 0 < Q_of_nat (S n)) by (apply Q_of_nat_pos; lia).
  assert (D : forall v, Q_of_nat count / Q_of_nat (S n) == v <->
                        Q_of_nat count == v * Q_of_nat (S n)).
  { intros v. split; intros E.
    - rewrite <- E. field. lra.
    - rewrite E. field. lra. }
  rewrite !D. unfold Q_of_nat. split.
  - setoid_replace (1 * inject_Z (Z.of_nat (S n))) with (inject_Z (Z.of_nat (S n))) by ring.
    rewrite inject_Z_injective. lia.
  - setoid_replace (0 * inject_Z (Z.of_nat (S n))) with (inject_Z (Z.of_nat 0)) by ring.
    rewrite inject_Z_injective. lia.
Qed.

(** More counted, higher rate. *)
Lemma rate_monotone (count count' total : nat) :
  (count <= count')%nat ->
  LexicalSpec.rate count total <= LexicalSpec.rate count' total.
Proof.
  intros H. unfold LexicalSpec.rate. destruct total as [|n]; cbn [Nat.eqb]; [lra|].
  rewrite Nat.max_r by lia.
  assert (P : 0 < Q_of_nat (S n)) by (apply Q_of_nat_pos; lia).
  pose proof (Q_of_nat_le _ _ H) as L.
  apply Qle_shift_div_l; [exact P|].
  setoid_replace (Q_of_nat count / Q_of_nat (S n) * Q_of_nat (S n))
    with (Q_of_nat count) by (field; lra).
  exact L.
Qed.

Lemma present_dec_iff (w : string) (others : list string) :
  (if in_dec string_dec w others then true else false) = true <-> In w others.
Proof. destruct (in_dec string_dec w others); split; congruence || auto. Qed.

(** Counting against a larger list counts at least as much; against a list
    with the same members, the same. *)
Lemma number_present_incl (ws others others' : list string) :
  incl others others' ->
  (LexicalSpec.number_present ws others <= LexicalSpec.number_present ws others')%nat.
Proof.
  intros I. unfold LexicalSpec.number_present.
  induction ws as [|w rest IH]; cbn [filter]; [lia|].
  destruct (in_dec string_dec w others) as [H|H].
  - destruct (in_dec string_dec w others') as [H'|H']; [cbn; lia|].
    exfalso. apply H', I, H.
  - destruct (in_dec string_dec w others'); cbn; lia.
Qed.

Lemma number_present_same_members (ws others others' : list string) :
  (forall w, In w others <-> In w others') ->
  LexicalSpec.number_present ws others = LexicalSpec.number_present ws others'.
Proof.
  intros I. apply Nat.le_antisymm; apply number_present_incl; intros w; apply I.
Qed.

(** Everything is counted exactly when every word is present. *)
Lemma number_present_all (ws others : list string) :
  LexicalSpec.number_present ws others = List.length ws <->
  (forall w, In w ws -> In w others).
Proof.
  unfold LexicalSpec.number_present.
  induction ws as [|w rest IH]; cbn [filter List.length].
  - split; [intros _ w [] | reflexivity].
  - pose proof (filter_length_le
                  (fun w => if in_dec string_dec w others then true else false) rest) as B.
    destruct (in_dec string_dec w others) as [H|H]; cbn [List.length].
    + split.
      * intros E w' [<-|I]; [exact H|]. apply IH; [lia | exact I].
      * intros A. f_equal. apply IH. intros w' I. apply A. right. exact I.
    + split; [lia|]. intros A. exfalso. apply H, A. left. reflexivity.
Qed.

(** Nothing is counted exactly when no word is present. *)
Lemma number_present_none (ws others : list string) :
  LexicalSpec.number_present ws others = 0%nat <->
  (forall w, In w ws -> ~ In w others).
Proof.
  unfold LexicalSpec.number_present.
  induction ws as [|w rest IH]; cbn [filter List.length].
  - split; [intros _ w [] | reflexivity].
  - destruct (in_dec string_dec w others) as [H|H]; cbn [List.length].
    + split; [discriminate|]. intros A. exfalso. apply (A w); [left; reflexivity | exact H].
    + rewrite IH. split.
      * intros A w' [<-|I]; [exact H | apply A, I].
      * intros A w' I. apply A. right. exact I.
Qed.

(** Words that cannot be present need not be looked for. *)
Lemma number_present_filter (f : string -> bool) (ws others : list string) :
  (forall w, In w others -> f w = true) ->
  LexicalSpec.number_present ws others =
  LexicalSpec.number_present (filter f ws) others.
Proof.
  intros A. unfold LexicalSpec.number_present.
  induction ws as [|w rest IH]; [reflexivity|].
  cbn [filter]. destruct (in_dec string_dec w others) as [H|H].
  - rewrite (A w H). cbn [filter].
    destruct (in_dec string_dec w others); [|contradiction].
    cbn [List.length]. now rewrite IH.
  - destruct (f w); [|exact IH].
    cbn [filter]. destruct (in_dec string_dec w others); [contradiction | exact IH].
Qed.

Lemma tokens_longer_than_length (n : nat) (s w : string) :
  In w (LexicalSpec.tokens_longer_than n s) -> (n < String.length w)%nat.
Proof.
  unfold LexicalSpec.tokens_longer_than. intros H.
  apply filter_In in H. destruct H as [_ H]. apply Nat.ltb_lt. exact H.
Qed.

End LexicalCoverage.

(** X13.  The lexical fallback returns scores of the unit interval, whatever the
    texts: the relevance and the usage rate lie between 0 and 1, and the
    result is valid only with a relevance above 0.3. *)
Theorem lexical_scores_in_unit_interval
    (query response : string) (sources : list Source) :
  let result := WordMatching.wordMatchingValidation query response sources in
  0 <= ContextResult.source_relevance result <= 1 /\
  0 <= ContextResult.source_usage_rate result <= 1 /\
  (ContextResult.valid result = true -> 0.3 < ContextResult.source_relevance result).
Proof.
  cbv zeta. rewrite wordMatchingValidation_by_tokens. cbv zeta.
  cbn [ContextResult.source_relevance ContextResult.source_usage_rate ContextResult.valid].
  pose proof (rate_unit _ _ (number_present_le
                               (LexicalSpec.tokens_longer_than 3 response)
                               (source_tokens sources))) as R.
  pose proof (rate_unit _ _ (number_present_le
                               (LexicalSpec.tokens_longer_than 2 query)
                               (LexicalSpec.tokens_longer_than 3 response))) as U.
  split; [split; minmax|]. split; [exact U|].
  intros V. apply Qlt_bool_iff in V. minmax.
Qed.

Section Insensitive.
Import JsString.






End Insensitive.


(** X15.  A response whose long words all occur in the sources gets the relevance
    1 and is valid; for a response with at least one long word the relevance
    is 1 only in that case.  In particular a response copied from a source is
    always valid. *)
Theorem response_of_source_words_is_valid
    (query response : string) (sources : list Source) :
  let result := WordMatching.wordMatchingValidation query response sources in
  let response_tokens := LexicalSpec.tokens_longer_than 3 response in
  ((forall w, In w response_tokens -> In w (source_tokens sources)) ->
   ContextResult.valid result = true /\
   (response_tokens <> [] -> ContextResult.source_relevance result == 1)) /\
  (response_tokens <> [] ->
   ContextResult.source_relevance result == 1 ->
   forall w, In w response_tokens -> In w (source_tokens sources)) /\
  (forall source,
     In source sources -> response = Source.content source ->
     ContextResult.valid result = true).
Proof.
  cbv zeta. rewrite wordMatchingValidation_by_tokens. cbv zeta.
  cbn [ContextResult.source_relevance ContextResult.valid].
  set (rt := LexicalSpec.tokens_longer_than 3 response).
  set (st := source_tokens sources).
  pose proof (number_present_le rt st) as Le.
  assert (Full : (forall w, In w rt -> In w st) ->
                 Qlt_bool 0.3
                   (LexicalSpec.rate (LexicalSpec.number_present rt st) (List.length rt))
                 = true /\
                 (rt <> [] ->
                  Math_min
                    (LexicalSpec.rate (LexicalSpec.number_present rt st) (List.length rt))
                    1.0 == 1)).
  { intros A. apply number_present_all in A. rewrite A.
    destruct rt as [|w rest] eqn:R.
    - split; [reflexivity | congruence].
    - assert (E : LexicalSpec.rate (List.length (w :: rest)) (List.length (w :: rest)) == 1).
      { apply rate_extremes; cbn; lia. }
      split.
      + apply Qlt_bool_iff. rewrite E. reflexivity.
      + intros _. minmax. }
  split; [exact Full|]. split.
  - intros NE E. apply number_present_all.
    assert (P : (0 < List.length rt)%nat) by (destruct rt; [congruence | cbn; lia]).
    apply (rate_extremes _ _ P Le).
    pose proof (rate_unit _ _ Le) as U. revert E. minmax.
  - intros source I ->. apply Full. intros w Hw. unfold st, source_tokens.
    apply in_flat_map. exists source. split; [exact I | exact Hw].
Qed.

(** X16.  The sources only ever help, and only the relevance: adding sources never
    lowers the relevance and never makes a valid result invalid; the usage
    rate does not read the sources at all; and the order of the sources does
    not matter. *)
Theorem sources_only_help_relevance
    (query response : string) (sources more : list Source) :
  let result := WordMatching.wordMatchingValidation query response sources in
  let result' := WordMatching.wordMatchingValidation query response (sources ++ more) in
  ContextResult.source_relevance result <= ContextResult.source_relevance result' /\
  (ContextResult.valid result = true -> ContextResult.valid result' = true) /\
  ContextResult.source_usage_rate result = ContextResult.source_usage_rate result' /\
  (forall reordered,
     Permutation sources reordered ->
     WordMatching.wordMatchingValidation query response reordered = result).
Proof.
  cbv zeta. rewrite !wordMatchingValidation_by_tokens. cbv zeta.
  cbn [ContextResult.source_relevance ContextResult.source_usage_rate ContextResult.valid].
  set (rt := LexicalSpec.tokens_longer_than 3 response).
  assert (I : incl (source_tokens sources) (source_tokens (sources ++ more))).
  { unfold source_tokens. rewrite flat_map_app. apply incl_appl, incl_refl. }
  pose proof (rate_monotone _ _ (List.length rt) (number_present_incl rt _ _ I)) as M.
  split; [minmax|]. split.
  - rewrite !Qlt_bool_iff. intros V. lra.
  - split; [reflexivity|].
    intros reordered P. rewrite wordMatchingValidation_by_tokens. cbv zeta. fold rt.
    rewrite (number_present_same_members rt (source_tokens reordered)
               (source_tokens sources)); [reflexivity|].
    intros w. unfold source_tokens. rewrite !in_flat_map.
    split; intros (s & Is & Iw); exists s; split; try exact Iw.
    + apply Permutation_sym in P. apply (Permutation_in _ P Is).
    + apply (Permutation_in _ P Is).
Qed.

(** X17.  The usage rate counts the query words of three characters and more but
    can only find those of four and more, the response words being longer
    than three: a query word of exactly three characters lowers the rate
    whatever the response says, and a query made of such words only has the
    usage rate 0. *)
Theorem three_letter_query_words_never_match
    (query response : string) (sources : list Source) :
  let result := WordMatching.wordMatchingValidation query response sources in
  let query_tokens := LexicalSpec.tokens_longer_than 2 query in
  let response_tokens := LexicalSpec.tokens_longer_than 3 response in
  ContextResult.source_usage_rate result =
    LexicalSpec.rate
      (LexicalSpec.number_present
         (filter (fun w => (3 <? String.length w)%nat) query_tokens) response_tokens)
      (List.length query_tokens) /\
  (query_tokens <> [] ->
   (forall w, In w query_tokens -> String.length w = 3%nat) ->
   ContextResult.source_usage_rate result == 0).
Proof.
  cbv zeta. rewrite wordMatchingValidation_by_tokens. cbv zeta.
  cbn [ContextResult.source_usage_rate].
  set (qt := LexicalSpec.tokens_longer_than 2 query).
  set (rt := LexicalSpec.tokens_longer_than 3 response).
  assert (E : LexicalSpec.number_present qt rt =
              LexicalSpec.number_present
                (filter (fun w => (3 <? String.length w)%nat) qt) rt).
  { apply number_present_filter. intros w Ir.
    apply Nat.ltb_lt. apply (tokens_longer_than_length 3 response w Ir). }
  split; [rewrite E; reflexivity|].
  intros NE Three.
  assert (P : (0 < List.length qt)%nat) by (destruct qt; [congruence | cbn; lia]).
  apply (rate_extremes _ _ P (number_present_le qt rt)).
  apply number_present_none. intros w Iq Ir.
  apply tokens_longer_than_length in Ir. specialize (Three w Iq). lia.
Qed.

(* ================================================================== *)
(** * LLMJudge: further properties *)
(* ================================================================== *)

Section JudgeCoverage.
Variable env : Env.t.

(** The scores of a parsed verdict lie in the unit interval. *)
Lemma parseValidationResult_unit (output : string) :
  exists r,
    LLMJudge.parseValidationResult env output = Normal r /\
    0 <= ContextResult.source_relevance r <= 1 /\
    0 <= ContextResult.source_usage_rate r <= 1.
Proof.
  unfold LLMJudge.parseValidationResult, LLMJudge.parseValidationResult_try.
  destruct (LLMJudge.match_braces output) as [block|]; cbn;
    [|eexists; split; [reflexivity | cbn; split; split; lra]].
  destruct (Js.JSON_parse (Env.runtime env) block) as [parsed|e]; cbn;
    [|eexists; split; [reflexivity | cbn; split; split; lra]].
  destruct (Js.get parsed "valid") as [v|e]; cbn;
    [|eexists; split; [reflexivity | cbn; split; split; lra]].
  destruct (Js.get parsed "source_relevance") as [sr|e]; cbn;
    [|eexists; split; [reflexivity | cbn; split; split; lra]].
  destruct (Js.get parsed "source_usage_rate") as [su|e]; cbn;
    [|eexists; split; [reflexivity | cbn; split; split; lra]].
  eexists. split; [reflexivity|]. cbn. split; apply clamp_finite.
Qed.

(** A run of a judge on OpenAI, and of a judge on Claude. *)
Lemma openai_judge_run (key : string) (developerMode : bool) (m1 m2 : string)
    (query response : string) (sources : list Source) (t : Trace) :
  let judge := LLMJudge.mk (Some key) None Provider.openai developerMode m1 m2 in
  let prompt := LLMJudge.buildValidationPrompt judge query response sources in
  LLMJudge.validateContext env judge query response sources t =
  (match Env.chat_completions_create env m1 prompt with
   | Normal content =>
       LLMJudge.parseValidationResult env (JsString.or_else content "{}")
   | Throw e => Throw e
   end,
   (t ++ [LLMJudge_validateContext_called query response sources;
          chat_completions_create_called m1 prompt])%list).
Proof.
  cbv zeta. unfold LLMJudge.validateContext.
  rewrite bind_Async_run. cbn [entered invoke]. rewrite bind_Async_run.
  cbn [LLMJudge.provider LLMJudge.openai LLMJudge.anthropic].
  unfold LLMJudge.callOpenAI. cbn [LLMJudge.openai LLMJudge.openaiModel].
  rewrite bind_Async_run. unfold invoke. rewrite <- app_assoc. cbn [app].
  destruct (Env.chat_completions_create env m1 _) as [content|e]; reflexivity.
Qed.

Lemma claude_judge_run (key : string) (developerMode : bool) (m1 m2 : string)
    (query response : string) (sources : list Source) (t : Trace) :
  let judge := LLMJudge.mk None (Some key) Provider.claude developerMode m1 m2 in
  let prompt := LLMJudge.buildValidationPrompt judge query response sources in
  LLMJudge.validateContext env judge query response sources t =
  (match Env.messages_create env m2 prompt with
   | Normal (Some (TextBlock text)) => LLMJudge.parseValidationResult env text
   | Normal (Some OtherBlock) => LLMJudge.parseValidationResult env "{}"
   | Normal None => Throw (Js.type_error "undefined" "type")
   | Throw e => Throw e
   end,
   (t ++ [LLMJudge_validateContext_called query response sources;
          messages_create_called m2 prompt])%list).
Proof.
  cbv zeta. unfold LLMJudge.validateContext.
  rewrite bind_Async_run. cbn [entered invoke]. rewrite bind_Async_run.
  cbn [LLMJudge.provider LLMJudge.openai LLMJudge.anthropic].
  unfold LLMJudge.callClaude. cbn [LLMJudge.anthropic LLMJudge.claudeModel].
  rewrite bind_Async_run. unfold invoke. rewrite <- app_assoc. cbn [app].
  destruct (Env.messages_create env m2 _) as [[[text|]|]|e]; reflexivity.
Qed.

End JudgeCoverage.

(** X18.  The constructor of the judge fails exactly when neither key is given (an
    empty key counts as none), and picks OpenAI whenever an OpenAI key is
    given, Claude otherwise.  A judge it built calls its own provider once
    per validation and never the other one: the trace grows by the entry
    and that one call. *)
Theorem judge_calls_its_provider_once
    (env : Env.t) (openaiApiKey claudeApiKey : option string)
    (developerMode : option bool) (openaiModel claudeModel : option string)
    (query response : string) (sources : list Source) (trace : Trace) :
  let built :=
    LLMJudge.new openaiApiKey claudeApiKey developerMode openaiModel claudeModel in
  ((exists error, built = Throw error) <->
   JsString.truthy openaiApiKey = false /\ JsString.truthy claudeApiKey = false) /\
  (forall judge, built = Normal judge ->
   let prompt := LLMJudge.buildValidationPrompt judge query response sources in
   LLMJudge.provider judge =
     (if JsString.truthy openaiApiKey then Provider.openai else Provider.claude) /\
   snd (LLMJudge.validateContext env judge query response sources trace) =
     (trace ++
      [LLMJudge_validateContext_called query response sources;
       if JsString.truthy openaiApiKey
       then chat_completions_create_called (LLMJudge.openaiModel judge) prompt
       else messages_create_called (LLMJudge.claudeModel judge) prompt])%list).
Proof.
  cbv zeta. unfold LLMJudge.new. cbv zeta.
  assert (Some_key : forall o, JsString.truthy o = true -> exists k, o = Some k).
  { intros [k|] H; [eauto | discriminate H]. }
  destruct (JsString.truthy openaiApiKey) eqn:T1;
    [|destruct (JsString.truthy claudeApiKey) eqn:T2].
  - destruct (Some_key _ T1) as [k ->]. split.
    + split; [intros [error H]; discriminate H | intros [H _]; discriminate H].
    + intros judge H. injection H as <-. split; [reflexivity|].
      rewrite openai_judge_run. reflexivity.
  - destruct (Some_key _ T2) as [k ->]. split.
    + split; [intros [error H]; discriminate H | intros [_ H]; discriminate H].
    + intros judge H. injection H as <-. split; [reflexivity|].
      rewrite claude_judge_run. reflexivity.
  - split; [split; eauto | intros judge H; discriminate H].
Qed.

(** X19.  A judge settles as its provider does: it rejects with the provider's
    error when the call fails, and resolves, with scores in [0,1], whenever
    the provider answers with a text.  The two providers differ on a reply
    without content: for OpenAI the judge reads it as the empty object and
    resolves, for Claude it rejects. *)
Theorem judge_settles_as_its_provider
    (env : Env.t) (key : string) (developerMode : bool) (openaiModel claudeModel : string)
    (query response : string) (sources : list Source) (trace : Trace) :
  let on_openai :=
    LLMJudge.mk (Some key) None Provider.openai developerMode openaiModel claudeModel in
  let on_claude :=
    LLMJudge.mk None (Some key) Provider.claude developerMode openaiModel claudeModel in
  let openai_reply :=
    Env.chat_completions_create env openaiModel
      (LLMJudge.buildValidationPrompt on_openai query response sources) in
  let claude_reply :=
    Env.messages_create env claudeModel
      (LLMJudge.buildValidationPrompt on_claude query response sources) in
  let in_range := fun outcome : Outcome ContextResult =>
    exists r, outcome = Normal r /\
              0 <= ContextResult.source_relevance r <= 1 /\
              0 <= ContextResult.source_usage_rate r <= 1 in
  let openai_outcome :=
    fst (LLMJudge.validateContext env on_openai query response sources trace) in
  let claude_outcome :=
    fst (LLMJudge.validateContext env on_claude query response sources trace) in
  (forall error, openai_reply = Throw error -> openai_outcome = Throw error) /\
  (forall content, openai_reply = Normal content -> in_range openai_outcome) /\
  (forall error, claude_reply = Throw error -> claude_outcome = Throw error) /\
  (forall block, claude_reply = Normal (Some block) -> in_range claude_outcome) /\
  (claude_reply = Normal None -> exists error, claude_outcome = Throw error).
Proof.
  cbv zeta. rewrite openai_judge_run, claude_judge_run. cbv zeta. cbn [fst].
  split; [intros error ->; reflexivity|].
  split; [intros content ->; apply parseValidationResult_unit|].
  split; [intros error ->; reflexivity|].
  split; [intros [text|] ->; apply parseValidationResult_unit|].
  intros ->. eauto.
Qed.

Section PromptCoverage.
Import JsString.
Local Open Scope string_scope.

Lemma substring_prefix_length (n : nat) (s : string) :
  (String.length (substring 0 n s) <= n)%nat.
Proof.
  revert s. induction n as [|n IH]; intros [|c r]; cbn; try lia.
  specialize (IH r). lia.
Qed.

Lemma substring_prefix_idempotent (n : nat) (s : string) :
  substring 0 n (substring 0 n s) = substring 0 n s.
Proof.
  revert s. induction n as [|n IH]; intros [|c r]; cbn; try reflexivity.
  now rewrite IH.
Qed.

(** The text of the sources in the prompt is built from their views. *)
Lemma map_indexed_views {B : Type} (f : string * string -> nat -> B)
    (sources sources' : list Source) (i : nat) :
  map prompt_view sources = map prompt_view sources' ->
  LLMJudge.map_indexed (fun s k => f (prompt_view s) k) i sources =
  LLMJudge.map_indexed (fun s k => f (prompt_view s) k) i sources'.
Proof.
  revert sources' i. induction sources as [|s rest IH]; intros [|s' rest'] i E;
    try discriminate E; [reflexivity|].
  assert (E1 : prompt_view s = prompt_view s')
    by exact (f_equal (fun l => hd (prompt_view s) l) E).
  assert (E2 : map prompt_view rest = map prompt_view rest')
    by exact (f_equal (@tl _) E).
  cbn [LLMJudge.map_indexed]. rewrite E1. f_equal. apply IH, E2.
Qed.

End PromptCoverage.

(** X20.  The prompt reads of each source its label and the first 3000 characters
    of its content, no more: two lists of sources that agree on these give
    the same prompt.  So what lies beyond the 3000th character of a source
    never reaches the judge, nor do the url and the embedding; and the label
    is the title, or else the id, or else 'untitled', an empty title or id
    counting as none. *)
Theorem prompt_reads_first_3000_characters
    (judge : LLMJudge.t) (query response : string) (sources : list Source) :
  (forall sources',
     map prompt_view sources = map prompt_view sources' ->
     LLMJudge.buildValidationPrompt judge query response sources' =
     LLMJudge.buildValidationPrompt judge query response sources) /\
  LLMJudge.buildValidationPrompt judge query response
    (map (with_content (substring 0 3000)) sources) =
    LLMJudge.buildValidationPrompt judge query response sources /\
  (forall s, In s sources -> (String.length (snd (prompt_view s)) <= 3000)%nat).
Proof.
  assert (Views : forall sources',
             map prompt_view sources = map prompt_view sources' ->
             LLMJudge.buildValidationPrompt judge query response sources' =
             LLMJudge.buildValidationPrompt judge query response sources).
  { intros sources' E. unfold LLMJudge.buildValidationPrompt.
    pose proof (map_indexed_views
                  (fun v i => ("Source " ++ LLMJudge.decimal (i + 1) ++ " (" ++
                               fst v ++ "):" ++ LLMJudge.newline ++ snd v)%string)
                  sources sources' 0 E) as M.
    cbn [prompt_view fst snd] in M. rewrite M. reflexivity. }
  split; [exact Views|]. split.
  - apply Views. rewrite map_map. apply map_ext. intros s.
    unfold prompt_view, with_content. cbn.
    now rewrite substring_prefix_idempotent.
  - intros s _. apply substring_prefix_length.
Qed.

(* ================================================================== *)
(** * The runs of the validators: results and invocations *)
(* ================================================================== *)

Section Runs.

Lemma runs_as_ret {A : Type} (a : A) : runs_as (ret a) (Normal a) [].
Proof. intros t. cbn. now rewrite app_nil_r. Qed.

Lemma runs_as_invoke {A : Type} (call : Invocation) (reply : Outcome A) :
  runs_as (invoke call reply) reply [call].
Proof. intros t. reflexivity. Qed.

Lemma runs_as_bind {A B : Type} (c : Async A) (k : A -> Async B)
    (a : A) (l1 : Trace) (o : Outcome B) (l2 : Trace) :
  runs_as c (Normal a) l1 -> runs_as (k a) o l2 -> runs_as (bind c k) o (l1 ++ l2).
Proof. intros H1 H2 t. rewrite bind_Async_run, H1, H2, app_assoc. reflexivity. Qed.

Lemma runs_as_bind_throw {A B : Type} (c : Async A) (k : A -> Async B)
    (e : Thrown) (l : Trace) :
  runs_as c (Throw e) l -> runs_as (bind c k) (Throw e) l.
Proof. intros H t. rewrite bind_Async_run, H. reflexivity. Qed.

Lemma runs_as_catch {A : Type} (body : Async A) (handler : Thrown -> Async A)
    (a : A) (l : Trace) :
  runs_as body (Normal a) l -> runs_as (catch body handler) (Normal a) l.
Proof. intros H t. rewrite catch_Async_run, H. reflexivity. Qed.

Lemma runs_as_catch_throw {A : Type} (body : Async A) (handler : Thrown -> Async A)
    (e : Thrown) (l1 : Trace) (o : Outcome A) (l2 : Trace) :
  runs_as body (Throw e) l1 -> runs_as (handler e) o l2 ->
  runs_as (catch body handler) o (l1 ++ l2).
Proof. intros H1 H2 t. rewrite catch_Async_run, H1, H2, app_assoc. reflexivity. Qed.

(** The join of the three checks: all three run, in the order of the array. *)
Lemma runs_as_Promise_all3 {A B C : Type} (settle_time : Slot -> nat)
    (a : Async A) (b : Async B) (c : Async C)
    (oa : Outcome A) (ob : Outcome B) (oc : Outcome C) (la lb lc : Trace) :
  runs_as a oa la -> runs_as b ob lb -> runs_as c oc lc ->
  runs_as (Promise_all3 settle_time a b c)
    (match oa, ob, oc with
     | Normal x, Normal y, Normal z => Normal (x, y, z)
     | _, _, _ =>
         match first_rejection settle_time
                 (rejection_of accuracy_slot oa ++ rejection_of context_slot ob ++
                  rejection_of hallucination_slot oc) with
         | Some (_, e) => Throw e
         | None => Throw OtherThrown
         end
     end)
    (la ++ lb ++ lc).
Proof.
  intros Ha Hb Hc t. unfold Promise_all3. rewrite Ha, Hb, Hc.
  rewrite <- !app_assoc.
  destruct oa, ob, oc; try reflexivity;
    match goal with
    | |- context [first_rejection ?s ?l] => destruct (first_rejection s l) as [[? ?]|]
    end; reflexivity.
Qed.

Lemma calls_app (kind : Invocation -> bool) (l1 l2 : Trace) :
  calls kind (l1 ++ l2) = (calls kind l1 + calls kind l2)%nat.
Proof. unfold calls. now rewrite filter_app, length_app. Qed.

End Runs.

Section ValidatorRuns.
Variable env : Env.t.

(** A run of the judge: its entry, then at most one call of a provider; the
    scores of a verdict lie in the unit interval. *)
Lemma LLMJudge_validateContext_runs (judge : LLMJudge.t)
    (query response : string) (sources : list Source) :
  exists outcome provider_calls,
    runs_as (LLMJudge.validateContext env judge query response sources) outcome
      (LLMJudge_validateContext_called query response sources :: provider_calls) /\
    (calls is_provider_call provider_calls <= 1)%nat /\
    calls is_provider_call provider_calls = List.length provider_calls /\
    (forall result, outcome = Normal result ->
       0 <= ContextResult.source_relevance result <= 1 /\
       0 <= ContextResult.source_usage_rate result <= 1).
Proof.
  set (prompt := LLMJudge.buildValidationPrompt judge query response sources).
  assert (Parsed : forall output result,
             LLMJudge.parseValidationResult env output = Normal result ->
             0 <= ContextResult.source_relevance result <= 1 /\
             0 <= ContextResult.source_usage_rate result <= 1).
  { intros output result H.
    destruct (parseValidationResult_unit env output) as (r & E & R).
    rewrite E in H. injection H as <-. exact R. }
  assert (Run : forall t,
             LLMJudge.validateContext env judge query response sources t =
             match LLMJudge.provider judge, LLMJudge.openai judge, LLMJudge.anthropic judge
             with
             | Provider.openai, Some _, _ =>
                 (match Env.chat_completions_create env (LLMJudge.openaiModel judge) prompt
                  with
                  | Normal content =>
                      LLMJudge.parseValidationResult env (JsString.or_else content "{}")
                  | Throw e => Throw e
                  end,
                  (t ++ [LLMJudge_validateContext_called query response sources;
                         chat_completions_create_called (LLMJudge.openaiModel judge)
                           prompt])%list)
             | Provider.claude, _, Some _ =>
                 (match Env.messages_create env (LLMJudge.claudeModel judge) prompt with
                  | Normal (Some (TextBlock text)) =>
                      LLMJudge.parseValidationResult env text
                  | Normal (Some OtherBlock) => LLMJudge.parseValidationResult env "{}"
                  | Normal None => Throw (Js.type_error "undefined" "type")
                  | Throw e => Throw e
                  end,
                  (t ++ [LLMJudge_validateContext_called query response sources;
                         messages_create_called (LLMJudge.claudeModel judge) prompt])%list)
             | _, _, _ =>
                 (Throw (ErrorObject "No LLM provider available"),
                  (t ++ [LLMJudge_validateContext_called query response sources])%list)
             end).
  { intros t. unfold LLMJudge.validateContext.
    rewrite bind_Async_run. cbn [entered invoke]. rewrite bind_Async_run.
    fold prompt.
    destruct (LLMJudge.provider judge), (LLMJudge.openai judge) as [ok|] eqn:O,
             (LLMJudge.anthropic judge) as [ak|] eqn:K;
      try reflexivity;
      unfold LLMJudge.callOpenAI, LLMJudge.callClaude; rewrite ?O, ?K;
      rewrite bind_Async_run; unfold invoke; rewrite <- app_assoc; cbn [app].
    - destruct (Env.chat_completions_create env _ _); reflexivity.
    - destruct (Env.chat_completions_create env _ _); reflexivity.
    - destruct (Env.messages_create env _ _) as [[[text|]|]|e]; reflexivity.
    - destruct (Env.messages_create env _ _) as [[[text|]|]|e]; reflexivity. }
  destruct (LLMJudge.provider judge), (LLMJudge.openai judge) as [ok|],
           (LLMJudge.anthropic judge) as [ak|];
    eexists; eexists; (split; [exact Run|]);
    (split; [cbn; lia|]); (split; [reflexivity|]);
    intros result H;
    try discriminate H.
  - destruct (Env.chat_completions_create env _ _); [eapply Parsed, H | discriminate H].
  - destruct (Env.chat_completions_create env _ _); [eapply Parsed, H | discriminate H].
  - destruct (Env.messages_create env _ _) as [[[text|]|]|e];
      try discriminate H; eapply Parsed, H.
  - destruct (Env.messages_create env _ _) as [[[text|]|]|e];
      try discriminate H; eapply Parsed, H.
Qed.

(** The scores of the lexical fallback lie in the unit interval. *)
Lemma wordMatchingValidation_unit (query response : string) (sources : list Source) :
  let result := WordMatching.wordMatchingValidation query response sources in
  0 <= ContextResult.source_relevance result <= 1 /\
  0 <= ContextResult.source_usage_rate result <= 1.
Proof.
  cbv zeta. rewrite wordMatchingValidation_by_tokens. cbv zeta.
  cbn [ContextResult.source_relevance ContextResult.source_usage_rate].
  pose proof (rate_unit _ _ (number_present_le
                               (LexicalSpec.tokens_longer_than 3 response)
                               (source_tokens sources))) as R.
  pose proof (rate_unit _ _ (number_present_le
                               (LexicalSpec.tokens_longer_than 2 query)
                               (LexicalSpec.tokens_longer_than 3 response))) as U.
  split; [split; minmax | exact U].
Qed.

Lemma list_eq_dec_nil {A : Type} (l : list A) : {l = []} + {l <> []}.
Proof. destruct l; [left; reflexivity | right; discriminate]. Qed.

(** A trace of provider calls holds no invocation of another kind. *)
Lemma only_provider_calls (kind : Invocation -> bool) (l : Trace) :
  calls is_provider_call l = List.length l ->
  (forall m p, kind (chat_completions_create_called m p) = false) ->
  (forall m p, kind (messages_create_called m p) = false) ->
  List.length (filter kind l) = 0%nat.
Proof.
  unfold calls. intros All K1 K2.
  induction l as [|i l IH]; [reflexivity|].
  cbn [filter List.length] in *.
  pose proof (filter_length_le is_provider_call l) as Le.
  destruct i; cbn in All; try lia; rewrite ?K1, ?K2; apply IH; lia.
Qed.

(** A run of the context validator: it resolves, with scores in the unit
    interval; it calls no collaborator of the orchestrator, a provider at
    most once and only through a judge, and nothing at all without sources;
    without a judge it is the lexical computation. *)
Lemma ContextValidator_validateContext_runs (self : ContextValidator.t)
    (query response : string) (sources : list Source) :
  exists result added,
    runs_as (ContextValidator.validateContext env self query response sources)
      (Normal result) added /\
    (0 <= ContextResult.source_relevance result <= 1 /\
     0 <= ContextResult.source_usage_rate result <= 1) /\
    (calls is_classifyQuery added = 0 /\ calls is_checkAccuracy added = 0 /\
     calls is_detectHallucination added = 0)%nat /\
    (calls is_provider_call added <= 1 /\ calls is_judge_entry added <= 1 /\
     calls is_wordMatching added <= 1)%nat /\
    (sources = [] -> result = ContextResult.mk 0 0 false /\ added = []) /\
    (sources <> [] ->
     ContextValidator.useLLMJudge self = false \/ ContextValidator.llmJudge self = None ->
     result = WordMatching.wordMatchingValidation query response sources /\
     added = [wordMatchingValidation_called query response sources]) /\
    (sources <> [] ->
     (calls is_judge_entry added + calls is_wordMatching added >= 1)%nat).
Proof.
  pose proof (wordMatchingValidation_unit query response sources) as Lexical.
  cbv zeta in Lexical.
  assert (Fallback : runs_as (ContextValidator.wordMatchingValidation query response sources)
                       (Normal (WordMatching.wordMatchingValidation query response sources))
                       [wordMatchingValidation_called query response sources]).
  { intros t. apply wordMatchingValidation_run. }
  unfold ContextValidator.validateContext.
  destruct sources as [|s rest] eqn:S; cbn [List.length Nat.eqb].
  { exists (ContextResult.mk 0 0 false), []. split; [apply runs_as_ret|].
    cbn. repeat split; try lra; try lia; congruence. }
  rewrite <- S in *.
  assert (NE : sources <> []) by (rewrite S; discriminate).
  destruct (ContextValidator.useLLMJudge self) eqn:U;
    [destruct (ContextValidator.llmJudge self) as [judge|] eqn:J|].
  - destruct (LLMJudge_validateContext_runs judge query response sources)
      as (outcome & provider_calls & Run & Once & All & Range).
    destruct outcome as [result|error].
    + exists result, (LLMJudge_validateContext_called query response sources :: provider_calls).
      split; [apply runs_as_catch, Run|].
      split; [apply Range; reflexivity|].
      unfold calls in *. cbn [filter is_classifyQuery is_checkAccuracy
                                is_detectHallucination is_provider_call is_judge_entry
                                is_wordMatching List.length].
      rewrite (only_provider_calls is_classifyQuery _ All),
        (only_provider_calls is_checkAccuracy _ All),
        (only_provider_calls is_detectHallucination _ All),
        (only_provider_calls is_judge_entry _ All),
        (only_provider_calls is_wordMatching _ All) by reflexivity.
      split; [repeat split|]. split; [repeat split; lia|].
      split; [congruence|]. split; [intros _ [F|F]; congruence | lia].
    + exists (WordMatching.wordMatchingValidation query response sources),
             ((LLMJudge_validateContext_called query response sources :: provider_calls) ++
              [wordMatchingValidation_called query response sources])%list.
      split; [eapply runs_as_catch_throw; [exact Run | exact Fallback]|].
      split; [exact Lexical|].
      rewrite !calls_app. unfold calls in *.
      cbn [filter is_classifyQuery is_checkAccuracy
             is_detectHallucination is_provider_call is_judge_entry
             is_wordMatching List.length].
      rewrite (only_provider_calls is_classifyQuery _ All),
        (only_provider_calls is_checkAccuracy _ All),
        (only_provider_calls is_detectHallucination _ All),
        (only_provider_calls is_judge_entry _ All),
        (only_provider_calls is_wordMatching _ All) by reflexivity.
      split; [repeat split|]. split; [repeat split; lia|].
      split; [congruence|]. split; [intros _ [F|F]; congruence | lia].
  - exists (WordMatching.wordMatchingValidation query response sources),
           [wordMatchingValidation_called query response sources].
    split; [exact Fallback|]. split; [exact Lexical|].
    cbn. repeat split; try lia; congruence.
  - exists (WordMatching.wordMatchingValidation query response sources),
           [wordMatchingValidation_called query response sources].
    split; [destruct (ContextValidator.llmJudge self); exact Fallback|].
    split; [exact Lexical|].
    cbn. repeat split; try lia; congruence.
Qed.

End ValidatorRuns.

Section OrchestratorRuns.
Variable env : Env.t.
Variable self : AIValidator.t.
Variable input : ValidationInput.

Local Abbreviation c := (AIValidator.config self).
Local Abbreviation query := (ValidationInput.query input).
Local Abbreviation response := (ValidationInput.response input).
Local Abbreviation sources := (ValidationInput.sources input).
Local Abbreviation context_on :=
  (AIValidator.flag (AIValidatorConfig.enableContextValidation c)).
Local Abbreviation judge_on :=
  (ContextValidator.useLLMJudge (AIValidator.contextValidator self)).
Local Abbreviation without_judge :=
  (match sources with
   | [] => ContextResult.mk 0 0 false
   | _ => WordMatching.wordMatchingValidation query response sources
   end).
Local Abbreviation context_facts cr :=
  ((0 <= ContextResult.source_relevance cr <= 1 /\
    0 <= ContextResult.source_usage_rate cr <= 1) /\
   (context_on = false -> cr = ContextResult.mk 1.0 1.0 true) /\
   (context_on = true -> judge_on = false -> cr = without_judge)).

Lemma accuracy_check_runs :
  runs_as (AIValidator.accuracy_check env self input)
    (AIValidator.accuracy_outcome env self input)
    (if AIValidator.flag (AIValidatorConfig.enableAccuracyCheck c)
     then [checkAccuracy_called response sources (AIValidatorConfig.llmProvider c)
             (AIValidator.getModel self)]
     else []).
Proof.
  unfold AIValidator.accuracy_check, AIValidator.accuracy_outcome. cbv zeta.
  destruct (AIValidator.flag (AIValidatorConfig.enableAccuracyCheck c));
    [apply runs_as_invoke | apply (runs_as_ret (AccuracyResult.mk true 1.0 None))].
Qed.

Lemma hallucination_check_runs :
  runs_as (AIValidator.hallucination_check env self input)
    (AIValidator.hallucination_outcome env self input)
    (if AIValidator.flag (AIValidatorConfig.enableHallucinationDetection c)
     then [detectHallucination_called response sources (AIValidatorConfig.llmProvider c)
             (AIValidator.getModel self)]
     else []).
Proof.
  unfold AIValidator.hallucination_check, AIValidator.hallucination_outcome. cbv zeta.
  destruct (AIValidator.flag (AIValidatorConfig.enableHallucinationDetection c));
    [apply runs_as_invoke | apply (runs_as_ret (HallucinationResult.mk false 0 None))].
Qed.

(** The context check resolves, with scores in the unit interval, and calls
    only what its toggles allow. *)
Lemma context_check_runs :
  exists cr lc,
    runs_as (AIValidator.context_check env self input) (Normal cr) lc /\
    context_facts cr /\
    (calls is_classifyQuery lc = 0 /\ calls is_checkAccuracy lc = 0 /\
     calls is_detectHallucination lc = 0)%nat /\
    (calls is_provider_call lc <= (if context_on && judge_on then 1 else 0) /\
     calls is_judge_entry lc <= (if context_on && judge_on then 1 else 0) /\
     calls is_wordMatching lc <= (if context_on then 1 else 0))%nat.
Proof.
  unfold AIValidator.context_check.
  destruct context_on eqn:On; cbn [andb].
  - destruct (ContextValidator_validateContext_runs env (AIValidator.contextValidator self)
                query response sources)
      as (cr & lc & Run & Range & Others & (P & J & W) & Empty & Lexical & _).
    exists cr, lc. split; [exact Run|].
    assert (Local : judge_on = false -> cr = without_judge /\
                                         (calls is_provider_call lc = 0)%nat /\
                                         (calls is_judge_entry lc = 0)%nat).
    { intros U. destruct sources as [|s rest] eqn:S.
      - destruct (Empty eq_refl) as [-> ->]. auto.
      - destruct (Lexical ltac:(discriminate) (or_introl U)) as [-> ->]. auto. }
    split; [split; [exact Range|]; split; [discriminate | intros _ U; apply Local, U]|].
    split; [exact Others|].
    destruct judge_on; [auto|].
    destruct (Local eq_refl) as (_ & -> & ->). auto.
  - exists (ContextResult.mk 1.0 1.0 true), []. split; [apply runs_as_ret|].
    cbn. split; [split; [split; split; lra|]; split; [reflexivity | discriminate]|].
    repeat split; lia.
Qed.

(** What one run of [validate] invokes, at most. *)
Local Abbreviation within_the_toggles added :=
  (calls is_classifyQuery added =
     (if AIValidator.flag (AIValidatorConfig.enableQueryClassification c) then 1 else 0) /\
   calls is_checkAccuracy added <=
     (if AIValidator.flag (AIValidatorConfig.enableAccuracyCheck c) then 1 else 0) /\
   calls is_detectHallucination added <=
     (if AIValidator.flag (AIValidatorConfig.enableHallucinationDetection c)
      then 1 else 0) /\
   calls is_provider_call added <= (if context_on && judge_on then 1 else 0) /\
   calls is_judge_entry added <= (if context_on && judge_on then 1 else 0) /\
   calls is_wordMatching added <= (if context_on then 1 else 0))%nat.

(** The rejection of one of the two collaborators of the fan-out. *)
Local Abbreviation collaborator_rejects error :=
  (AIValidator.accuracy_outcome env self input = Throw error \/
   AIValidator.hallucination_outcome env self input = Throw error).

(** The result fused from the results of the three checks. *)
Local Abbreviation fused_from_checks result :=
  (exists ar cr hr,
     AIValidator.accuracy_outcome env self input = Normal ar /\
     AIValidator.hallucination_outcome env self input = Normal hr /\
     context_facts cr /\
     result = fused self sources ar cr hr).

(** Steps 2 to 5 of [validate]: the three checks run, and the result is
    fused from theirs unless one of the two collaborators rejects. *)
Lemma validation_steps_runs :
  exists outcome added,
    runs_as (AIValidator.validation_steps env self input) outcome added /\
    ((exists error, outcome = Throw error /\ collaborator_rejects error) \/
     (exists result, outcome = Normal result /\ fused_from_checks result)) /\
    (calls is_classifyQuery added = 0 /\
     calls is_checkAccuracy added =
       (if AIValidator.flag (AIValidatorConfig.enableAccuracyCheck c) then 1 else 0) /\
     calls is_detectHallucination added =
       (if AIValidator.flag (AIValidatorConfig.enableHallucinationDetection c)
        then 1 else 0) /\
     calls is_provider_call added <= (if context_on && judge_on then 1 else 0) /\
     calls is_judge_entry added <= (if context_on && judge_on then 1 else 0) /\
     calls is_wordMatching added <= (if context_on then 1 else 0))%nat.
Proof.
  destruct context_check_runs
    as (cr & lc & Rc & Facts & (C1 & C2 & C3) & (C4 & C5 & C6)).
  pose proof (runs_as_Promise_all3 (Env.settle_time env) _ _ _ _ _ _ _ _ _
                accuracy_check_runs Rc hallucination_check_runs) as P.
  assert (Counts :
            let added :=
              ((if AIValidator.flag (AIValidatorConfig.enableAccuracyCheck c)
                then [checkAccuracy_called response sources (AIValidatorConfig.llmProvider c)
                        (AIValidator.getModel self)]
                else []) ++ lc ++
               (if AIValidator.flag (AIValidatorConfig.enableHallucinationDetection c)
                then [detectHallucination_called response sources
                        (AIValidatorConfig.llmProvider c) (AIValidator.getModel self)]
                else []))%list in
            (calls is_classifyQuery added = 0 /\
             calls is_checkAccuracy added =
               (if AIValidator.flag (AIValidatorConfig.enableAccuracyCheck c)
                then 1 else 0) /\
             calls is_detectHallucination added =
               (if AIValidator.flag (AIValidatorConfig.enableHallucinationDetection c)
                then 1 else 0) /\
             calls is_provider_call added <= (if context_on && judge_on then 1 else 0) /\
             calls is_judge_entry added <= (if context_on && judge_on then 1 else 0) /\
             calls is_wordMatching added <= (if context_on then 1 else 0))%nat).
  { cbv zeta. rewrite !calls_app.
    destruct (AIValidator.flag (AIValidatorConfig.enableAccuracyCheck c)),
             (AIValidator.flag (AIValidatorConfig.enableHallucinationDetection c));
      cbn [calls filter is_classifyQuery is_checkAccuracy is_detectHallucination
             is_provider_call is_judge_entry is_wordMatching List.length];
      fold (calls is_classifyQuery lc); fold (calls is_checkAccuracy lc);
      fold (calls is_detectHallucination lc); fold (calls is_provider_call lc);
      fold (calls is_judge_entry lc); fold (calls is_wordMatching lc);
      repeat split; lia. }
  cbv zeta in Counts.
  destruct (AIValidator.accuracy_outcome env self input) as [ar|ea] eqn:EA;
    destruct (AIValidator.hallucination_outcome env self input) as [hr|eh] eqn:EH;
    cbn [rejection_of app first_rejection] in P.
  - exists (Normal (fused self sources ar cr hr)). eexists.
    split; [|split; [right; eexists; split; [reflexivity|]; exists ar, cr, hr; auto
                    | exact Counts]].
    intros t. unfold AIValidator.validation_steps. cbv zeta.
    rewrite bind_Async_run, P. reflexivity.
  - exists (Throw eh). eexists.
    split; [|split; [left; eauto | exact Counts]].
    intros t. unfold AIValidator.validation_steps. cbv zeta.
    rewrite bind_Async_run, P. reflexivity.
  - exists (Throw ea). eexists.
    split; [|split; [left; eauto | exact Counts]].
    intros t. unfold AIValidator.validation_steps. cbv zeta.
    rewrite bind_Async_run, P. reflexivity.
  - exists (Throw (if (Env.settle_time env hallucination_slot <?
                       Env.settle_time env accuracy_slot)%nat then eh else ea)). eexists.
    split; [|split; [|exact Counts]].
    + intros t. unfold AIValidator.validation_steps. cbv zeta.
      rewrite bind_Async_run, P.
      destruct (Env.settle_time env hallucination_slot <?
                Env.settle_time env accuracy_slot)%nat; reflexivity.
    + left. eexists. split; [reflexivity|].
      destruct (Env.settle_time env hallucination_slot <?
                Env.settle_time env accuracy_slot)%nat; auto.
Qed.

(** A run of [validate]: it resolves; the result is the one of a skipped
    validation, the fail-closed one of what was thrown, or the one fused
    from the three checks; and it invokes only what the toggles allow. *)
Lemma validate_runs :
  exists result added,
    runs_as (AIValidator.validate env self input) (Normal result) added /\
    ((exists classification,
        AIValidator.flag (AIValidatorConfig.enableQueryClassification c) = true /\
        Env.classifyQuery env query = Normal classification /\
        QueryClassificationResult.skip_validation classification = true /\
        result = AIValidator.skipped (QueryClassificationResult.type classification) /\
        added = [classifyQuery_called query]) \/
     (exists error,
        result = AIValidator.failed error /\
        ((AIValidator.flag (AIValidatorConfig.enableQueryClassification c) = true /\
          Env.classifyQuery env query = Throw error) \/
         collaborator_rejects error)) \/
     fused_from_checks result) /\
    within_the_toggles added.
Proof.
  destruct validation_steps_runs
    as (outcome & steps & Run & Shape & (C1 & C2 & C3 & C4 & C5 & C6)).
  assert (After :
             exists result,
               runs_as (catch (AIValidator.validation_steps env self input)
                          (fun error => ret (AIValidator.failed error)))
                 (Normal result) steps /\
               ((exists error,
                   result = AIValidator.failed error /\
                   ((AIValidator.flag (AIValidatorConfig.enableQueryClassification c) =
                       true /\
                     Env.classifyQuery env query = Throw error) \/
                    collaborator_rejects error)) \/
                fused_from_checks result)).
  { destruct Shape as [(error & -> & Rejects) | (result & -> & Fused)].
    - exists (AIValidator.failed error). split; [|left; eauto].
      rewrite <- (app_nil_r steps).
      eapply runs_as_catch_throw; [exact Run | apply runs_as_ret].
    - exists result. split; [apply runs_as_catch, Run | right; exact Fused]. }
  unfold AIValidator.validate, AIValidator.validate_try.
  destruct (AIValidator.flag (AIValidatorConfig.enableQueryClassification c)) eqn:F.
  - destruct (Env.classifyQuery env query) as [classification|error] eqn:Q.
    + destruct (QueryClassificationResult.skip_validation classification) eqn:K.
      * exists (AIValidator.skipped (QueryClassificationResult.type classification)),
               [classifyQuery_called query].
        split; [|split; [left; exists classification; auto|]].
        -- intros t. rewrite catch_Async_run, bind_Async_run, classification_step_run.
           rewrite F, Q, K. reflexivity.
        -- cbn. destruct (AIValidator.flag (AIValidatorConfig.enableAccuracyCheck c)),
                   (AIValidator.flag (AIValidatorConfig.enableHallucinationDetection c)),
                   (context_on && judge_on), context_on; repeat split; lia.
      * destruct After as (result & Rr & Sr).
        exists result, ([classifyQuery_called query] ++ steps)%list.
        split; [|split; [right; exact Sr|]].
        -- intros t. rewrite catch_Async_run, bind_Async_run, classification_step_run.
           rewrite F, Q, K. specialize (Rr (t ++ [classifyQuery_called query])%list).
           rewrite catch_Async_run in Rr. rewrite <- app_assoc in Rr. exact Rr.
        -- rewrite !calls_app. cbn [calls filter is_classifyQuery is_checkAccuracy
             is_detectHallucination is_provider_call is_judge_entry is_wordMatching
             List.length].
           fold (calls is_classifyQuery steps). fold (calls is_checkAccuracy steps).
           fold (calls is_detectHallucination steps). fold (calls is_provider_call steps).
           fold (calls is_judge_entry steps). fold (calls is_wordMatching steps).
           repeat split; lia.
    + exists (AIValidator.failed error), [classifyQuery_called query].
      split; [|split; [right; left; eauto|]].
      * intros t. rewrite catch_Async_run, bind_Async_run, classification_step_run.
        rewrite F, Q. reflexivity.
      * cbn. destruct (AIValidator.flag (AIValidatorConfig.enableAccuracyCheck c)),
                 (AIValidator.flag (AIValidatorConfig.enableHallucinationDetection c)),
                 (context_on && judge_on), context_on; repeat split; lia.
  - destruct After as (result & Rr & Sr).
    exists result, steps.
    split; [|split; [right; exact Sr|]].
    + intros t. rewrite catch_Async_run, bind_Async_run, classification_step_run.
      rewrite F. specialize (Rr t). rewrite catch_Async_run in Rr. exact Rr.
    + repeat split; lia.
Qed.

End OrchestratorRuns.

(* ================================================================== *)
(** * AIValidator: further properties *)
(* ================================================================== *)

(** X21.  One run of [validate] invokes each collaborator at most once, and a
    check that is switched off not at all: the classifier exactly once when
    classification is on, the accuracy checker and the hallucination
    detector only when their toggle is on, a provider and the judge only
    when context validation is on and the context validator uses a judge,
    the lexical fallback only when context validation is on. *)
Theorem validate_invokes_within_its_toggles
    (env : Env.t) (self : AIValidator.t) (input : ValidationInput) (trace : Trace) :
  let c := AIValidator.config self in
  let on := fun toggle : option bool => if AIValidator.flag toggle then 1%nat else 0%nat in
  let judged :=
    if AIValidator.flag (AIValidatorConfig.enableContextValidation c) &&
       ContextValidator.useLLMJudge (AIValidator.contextValidator self)
    then 1%nat else 0%nat in
  exists result added,
    AIValidator.validate env self input trace = (Normal result, (trace ++ added)%list) /\
    (calls is_classifyQuery added = on (AIValidatorConfig.enableQueryClassification c) /\
     calls is_checkAccuracy added <= on (AIValidatorConfig.enableAccuracyCheck c) /\
     calls is_detectHallucination added <=
       on (AIValidatorConfig.enableHallucinationDetection c) /\
     calls is_provider_call added <= judged /\
     calls is_judge_entry added <= judged /\
     calls is_wordMatching added <= on (AIValidatorConfig.enableContextValidation c))%nat.
Proof.
  cbv zeta.
  destruct (validate_runs env self input) as (result & added & Run & _ & Counts).
  exists result, added. split; [apply Run | exact Counts].
Qed.

(** X22.  The verdict of [validate] follows the threshold, and a threshold of
    zero cannot be configured.  A result is valid only when validation was
    skipped or the confidence reaches the threshold in force: the configured
    one unless it is absent or zero, 0.7 then.  An invalid result is the
    fail-closed record or has a confidence below the threshold in force;
    only the result of a skipped validation carries [skip_validation]. *)
Theorem verdict_follows_the_threshold
    (env : Env.t) (self : AIValidator.t) (input : ValidationInput) (trace : Trace) :
  let configured := AIValidatorConfig.confidenceThreshold (AIValidator.config self) in
  exists result trace',
    AIValidator.validate env self input trace = (Normal result, trace') /\
    (forall q, configured = Some q -> ~ q == 0 ->
       ValidationResult.valid result = true ->
       ValidationResult.skip_validation result = Some true \/
       q <= ValidationResult.confidence result) /\
    (configured = None \/ (exists q, configured = Some q /\ q == 0) ->
       ValidationResult.valid result = true ->
       ValidationResult.skip_validation result = Some true \/
       0.7 <= ValidationResult.confidence result) /\
    (ValidationResult.valid result = false ->
       (exists error, result = AIValidator.failed error) \/
       ValidationResult.confidence result <
         AIValidator.threshold (AIValidator.config self)) /\
    (forall skip, ValidationResult.skip_validation result = Some skip ->
       skip = true /\ ValidationResult.valid result = true /\
       ValidationResult.confidence result = 1.0 /\
       ValidationResult.warnings result = []).
Proof.
  cbv zeta.
  destruct (validate_runs env self input) as (result & added & Run & Shape & _).
  exists result, (trace ++ added)%list. split; [apply Run|].
  destruct Shape as [(cl & _ & _ & _ & -> & _) |
                     [(error & -> & _) | (ar & cr & hr & _ & _ & _ & ->)]].
  - cbn. split; [auto|]. split; [auto|]. split; [discriminate|].
    intros skip H. injection H as <-. auto.
  - cbn. split; [discriminate|]. split; [discriminate|]. split; [eauto|].
    discriminate.
  - unfold fused. cbv zeta.
    cbn [ValidationResult.valid ValidationResult.confidence
           ValidationResult.skip_validation ValidationResult.warnings].
    unfold AIValidator.threshold.
    split; [|split; [|split]].
    + intros q -> NZ V. right. apply Qle_bool_iff in V.
      destruct (Qeq_bool q 0) eqn:Z; [apply Qeq_bool_iff in Z; contradiction | exact V].
    + intros [-> | (q & -> & Z)] V; right; apply Qle_bool_iff in V; [exact V|].
      apply Qeq_bool_iff in Z. rewrite Z in V. exact V.
    + intros V. right. apply Qle_bool_false_iff in V. exact V.
    + discriminate.
Qed.

(** The orchestrator with a threshold of zero, which any confidence would
    reach: a response of confidence 0.2 is rejected, the threshold in force
    being 0.7. *)
Example zero_threshold_is_replaced :
  let self :=
    AIValidator.mk
      (AIValidatorConfig.mk None None Provider.openai (Some 0)
         (Some false) (Some false) (Some false) (Some true)
         (Some false) (Some false) None None)
      (ContextValidator.mk None false) in
  exists result,
    fst (AIValidator.validate sample_env self
           (ValidationInput.mk "how does the parser work"
              "The parser reads tokens." [poor_source]) []) = Normal result /\
    ValidationResult.confidence result == 0.2 /\
    ValidationResult.valid result = false.
Proof. cbv zeta. eexists. split; [reflexivity|]. vm_compute. split; reflexivity. Qed.

(** X23.  When the checks that are switched on answer with rates in the unit
    interval, so does [validate]: the confidence lies between 0 and 1 and is
    a whole number of hundredths, on the three ways out alike (skipped,
    fail-closed, fused), and so do the scores of the context part.  Nothing
    is asked of a check that is switched off, nor of the judge, whose
    numbers are clamped. *)
Theorem validate_scores_in_unit_interval
    (env : Env.t) (self : AIValidator.t) (input : ValidationInput) (trace : Trace) :
  let c := AIValidator.config self in
  let response := ValidationInput.response input in
  let sources := ValidationInput.sources input in
  (AIValidator.flag (AIValidatorConfig.enableAccuracyCheck c) = true ->
   forall ar,
     Env.checkAccuracy env response sources (AIValidatorConfig.llmProvider c)
       (AIValidator.getModel self) = Normal ar ->
     0 <= AccuracyResult.verification_rate ar <= 1) ->
  (AIValidator.flag (AIValidatorConfig.enableHallucinationDetection c) = true ->
   forall hr,
     Env.detectHallucination env response sources (AIValidatorConfig.llmProvider c)
       (AIValidator.getModel self) = Normal hr ->
     0 <= HallucinationResult.risk hr <= 1) ->
  exists result trace',
    AIValidator.validate env self input trace = (Normal result, trace') /\
    0 <= ValidationResult.confidence result <= 1 /\
    (exists k : Z, ValidationResult.confidence result == inject_Z k / 100) /\
    0 <= ContextResult.source_relevance (ValidationResult.context result) <= 1 /\
    0 <= ContextResult.source_usage_rate (ValidationResult.context result) <= 1.
Proof.
  cbv zeta. intros Accuracy Hallucination.
  destruct (validate_runs env self input) as (result & added & Run & Shape & _).
  exists result, (trace ++ added)%list. split; [apply Run|].
  destruct Shape as [(cl & _ & _ & _ & -> & _) |
                     [(error & -> & _) | (ar & cr & hr & EA & EH & (Range & _) & ->)]].
  - cbn. split; [split; lra|]. split; [exists 100%Z; reflexivity|]. split; split; lra.
  - cbn. split; [split; lra|]. split; [exists 0%Z; reflexivity|]. split; split; lra.
  - unfold fused. cbv zeta.
    cbn [ValidationResult.confidence ValidationResult.context].
    rewrite calculateConfidence_score.
    split; [|split; [|exact Range]].
    + apply round2_unit.
      unfold ConfidenceScorer.confidenceScore_of, ConfidenceScorer.weights_for.
      apply weighted_sum_unit.
      * unfold AIValidator.accuracy_outcome in EA. cbv zeta in EA.
        destruct (AIValidator.flag
                    (AIValidatorConfig.enableAccuracyCheck (AIValidator.config self)));
          [apply (Accuracy eq_refl ar EA) | injection EA as <-; cbn; split; lra].
      * apply Range.
      * unfold AIValidator.hallucination_outcome in EH. cbv zeta in EH.
        destruct (AIValidator.flag
                    (AIValidatorConfig.enableHallucinationDetection
                       (AIValidator.config self)));
          [pose proof (Hallucination eq_refl hr EH); split; lra
          | injection EH as <-; cbn; split; lra].
      * apply calculateSourceQuality_unit.
    + destruct (round2_hundredths
                  (ConfidenceScorer.confidenceScore_of ar cr hr
                     (ValidationInput.sources input)
                     (Some (EnabledChecks.mk
                              (Some (AIValidator.flag
                                       (AIValidatorConfig.enableAccuracyCheck
                                          (AIValidator.config self))))
                              (Some (AIValidator.flag
                                       (AIValidatorConfig.enableHallucinationDetection
                                          (AIValidator.config self)))))))) as [k ->].
      exists k. reflexivity.
Qed.

Lemma validate_scores_in_unit_interval_witness :
  exists result trace',
    AIValidator.validate sample_env (sample_validator true false true true)
      (sample_input "what does the parser read" [poor_source]) [] =
      (Normal result, trace') /\
    0 <= ValidationResult.confidence result <= 1.
Proof.
  destruct (validate_scores_in_unit_interval sample_env
              (sample_validator true false true true)
              (sample_input "what does the parser read" [poor_source]) [])
    as (result & trace' & Run & Range & _).
  - discriminate.
  - intros _ hr H. injection H as <-. cbn. split; lra.
  - exists result, trace'. split; [exact Run | exact Range].
Defined.

(* ================================================================== *)
(** * ContextValidator: further properties *)
(* ================================================================== *)

(** X24.  Whatever the judge answers, the scores the context validator resolves
    with lie in the unit interval.  One validation calls a provider at most
    once; with sources, it enters the judge or the lexical fallback; and a
    validator without a judge calls no provider and returns the lexical
    result. *)
Theorem context_scores_in_unit_interval
    (env : Env.t) (self : ContextValidator.t) (query response : string)
    (sources : list Source) (trace : Trace) :
  exists result added,
    ContextValidator.validateContext env self query response sources trace =
      (Normal result, (trace ++ added)%list) /\
    0 <= ContextResult.source_relevance result <= 1 /\
    0 <= ContextResult.source_usage_rate result <= 1 /\
    (calls is_provider_call added <= 1)%nat /\
    (sources <> [] ->
     (1 <= calls is_judge_entry added + calls is_wordMatching added)%nat) /\
    (ContextValidator.useLLMJudge self = false \/ ContextValidator.llmJudge self = None ->
     calls is_provider_call added = 0%nat /\
     calls is_judge_entry added = 0%nat /\
     (sources <> [] ->
      result = WordMatching.wordMatchingValidation query response sources)).
Proof.
  destruct (ContextValidator_validateContext_runs env self query response sources)
    as (result & added & Run & (R1 & R2) & _ & (P & _ & _) & Empty & Lexical & Some_grader).
  exists result, added. split; [apply Run|].
  split; [exact R1|]. split; [exact R2|]. split; [exact P|].
  split; [intros NE; specialize (Some_grader NE); lia|].
  intros Off. destruct (list_eq_dec_nil sources) as [E|NE].
  - destruct (Empty E) as [_ ->]. cbn. repeat split. congruence.
  - destruct (Lexical NE Off) as [-> ->]. cbn. repeat split.
Qed.

(** A judge whose verdict is out of range: the relevance 1.7 is clamped to
    1 and the usage rate that is no number becomes 0. *)
Example context_scores_are_clamped :
  fst (ContextValidator.validateContext sample_env openai_judge
         "what does the parser read" "The parser reads tokens." [poor_source] []) =
  Normal (ContextResult.mk 1 0 true).
Proof. reflexivity. Qed.

(* ================================================================== *)
(** * Construction and use together *)
(* ================================================================== *)

(** X25.  A validator constructed without any key stays local.  Whatever the
    options ask for, [validate] then calls neither the accuracy checker, nor
    the hallucination detector, nor the judge, nor a provider; it fails
    closed only when the classifier throws; and unless validation is
    skipped or context validation is off, the context part of its result is
    the lexical computation, or the zero record when there is no source. *)
Theorem keyless_validator_stays_local
    (env : Env.t) (options : AIValidatorOptions.t) (self : AIValidator.t)
    (input : ValidationInput) (trace : Trace) :
  let query := ValidationInput.query input in
  let response := ValidationInput.response input in
  let sources := ValidationInput.sources input in
  AIValidator.new options = Normal self ->
  JsString.truthy (AIValidator.spread None (AIValidatorOptions.openaiApiKey options)) =
    false ->
  JsString.truthy (AIValidator.spread None (AIValidatorOptions.claudeApiKey options)) =
    false ->
  exists result added,
    AIValidator.validate env self input trace = (Normal result, (trace ++ added)%list) /\
    (calls is_checkAccuracy added = 0 /\ calls is_detectHallucination added = 0 /\
     calls is_judge_entry added = 0 /\ calls is_provider_call added = 0)%nat /\
    ((exists error, result = AIValidator.failed error) ->
     exists error, Env.classifyQuery env query = Throw error) /\
    (ValidationResult.skip_validation result = None ->
     (forall error, result <> AIValidator.failed error) ->
     AIValidator.flag
       (AIValidatorConfig.enableContextValidation (AIValidator.config self)) = true ->
     ValidationResult.context result =
       match sources with
       | [] => ContextResult.mk 0 0 false
       | _ => WordMatching.wordMatchingValidation query response sources
       end).
Proof.
  cbv zeta. intros Built K1 K2.
  unfold AIValidator.new in Built.
  set (c := AIValidator.validateConfig (AIValidator.with_defaults options)) in *.
  assert (Keys : JsString.truthy (AIValidatorConfig.openaiApiKey c) = false /\
                 JsString.truthy (AIValidatorConfig.claudeApiKey c) = false).
  { subst c. cbn. auto. }
  destruct Keys as [O A].
  pose proof (validateConfig_keys (AIValidator.with_defaults options)) as Off.
  cbv zeta in Off. fold c in Off. rewrite O, A in Off. cbn [orb] in Off.
  destruct Off as (J & Acc & Hal).
  assert (NoJudge : self = AIValidator.mk c (ContextValidator.mk None false)).
  { unfold ContextValidator.new in Built. cbv zeta in Built.
    rewrite O, A in Built. cbn [orb] in Built. rewrite andb_false_r in Built.
    cbn in Built. injection Built as <-. reflexivity. }
  assert (FA : AIValidator.flag (AIValidatorConfig.enableAccuracyCheck c) = false)
    by (destruct (AIValidator.flag (AIValidatorConfig.enableAccuracyCheck c));
        [specialize (Acc eq_refl); discriminate Acc | reflexivity]).
  assert (FH : AIValidator.flag (AIValidatorConfig.enableHallucinationDetection c) = false)
    by (destruct (AIValidator.flag (AIValidatorConfig.enableHallucinationDetection c));
        [specialize (Hal eq_refl); discriminate Hal | reflexivity]).
  clear Built. subst self.
  set (self := AIValidator.mk c (ContextValidator.mk None false)).
  assert (EA : forall error, AIValidator.accuracy_outcome env self input <> Throw error).
  { intros error. unfold AIValidator.accuracy_outcome. cbv zeta.
    cbn [AIValidator.config self]. rewrite FA. discriminate. }
  assert (EH : forall error, AIValidator.hallucination_outcome env self input <> Throw error).
  { intros error. unfold AIValidator.hallucination_outcome. cbv zeta.
    cbn [AIValidator.config self]. rewrite FH. discriminate. }
  destruct (validate_runs env self input)
    as (result & added & Run & Shape & (_ & C2 & C3 & C4 & C5 & _)).
  cbn [AIValidator.config AIValidator.contextValidator self
         ContextValidator.useLLMJudge] in C2, C3, C4, C5.
  rewrite FA in C2. rewrite FH in C3. rewrite andb_false_r in C4, C5.
  exists result, added. split; [apply Run|]. split; [repeat split; lia|].
  destruct Shape as [(cl & _ & _ & _ & -> & _) |
                     [(error & -> & Origin) | (ar & cr & hr & _ & _ & Facts & ->)]].
  - split; [intros [error H]; discriminate H | intros H; discriminate H].
  - split; [|intros _ H; destruct (H error eq_refl)].
    intros _. destruct Origin as [[_ Q] | [E | E]];
      [eauto | destruct (EA _ E) | destruct (EH _ E)].
  - split; [intros [error H]; discriminate H|].
    intros _ _ On. destruct Facts as (_ & _ & Local). apply (Local On eq_refl).
Qed.

Lemma keyless_validator_stays_local_witness :
  exists result added,
    AIValidator.validate sample_env keyless_validator
      (sample_input "what does the parser read" [poor_source]) [] =
      (Normal result, added) /\
    calls is_provider_call added = 0%nat /\
    calls is_checkAccuracy added = 0%nat.
Proof.
  destruct (keyless_validator_stays_local sample_env keyless_options keyless_validator
              (sample_input "what does the parser read" [poor_source]) [])
    as (result & added & Run & (A & _ & _ & P) & _); [reflexivity | reflexivity | reflexivity|].
  exists result, added. split; [exact Run|]. split; [exact P | exact A].
Defined.

(** X26.  The model named to the accuracy checker and the hallucination detector.
    It is the model the options give for the configured provider; the
    default of the constructor ('gpt-4o-mini', 'claude-3-haiku-20240307')
    when the options do not have the property; and another one ('gpt-4o',
    'claude-sonnet-4-5-20250929') when they have it with the value
    [undefined] or the empty string. *)
Theorem model_selection (options : AIValidatorOptions.t) (self : AIValidator.t) :
  let provider := AIValidatorOptions.llmProvider options in
  let chosen :=
    match provider with
    | Provider.openai => AIValidatorOptions.openaiModel options
    | Provider.claude => AIValidatorOptions.claudeModel options
    end in
  AIValidator.new options = Normal self ->
  (chosen = None ->
   AIValidator.getModel self =
     match provider with
     | Provider.openai => "gpt-4o-mini"
     | Provider.claude => "claude-3-haiku-20240307"
     end%string) /\
  (forall model, chosen = Some (Some model) -> model <> EmptyString ->
   AIValidator.getModel self = model) /\
  (chosen = Some None \/ chosen = Some (Some EmptyString) ->
   AIValidator.getModel self =
     match provider with
     | Provider.openai => "gpt-4o"
     | Provider.claude => "claude-sonnet-4-5-20250929"
     end%string).
Proof.
  cbv zeta. intros Built. unfold AIValidator.new in Built.
  destruct (ContextValidator.new _ _ _ _) as [cv|e] in Built; [|discriminate Built].
  cbn in Built. injection Built as <-.
  unfold AIValidator.getModel. cbn.
  destruct (AIValidatorOptions.llmProvider options).
  - split; [intros ->; reflexivity|].
    split; [intros model -> NE; cbn; destruct model; [congruence | reflexivity]|].
    intros [-> | ->]; reflexivity.
  - split; [intros ->; reflexivity|].
    split; [intros model -> NE; cbn; destruct model; [congruence | reflexivity]|].
    intros [-> | ->]; reflexivity.
Qed.

Lemma model_selection_witness :
  AIValidator.getModel keyless_validator = "gpt-4o-mini"%string /\
  AIValidator.getModel validator_of_judge_options = "claude-opus-4"%string.
Proof.
  split.
  - destruct (model_selection keyless_options keyless_validator eq_refl) as [Default _].
    apply Default. reflexivity.
  - destruct (model_selection judge_options validator_of_judge_options eq_refl)
      as (_ & Chosen & _).
    apply (Chosen "claude-opus-4"%string); [reflexivity | discriminate].
Defined.

(** X27.  The judge the orchestrator builds follows the keys, not the options:
    it runs on OpenAI whenever an OpenAI key is given, also when the
    configured provider is Claude, and on the default models of its own
    constructor, whatever models the options name.  Only the developer mode
    reaches it. *)
Theorem judge_ignores_the_configured_provider_and_models
    (options : AIValidatorOptions.t) (self : AIValidator.t) (judge : LLMJudge.t) :
  let c := AIValidator.config self in
  AIValidator.new options = Normal self ->
  ContextValidator.llmJudge (AIValidator.contextValidator self) = Some judge ->
  LLMJudge.provider judge =
    (if JsString.truthy (AIValidatorConfig.openaiApiKey c)
     then Provider.openai else Provider.claude) /\
  LLMJudge.openaiModel judge = "gpt-4o-mini"%string /\
  LLMJudge.claudeModel judge = "claude-3-haiku-20240307"%string /\
  LLMJudge.developerMode judge = AIValidator.flag (AIValidatorConfig.developerMode c) /\
  AIValidator.flag (AIValidatorConfig.useLLMJudge c) = true.
Proof.
  cbv zeta. intros Built J. unfold AIValidator.new in Built.
  set (c := AIValidator.validateConfig (AIValidator.with_defaults options)) in *.
  unfold ContextValidator.new, LLMJudge.new in Built. cbv zeta in Built.
  destruct (nullish (AIValidatorConfig.useLLMJudge c) false) eqn:U; cbn [andb] in Built.
  - destruct (JsString.truthy (AIValidatorConfig.openaiApiKey c)) eqn:O;
      [|destruct (JsString.truthy (AIValidatorConfig.claudeApiKey c)) eqn:A];
      cbn [orb bind ret Monad_Outcome nullish] in Built; try discriminate Built;
      injection Built as <-;
      cbn [AIValidator.contextValidator ContextValidator.llmJudge] in J;
      try discriminate J; injection J as J; subst judge;
      cbn [AIValidator.config LLMJudge.provider LLMJudge.openaiModel
             LLMJudge.claudeModel LLMJudge.developerMode];
      rewrite ?O; unfold AIValidator.flag; auto.
  - cbn [bind ret Monad_Outcome] in Built. injection Built as <-. discriminate J.
Qed.

Lemma judge_ignores_the_configured_provider_and_models_witness :
  AIValidatorOptions.llmProvider judge_options = Provider.claude /\
  LLMJudge.provider judge_of_judge_options = Provider.openai /\
  LLMJudge.openaiModel judge_of_judge_options = "gpt-4o-mini"%string.
Proof.
  destruct (judge_ignores_the_configured_provider_and_models
              judge_options validator_of_judge_options judge_of_judge_options
              eq_refl eq_refl) as (P & M & _).
  split; [reflexivity|]. split; [exact P | exact M].
Defined.

(* ================================================================== *)
(** * LLMJudge: reading the reply *)
(* ================================================================== *)

(** X28.  Commentary around the verdict does not change what the judge reads, as
    long as no opening brace comes before the block and no closing brace
    after it: the reply is parsed as the block alone.  A closing brace in
    the text after the block makes the judge read past the block, up to
    that brace. *)
Theorem commentary_around_the_verdict_is_ignored
    (env : Env.t) (before inside after : string) :
  let block := ("{" ++ inside ++ "}")%string in
  let reply := (before ++ block ++ after)%string in
  JsString.has_char "{" before = false ->
  (JsString.has_char "}" after = false ->
   LLMJudge.match_braces reply = Some block /\
   LLMJudge.parseValidationResult env reply = LLMJudge.parseValidationResult env block) /\
  (JsString.has_char "}" after = true ->
   exists more,
     more <> EmptyString /\
     LLMJudge.match_braces reply = Some (block ++ more)%string).
Proof.
  cbv zeta. intros B. split.
  - intros A.
    assert (M : LLMJudge.match_braces (before ++ ("{" ++ inside ++ "}") ++ after) =
                Some ("{" ++ inside ++ "}")%string).
    { apply match_braces_some. exists before, inside, after. auto. }
    assert (M' : LLMJudge.match_braces ("{" ++ inside ++ "}") =
                 Some ("{" ++ inside ++ "}")%string).
    { apply match_braces_some. exists EmptyString, inside, EmptyString.
      repeat split. cbn. now rewrite append_empty_r. }
    split; [exact M|].
    unfold LLMJudge.parseValidationResult, LLMJudge.parseValidationResult_try.
    rewrite M, M'. reflexivity.
  - intros A. destruct (LLMJudge.upto_last_close after) as [p|] eqn:U.
    + apply upto_last_close_some in U. destruct U as (a1 & a2 & -> & -> & A2).
      exists (a1 ++ "}")%string. split; [destruct a1; discriminate|].
      apply match_braces_some. exists before, (inside ++ "}" ++ a1)%string, a2.
      split; [|split; [|auto]].
      * rewrite ?append_assoc. reflexivity.
      * rewrite ?append_assoc. reflexivity.
    + apply upto_last_close_none in U. congruence.
Qed.

Lemma commentary_around_the_verdict_is_ignored_witness :
  LLMJudge.parseValidationResult sample_env sample_output =
  LLMJudge.parseValidationResult sample_env sample_block.
Proof.
  destruct (commentary_around_the_verdict_is_ignored sample_env
              "Here is my verdict: "
              (LLMJudge.dquote ++ "valid" ++ LLMJudge.dquote ++ ": true, " ++
               LLMJudge.dquote ++ "source_relevance" ++ LLMJudge.dquote ++ ": 1.7, " ++
               LLMJudge.dquote ++ "source_usage_rate" ++ LLMJudge.dquote ++ ": " ++
               LLMJudge.dquote ++ "n/a" ++ LLMJudge.dquote)
              " I hope it helps." eq_refl) as [Ignored _].
  destruct (Ignored eq_refl) as [_ Same]. exact Same.
Defined.

(** X29.  A reply without content.  With a runtime that parses the text [{}] as
    the empty object, an OpenAI reply that has no content, or an empty one,
    is scored 0 and 0 and invalid, and so is a Claude reply whose first
    block is no text: these are not the defaults 0.5 of a reply that cannot
    be parsed.  A Claude reply without any block makes the judge reject,
    and the context validator falls back to the lexical computation. *)
Theorem reply_without_content
    (env : Env.t) (key : string) (developerMode : bool) (openaiModel claudeModel : string)
    (query response : string) (sources : list Source) (trace : Trace) :
  let on_openai :=
    LLMJudge.mk (Some key) None Provider.openai developerMode openaiModel claudeModel in
  let on_claude :=
    LLMJudge.mk None (Some key) Provider.claude developerMode openaiModel claudeModel in
  let openai_reply :=
    Env.chat_completions_create env openaiModel
      (LLMJudge.buildValidationPrompt on_openai query response sources) in
  let claude_reply :=
    Env.messages_create env claudeModel
      (LLMJudge.buildValidationPrompt on_claude query response sources) in
  let result_of := fun judge =>
    fst (ContextValidator.validateContext env (ContextValidator.mk (Some judge) true)
           query response sources trace) in
  Js.JSON_parse (Env.runtime env) "{}" = Normal (Js.Object []) ->
  sources <> [] ->
  (openai_reply = Normal None \/ openai_reply = Normal (Some EmptyString) ->
   result_of on_openai = Normal (ContextResult.mk 0 0 false)) /\
  (claude_reply = Normal (Some OtherBlock) ->
   result_of on_claude = Normal (ContextResult.mk 0 0 false)) /\
  (claude_reply = Normal None ->
   result_of on_claude =
     Normal (WordMatching.wordMatchingValidation query response sources)).
Proof.
  cbv zeta. intros Parse NE.
  assert (Empty : LLMJudge.parseValidationResult env "{}" =
                  Normal (ContextResult.mk 0 0 false)).
  { unfold LLMJudge.parseValidationResult, LLMJudge.parseValidationResult_try.
    cbn [LLMJudge.match_braces LLMJudge.upto_last_close Ascii.eqb Bool.eqb].
    cbn [bind ret Monad_Outcome]. rewrite Parse. reflexivity. }
  destruct sources as [|s rest]; [congruence|].
  unfold ContextValidator.validateContext. cbn [List.length Nat.eqb].
  cbn [ContextValidator.useLLMJudge ContextValidator.llmJudge].
  rewrite !catch_Async_run, openai_judge_run, claude_judge_run. cbv zeta.
  split; [|split].
  - assert (O1 : JsString.or_else None "{}" = "{}"%string) by reflexivity.
    assert (O2 : JsString.or_else (Some EmptyString) "{}" = "{}"%string) by reflexivity.
    intros [-> | ->]; rewrite ?O1, ?O2, Empty; reflexivity.
  - intros ->. rewrite Empty. reflexivity.
  - intros ->. rewrite wordMatchingValidation_run. reflexivity.
Qed.

Lemma reply_without_content_witness :
  fst (ContextValidator.validateContext empty_reply_env openai_judge
         "what does the parser read" "The parser reads tokens." [poor_source] []) =
    Normal (ContextResult.mk 0 0 false) /\
  fst (ContextValidator.validateContext empty_reply_env claude_judge
         "what does the parser read" "The parser reads tokens." [poor_source] []) =
    Normal (WordMatching.wordMatchingValidation
              "what does the parser read" "The parser reads tokens." [poor_source]).
Proof.
  split.
  - destruct (reply_without_content empty_reply_env "sk-test" false
                "gpt-4o-mini" "claude-3-haiku-20240307"
                "what does the parser read" "The parser reads tokens." [poor_source] []
                eq_refl ltac:(discriminate)) as [OpenAI _].
    apply OpenAI. left. reflexivity.
  - destruct (reply_without_content empty_reply_env "sk-ant-test" false
                "gpt-4o-mini" "claude-3-haiku-20240307"
                "what does the parser read" "The parser reads tokens." [poor_source] []
                eq_refl ltac:(discriminate)) as (_ & _ & Claude).
    apply Claude. reflexivity.
Defined.
